(** * Walkie-talkie: the WebRTC signalling handshake of [WalkieTalkieApp]

    A shallow embedding of the full-duplex component (the one that owns
    [joinFrequency], [hangUp], [resetChannel], [startTalk], [stopTalk] and
    [adjustFrequency]), followed by the properties of its channel resolver,
    its handshake, its teardown and its push-to-talk control.  The
    broadcast component of the repository, which sends recorded clips
    through a message collection, is embedded after it in the module
    [Broadcast], with the properties of its tuner, its receiver, its
    playback queue and its recorder.

    JavaScript numbers are IEEE-754 binary64 values; they are modelled with
    the executable specification of binary64 arithmetic ([SpecFloat]), so
    that [prev + delta], [toFixed(1)], [parseFloat] and the comparisons of
    the tuner are computed bit for bit. *)

From Stdlib Require Import ZArith Lia List Bool Ascii String.
From Stdlib Require Import SpecFloat.
From stdpp Require Import base option list strings pretty gmap.

Local Open Scope Z_scope.

(** ** JavaScript numbers *)

Module Number.

Definition prec : Z := 53.
Definition emax : Z := 1024.

Definition add : spec_float -> spec_float -> spec_float := SFadd prec emax.
Definition div : spec_float -> spec_float -> spec_float := SFdiv prec emax.
Definition ltb : spec_float -> spec_float -> bool := SFltb.
Definition leb : spec_float -> spec_float -> bool := SFleb.

(** The number denoted by the decimal literal [k / 10^d] (nearest binary64
    value, ties to even): the quotient of two integers is rounded once. *)
Definition of_decimal (neg : bool) (k : N) (d : nat) : spec_float :=
  match k with
  | N0 => S754_zero neg
  | Npos p => div (S754_finite neg p 0)
                  (S754_finite false (Z.to_pos (10 ^ Z.of_nat d)) 0)
  end.

(** The number denoted by [k * 10^x] for an integer [x] of either sign. *)
Definition of_scientific (neg : bool) (k : N) (x : Z) : spec_float :=
  match k, x with
  | N0, _ => S754_zero neg
  | Npos p, Zneg d => of_decimal neg k (Pos.to_nat d)
  | Npos p, _ =>
      binary_normalize prec emax
        (if neg then - (Zpos p * 10 ^ x) else Zpos p * 10 ^ x) 0 neg
  end.

(** Structural equality of two number representations. *)
Definition eqb (x y : spec_float) : bool :=
  match x, y with
  | S754_zero s, S754_zero s' => Bool.eqb s s'
  | S754_infinity s, S754_infinity s' => Bool.eqb s s'
  | S754_nan, S754_nan => true
  | S754_finite s m e, S754_finite s' m' e' =>
      Bool.eqb s s' && Pos.eqb m m' && Z.eqb e e'
  | _, _ => false
  end.

End Number.

(** ** Strings: the fragments of [String.prototype] and of the global
    object that the component calls *)

Module JsString.

Local Open Scope string_scope.

(** [strip_prefix p s] is [Some r] when [s = p ++ r]. *)
Fixpoint strip_prefix (p s : string) : option string :=
  match p, s with
  | EmptyString, _ => Some s
  | String a p', String b s' =>
      if Ascii.eqb a b then strip_prefix p' s' else None
  | String _ _, EmptyString => None
  end.

(** [s.replace(pat, rep)] with a string pattern: the first occurrence of
    [pat] is replaced, the rest of [s] is kept.  ([rep] has no [$]
    pattern at the call sites.) *)
Fixpoint replace (pat rep s : string) : string :=
  match strip_prefix pat s with
  | Some rest => rep +:+ rest
  | None =>
      match s with
      | EmptyString => EmptyString
      | String c s' => String c (replace pat rep s')
      end
  end.

Definition digit_of (c : ascii) : option N :=
  let n := N_of_ascii c in
  if ((48 <=? n) && (n <=? 57))%N then Some (n - 48)%N else None.

(** Reads the longest run of decimal digits at the head of [s]: the
    number read after [acc], how many digits were read, and the rest. *)
Fixpoint read_digits (s : string) (acc : N) (cnt : nat) : N * nat * string :=
  match s with
  | EmptyString => (acc, cnt, s)
  | String c s' =>
      match digit_of c with
      | Some d => read_digits s' (10 * acc + d)%N (S cnt)
      | None => (acc, cnt, s)
      end
  end.

Definition is_space (c : ascii) : bool :=
  let n := N_of_ascii c in
  ((n =? 32) || ((9 <=? n) && (n <=? 13)))%N.

Fixpoint trim_start (s : string) : string :=
  match s with
  | String c s' => if is_space c then trim_start s' else s
  | EmptyString => s
  end.

Definition read_sign (s : string) : bool * string :=
  match s with
  | String "-" s' => (true, s')
  | String "+" s' => (false, s')
  | _ => (false, s)
  end.

(** The exponent part [e±ddd] of a decimal literal, when there is one
    with at least one digit. *)
Definition read_exponent (s : string) : Z :=
  match s with
  | String c s' =>
      if (Ascii.eqb c "e" || Ascii.eqb c "E")%bool then
        let '(neg, s'') := read_sign s' in
        let '(x, n, _) := read_digits s'' 0%N 0%nat in
        match n with
        | O => 0
        | S _ => if neg then - Z.of_N x else Z.of_N x
        end
      else 0
  | EmptyString => 0
  end.

(** [parseFloat(s)]: leading white space is skipped, the longest prefix
    that is a decimal literal is read, and the nearest number is
    returned; [NaN] when no prefix is a literal. *)
Definition parseFloat (s : string) : spec_float :=
  let '(neg, s1) := read_sign (trim_start s) in
  match strip_prefix "Infinity" s1 with
  | Some _ => S754_infinity neg
  | None =>
      let '(ip, ni, s2) := read_digits s1 0%N 0%nat in
      let '(k, nf, s3) :=
        match s2 with
        | String "." s2' => read_digits s2' ip 0%nat
        | _ => (ip, 0%nat, s2)
        end in
      match (ni + nf)%nat with
      | O => S754_nan
      | S _ => Number.of_scientific neg k (read_exponent s3 - Z.of_nat nf)
      end
  end.

End JsString.

(** ** The component *)

Section WalkieTalkieApp.

Local Open Scope string_scope.

(** *** [Number.prototype.toFixed(1)]

    [Number::toString] for a finite number of magnitude at least
    [10^21] (exponent notation).  [toFixed] delegates to it there; the
    routine belongs to the JavaScript engine and is taken as given. *)
Variable numberToString : spec_float -> string.

(** The integer [n] for which [n / 10 - x] is closest to zero, the larger
    one when two are as close, where [x = m * 2^e]. *)
Definition tenths (m : positive) (e : Z) : Z :=
  match e with
  | Zneg k => (20 * Zpos m + 2 ^ Zpos k) / 2 ^ (Zpos k + 1)
  | _ => 10 * Zpos m * 2 ^ e
  end.

(** [10^21 <= m * 2^e]. *)
Definition ge_1e21 (m : positive) (e : Z) : bool :=
  match e with
  | Zneg k => (10 ^ 21 * 2 ^ Zpos k <=? Zpos m)%Z
  | _ => (10 ^ 21 <=? Zpos m * 2 ^ e)%Z
  end.

(** The digits of [n] with a point before the last one. *)
Definition fixed1_digits (n : Z) : string :=
  pretty (Z.to_N (n / 10)) +:+ "." +:+ pretty (Z.to_N (n mod 10)).

Definition toFixed1 (x : spec_float) : string :=
  match x with
  | S754_nan => "NaN"
  | S754_infinity s => if s then "-Infinity" else "Infinity"
  | S754_zero _ => "0.0"
  | S754_finite s m e =>
      (if s then "-" else "") +:+
      (if ge_1e21 m e then numberToString (S754_finite false m e)
       else fixed1_digits (tenths m e))
  end.

(** The frequency quantized to one decimal, in tenths of a megahertz. *)
Definition quantize (x : spec_float) : Z :=
  match x with
  | S754_finite s m e => if s then - tenths m e else tenths m e
  | _ => 0
  end.

(** *** Channel resolver:
    [`freq_${frequency.toFixed(1).replace('.', '_')}`] *)
Definition callId (frequency : spec_float) : string :=
  "freq_" +:+ JsString.replace "." "_" (toFixed1 frequency).

(** *** Tuner *)

Definition freq_min : spec_float := Number.of_decimal false 875 1.    (* 87.5 *)
Definition freq_max : spec_float := Number.of_decimal false 1080 1.   (* 108.0 *)
Definition freq_init : spec_float := Number.of_decimal false 10550 2. (* 105.50 *)
Definition step_up : spec_float := Number.of_decimal false 1 1.       (* 0.1 *)
Definition step_down : spec_float := SFopp step_up.                   (* -0.1 *)

(** The updater passed to [setFrequency] by [adjustFrequency]. *)
Definition nextFrequency (prev delta : spec_float) : spec_float :=
  let newFreq := JsString.parseFloat (toFixed1 (Number.add prev delta)) in
  if Number.ltb newFreq freq_min then freq_min
  else if Number.ltb freq_max newFreq then freq_max
  else newFreq.


(** *** Data model *)

(** [RTCSessionDescription]: the two fields the component copies into
    the channel document. *)
Record SessionDescription := {
  sd_type : string;
  sd_sdp : string
}.

(** The [offer] and [answer] fields of a channel document. *)
Record Offer := {
  offer_sdp : string;
  offer_type : string;
  hostId : string;
  timestamp : nat
}.

Record Answer := {
  answer_type : string;
  answer_sdp : string;
  guestId : string
}.

(** A document of the collection [walkie_channels]. *)
Record ChannelDoc := {
  offer : option Offer;
  answer : option Answer
}.

(** The two candidate sub-collections of a channel document. *)
Inductive Collection := OfferCandidates | AnswerCandidates.

(** Calls that change the store, in the order they were made. *)
Inductive Write :=
| WSetDoc (id : string) (d : ChannelDoc)          (* setDoc(callDocRef, { offer }) *)
| WUpdateAnswer (id : string) (a : Answer)        (* updateDoc(callDocRef, { answer }) *)
| WAddDoc (id : string) (col : Collection) (candidate : string) (* addDoc(col, candidate) *)
| WDeleteDoc (id : string).                       (* deleteDoc(doc(db, ..., callId)) *)

(** The Firestore database shared by every client. *)
Record Store := {
  docs : gmap string ChannelDoc;
  offerCandidates : gmap string (list string);
  answerCandidates : gmap string (list string);
  writes : list Write
}.

(** [MediaStreamTrack]: the [enabled] flag and the ready state. *)
Inductive TrackState := Live | Ended.

Record Track := {
  enabled : bool;
  readyState : TrackState
}.

(** [RTCPeerConnection].  A description passed to an awaited call is in
    place when the call returns; [setRemoteDescription] called without
    [await] (the answer listener) leaves its argument in [operations]
    until the connection settles it. *)
Record PeerConnection := {
  senders : option nat;                        (* the stream whose tracks were added *)
  localDescription : option SessionDescription;
  currentRemoteDescription : option SessionDescription;
  operations : list SessionDescription;
  remoteCandidates : list string;              (* addIceCandidate *)
  onicecandidate : option (string * Collection);
  connectionState : string
}.

(** What an [onSnapshot] call listens to. *)
Inductive Source := ChannelDocument | Candidates (col : Collection).

(** A listener registered with [onSnapshot]; the function [onSnapshot]
    returns is the position of the listener in the registry. *)
Record Listener := {
  l_callId : string;
  l_source : Source;
  l_active : bool
}.

(** Resources handed back to the platform, in the order of release. *)
Inductive Resource :=
| RTrack (stream index : nat)      (* a live track was stopped *)
| RPeerConnection                  (* pc.current.close() *)
| RListener (handle : nat).        (* an active listener was detached *)

(** One mounted [WalkieTalkieApp]: its React state, its refs, and the
    browser objects they point to.  ([volume], [remoteStream] and
    [remoteAudioRef] only concern playback and are left out.) *)
Record Client := {
  (* useState *)
  user : option string;
  isOn : bool;
  frequency : spec_float;
  isTalking : bool;
  connectionStatus : string;
  (* useRef *)
  pc : option PeerConnection;
  localStream : option nat;
  unsubscribeRef : option nat;
  (* browser side *)
  streams : list (list Track);     (* every stream getUserMedia returned *)
  listeners : list Listener;       (* every listener onSnapshot registered *)
  released : list Resource
}.

(** Field updates (the assignments to a ref or a state variable). *)

Definition set_user (v : option string) (c : Client) : Client :=
  {| user := v; isOn := isOn c; frequency := frequency c;
     isTalking := isTalking c; connectionStatus := connectionStatus c;
     pc := pc c; localStream := localStream c;
     unsubscribeRef := unsubscribeRef c; streams := streams c;
     listeners := listeners c; released := released c |}.
Definition set_isOn (v : bool) (c : Client) : Client :=
  {| user := user c; isOn := v; frequency := frequency c;
     isTalking := isTalking c; connectionStatus := connectionStatus c;
     pc := pc c; localStream := localStream c;
     unsubscribeRef := unsubscribeRef c; streams := streams c;
     listeners := listeners c; released := released c |}.
Definition set_frequency (v : spec_float) (c : Client) : Client :=
  {| user := user c; isOn := isOn c; frequency := v;
     isTalking := isTalking c; connectionStatus := connectionStatus c;
     pc := pc c; localStream := localStream c;
     unsubscribeRef := unsubscribeRef c; streams := streams c;
     listeners := listeners c; released := released c |}.
Definition set_isTalking (v : bool) (c : Client) : Client :=
  {| user := user c; isOn := isOn c; frequency := frequency c;
     isTalking := v; connectionStatus := connectionStatus c; pc := pc c;
     localStream := localStream c; unsubscribeRef := unsubscribeRef c;
     streams := streams c; listeners := listeners c;
     released := released c |}.
Definition set_connectionStatus (v : string) (c : Client) : Client :=
  {| user := user c; isOn := isOn c; frequency := frequency c;
     isTalking := isTalking c; connectionStatus := v; pc := pc c;
     localStream := localStream c; unsubscribeRef := unsubscribeRef c;
     streams := streams c; listeners := listeners c;
     released := released c |}.
Definition set_pc (v : option PeerConnection) (c : Client) : Client :=
  {| user := user c; isOn := isOn c; frequency := frequency c;
     isTalking := isTalking c; connectionStatus := connectionStatus c;
     pc := v; localStream := localStream c;
     unsubscribeRef := unsubscribeRef c; streams := streams c;
     listeners := listeners c; released := released c |}.
Definition set_localStream (v : option nat) (c : Client) : Client :=
  {| user := user c; isOn := isOn c; frequency := frequency c;
     isTalking := isTalking c; connectionStatus := connectionStatus c;
     pc := pc c; localStream := v; unsubscribeRef := unsubscribeRef c;
     streams := streams c; listeners := listeners c;
     released := released c |}.
Definition set_unsubscribeRef (v : option nat) (c : Client) : Client :=
  {| user := user c; isOn := isOn c; frequency := frequency c;
     isTalking := isTalking c; connectionStatus := connectionStatus c;
     pc := pc c; localStream := localStream c; unsubscribeRef := v;
     streams := streams c; listeners := listeners c;
     released := released c |}.
Definition set_streams (v : list (list Track)) (c : Client) : Client :=
  {| user := user c; isOn := isOn c; frequency := frequency c;
     isTalking := isTalking c; connectionStatus := connectionStatus c;
     pc := pc c; localStream := localStream c;
     unsubscribeRef := unsubscribeRef c; streams := v;
     listeners := listeners c; released := released c |}.
Definition set_listeners (v : list Listener) (c : Client) : Client :=
  {| user := user c; isOn := isOn c; frequency := frequency c;
     isTalking := isTalking c; connectionStatus := connectionStatus c;
     pc := pc c; localStream := localStream c;
     unsubscribeRef := unsubscribeRef c; streams := streams c;
     listeners := v; released := released c |}.
Definition set_released (v : list Resource) (c : Client) : Client :=
  {| user := user c; isOn := isOn c; frequency := frequency c;
     isTalking := isTalking c; connectionStatus := connectionStatus c;
     pc := pc c; localStream := localStream c;
     unsubscribeRef := unsubscribeRef c; streams := streams c;
     listeners := listeners c; released := v |}.

Definition set_senders (v : option nat) (p : PeerConnection) : PeerConnection :=
  {| senders := v; localDescription := localDescription p;
     currentRemoteDescription := currentRemoteDescription p;
     operations := operations p; remoteCandidates := remoteCandidates p;
     onicecandidate := onicecandidate p;
     connectionState := connectionState p |}.
Definition set_localDescription (v : option SessionDescription) (p : PeerConnection) : PeerConnection :=
  {| senders := senders p; localDescription := v;
     currentRemoteDescription := currentRemoteDescription p;
     operations := operations p; remoteCandidates := remoteCandidates p;
     onicecandidate := onicecandidate p;
     connectionState := connectionState p |}.
Definition set_currentRemoteDescription (v : option SessionDescription) (p : PeerConnection) : PeerConnection :=
  {| senders := senders p; localDescription := localDescription p;
     currentRemoteDescription := v; operations := operations p;
     remoteCandidates := remoteCandidates p;
     onicecandidate := onicecandidate p;
     connectionState := connectionState p |}.
Definition set_operations (v : list SessionDescription) (p : PeerConnection) : PeerConnection :=
  {| senders := senders p; localDescription := localDescription p;
     currentRemoteDescription := currentRemoteDescription p;
     operations := v; remoteCandidates := remoteCandidates p;
     onicecandidate := onicecandidate p;
     connectionState := connectionState p |}.
Definition set_remoteCandidates (v : list string) (p : PeerConnection) : PeerConnection :=
  {| senders := senders p; localDescription := localDescription p;
     currentRemoteDescription := currentRemoteDescription p;
     operations := operations p; remoteCandidates := v;
     onicecandidate := onicecandidate p;
     connectionState := connectionState p |}.
Definition set_onicecandidate (v : option (string * Collection)) (p : PeerConnection) : PeerConnection :=
  {| senders := senders p; localDescription := localDescription p;
     currentRemoteDescription := currentRemoteDescription p;
     operations := operations p; remoteCandidates := remoteCandidates p;
     onicecandidate := v; connectionState := connectionState p |}.
Definition set_connectionState (v : string) (p : PeerConnection) : PeerConnection :=
  {| senders := senders p; localDescription := localDescription p;
     currentRemoteDescription := currentRemoteDescription p;
     operations := operations p; remoteCandidates := remoteCandidates p;
     onicecandidate := onicecandidate p; connectionState := v |}.

Definition set_docs (v : gmap string ChannelDoc) (db : Store) : Store :=
  {| docs := v; offerCandidates := offerCandidates db;
     answerCandidates := answerCandidates db; writes := writes db |}.
Definition set_offerCandidates (v : gmap string (list string)) (db : Store) : Store :=
  {| docs := docs db; offerCandidates := v;
     answerCandidates := answerCandidates db; writes := writes db |}.
Definition set_answerCandidates (v : gmap string (list string)) (db : Store) : Store :=
  {| docs := docs db; offerCandidates := offerCandidates db;
     answerCandidates := v; writes := writes db |}.
Definition set_writes (v : list Write) (db : Store) : Store :=
  {| docs := docs db; offerCandidates := offerCandidates db;
     answerCandidates := answerCandidates db; writes := v |}.

(** *** The JoinEnv record: what the platform answers during one
    [joinFrequency] *)

Record JoinEnv := {
  mic : option nat;   (* getUserMedia: the number of audio tracks granted, or a rejection *)
  sdp : string;       (* the session description createOffer / createAnswer produces *)
  now : nat           (* serverTimestamp() *)
}.

(** The component right after it is mounted. *)
Definition initial : Client :=
  {| user := None; isOn := false; frequency := freq_init;
     isTalking := false; connectionStatus := "DISCONNECTED";
     pc := None; localStream := None; unsubscribeRef := None;
     streams := []; listeners := []; released := [] |}.

Definition empty_store : Store :=
  {| docs := ∅; offerCandidates := ∅; answerCandidates := ∅; writes := [] |}.

Definition setConnectionStatus : string -> Client -> Client :=
  set_connectionStatus.

(** [const setStatus = (status) => { setConnectionStatus(status); }] *)
Definition setStatus (status : string) (c : Client) : Client :=
  setConnectionStatus status c.

(** *** [setupAudio] *)

(** A track as [getUserMedia] returns it. *)
Definition fresh_track : Track := {| enabled := true; readyState := Live |}.

Definition set_enabled (v : bool) (t : Track) : Track :=
  {| enabled := v; readyState := readyState t |}.

(** [stream.getAudioTracks().forEach(track => { track.enabled = false; })];
    the stream becomes [localStream.current].  On a rejection the function
    returns [null] and leaves [localStream.current] as it was. *)
Definition setupAudio (env : JoinEnv) (c : Client) : Client * option nat :=
  match mic env with
  | Some n =>
      let stream := length (streams c) in
      let c1 := set_streams (streams c ++ [replicate n fresh_track]) c in
      let c2 := set_localStream (Some stream) c1 in
      let c3 := set_streams (alter (map (set_enabled false)) stream (streams c2)) c2 in
      (c3, Some stream)
  | None => (c, None)
  end.

(** *** [createPeerConnection] *)
Definition createPeerConnection (c : Client) : PeerConnection :=
  {| senders := localStream c;
     localDescription := None;
     currentRemoteDescription := None;
     operations := [];
     remoteCandidates := [];
     onicecandidate := None;
     connectionState := "new" |}.

(** *** [hangUp] *)

(** [MediaStreamTrack.stop()]: a live track is ended and its source is
    released; on a track that has ended the call returns at once. *)
Definition stopTrack (t : Track) : Track :=
  {| enabled := enabled t; readyState := Ended |}.

(** [stream.getTracks().forEach(track => track.stop())], with the tracks
    that the loop ended (those that were live), from position [i] on. *)
Fixpoint stopTracks (stream i : nat) (ts : list Track)
  : list Track * list Resource :=
  match ts with
  | [] => ([], [])
  | t :: ts' =>
      let '(ts'', r) := stopTracks stream (S i) ts' in
      (stopTrack t :: ts'',
       match readyState t with
       | Live => RTrack stream i :: r
       | Ended => r
       end)
  end.

(** The function [onSnapshot] returned, called: the listener is detached. *)
Definition unsubscribe (h : nat) (c : Client) : Client :=
  match listeners c !! h with
  | Some l =>
      let c1 := set_listeners
                  (<[h := {| l_callId := l_callId l; l_source := l_source l;
                             l_active := false |}]> (listeners c)) c in
      if l_active l then set_released (released c1 ++ [RListener h]) c1 else c1
  | None => c
  end.

Definition hangUp (c : Client) : Client :=
  (* Stop tracks *)
  let c1 :=
    match localStream c with
    | Some stream =>
        match streams c !! stream with
        | Some ts =>
            let '(ts', r) := stopTracks stream 0 ts in
            set_released (released c ++ r)
              (set_streams (<[stream := ts']> (streams c)) c)
        | None => c
        end
    | None => c
    end in
  (* Close PC *)
  let c2 :=
    match pc c1 with
    | Some _ => set_pc None (set_released (released c1 ++ [RPeerConnection]) c1)
    | None => c1
    end in
  (* Stop Listening *)
  let c3 :=
    match unsubscribeRef c2 with
    | Some h => set_unsubscribeRef None (unsubscribe h c2)
    | None => c2
    end in
  setConnectionStatus "DISCONNECTED" c3.

(** *** [joinFrequency]

    The function is taken as one step: nothing else runs between its
    awaits.  (The section on interrupted joins below splits it at the
    await of [getUserMedia], where [togglePower] has returned and other
    handlers run.)  [remoteStream] and the audio element only concern
    playback and are left out. *)

(** [onSnapshot(target, callback)]: the listener is appended to the
    registry; its position is the handle. *)
Definition onSnapshot (id : string) (src : Source) (c : Client) : Client * nat :=
  (set_listeners
     (listeners c ++ [{| l_callId := id; l_source := src; l_active := true |}]) c,
   length (listeners c)).

(** The offer stored in the document the join read, if any:
    [callDoc.exists() && callDoc.data().offer]. *)
Definition stored_offer (db : Store) (id : string) : option Offer :=
  match docs db !! id with
  | Some d => offer d
  | None => None
  end.

(** The branch [I AM THE CALLER (HOST)]. *)
Definition joinAsHost (env : JoinEnv) (uid id : string) (p : PeerConnection)
    (c : Client) (db : Store) : Client * Store :=
  let p1 := set_onicecandidate (Some (id, OfferCandidates)) p in
  let offerDescription := {| sd_type := "offer"; sd_sdp := sdp env |} in
  let p2 := set_localDescription (Some offerDescription) p1 in
  let c1 := set_pc (Some p2) c in
  let offer := {| offer_sdp := sd_sdp offerDescription;
                  offer_type := sd_type offerDescription;
                  hostId := uid;
                  timestamp := now env |} in
  let d := {| offer := Some offer; answer := None |} in
  let db1 := set_writes (writes db ++ [WSetDoc id d])
               (set_docs (<[id := d]> (docs db)) db) in
  let c2 := setStatus "WAITING FOR PEER..." c1 in
  (* Listen for Answer *)
  let '(c3, h) := onSnapshot id ChannelDocument c2 in
  let c4 := set_unsubscribeRef (Some h) c3 in
  (* Listen for Remote ICE Candidates *)
  let '(c5, _) := onSnapshot id (Candidates AnswerCandidates) c4 in
  (c5, db1).

(** The branch [I AM THE ANSWERER (GUEST)]. *)
Definition joinAsGuest (env : JoinEnv) (uid id : string) (o : Offer)
    (p : PeerConnection) (c : Client) (db : Store) : Client * Store :=
  let c1 := setStatus "CONNECTING..." c in
  let p1 := set_onicecandidate (Some (id, AnswerCandidates)) p in
  let p2 := set_currentRemoteDescription
              (Some {| sd_type := offer_type o; sd_sdp := offer_sdp o |}) p1 in
  let answerDescription := {| sd_type := "answer"; sd_sdp := sdp env |} in
  let p3 := set_localDescription (Some answerDescription) p2 in
  let c2 := set_pc (Some p3) c1 in
  let answer := {| answer_type := sd_type answerDescription;
                   answer_sdp := sd_sdp answerDescription;
                   guestId := uid |} in
  let db1 := set_writes (writes db ++ [WUpdateAnswer id answer])
               (set_docs (alter (fun d => {| offer := offer d;
                                             answer := Some answer |}) id
                                (docs db)) db) in
  (* Listen for Remote ICE Candidates *)
  let '(c3, _) := onSnapshot id (Candidates OfferCandidates) c2 in
  (c3, db1).

Definition joinFrequency (env : JoinEnv) (c : Client) (db : Store)
  : Client * Store :=
  match user c with
  | None => (c, db)
  | Some uid =>
      let c1 := setStatus "TUNING..." c in
      match setupAudio env c1 with
      | (c2, None) => (c2, db)
      | (c2, Some _) =>
          let p := createPeerConnection c2 in
          let c3 := set_pc (Some p) c2 in
          let id := callId (frequency c3) in
          match stored_offer db id with
          | None => joinAsHost env uid id p c3 db
          | Some o => joinAsGuest env uid id o p c3 db
          end
      end
  end.

(** *** [resetChannel]

    The store carries out the delete (the [catch] branch only logs); the
    [alert] is left out. *)
Definition resetChannel (c : Client) (db : Store) : Client * Store :=
  let id := callId (frequency c) in
  let db1 := set_writes (writes db ++ [WDeleteDoc id])
               (set_docs (delete id (docs db)) db) in
  (hangUp c, db1).

(** *** [togglePower] *)
Definition togglePower (env : JoinEnv) (c : Client) (db : Store)
  : Client * Store :=
  if isOn c then (hangUp (set_isOn false c), db)
  else joinFrequency env (set_isOn true c) db.

(** *** Push to talk: [startTalk] and [stopTalk] *)

Definition setTracksEnabled (v : bool) (c : Client) : Client :=
  match localStream c with
  | Some stream =>
      set_streams (alter (map (set_enabled v)) stream (streams c)) c
  | None => c
  end.

Definition startTalk (c : Client) : Client :=
  if negb (isOn c) then c
  else setTracksEnabled true (set_isTalking true c).

Definition stopTalk (c : Client) : Client :=
  if negb (isOn c) then c
  else setTracksEnabled false (set_isTalking false c).

(** *** [adjustFrequency]; [confirmed] is the answer to [confirm(...)]. *)
Definition adjustFrequency (delta : spec_float) (confirmed : bool)
    (c : Client) : Client :=
  let proceed :=
    if negb (String.eqb (connectionStatus c) "DISCONNECTED") then
      if negb confirmed then None else Some (hangUp c)
    else Some c in
  match proceed with
  | None => c
  | Some c1 =>
      set_isOn false (set_frequency (nextFrequency (frequency c1) delta) c1)
  end.

(** *** Callbacks *)

(** [newPc.onconnectionstatechange], run with [newPc.connectionState]. *)
Definition onconnectionstatechange (st : string) (c : Client) : Client :=
  if String.eqb st "connected" then setConnectionStatus "CONNECTED" c
  else if String.eqb st "disconnected" || String.eqb st "failed"
  then hangUp (setConnectionStatus "DISCONNECTED" c)
  else c.

(** [pc.current.onicecandidate]: a candidate is appended to the
    sub-collection of the role. *)
Definition addDoc (id : string) (col : Collection) (candidate : string)
    (db : Store) : Store :=
  let db1 :=
    match col with
    | OfferCandidates =>
        set_offerCandidates
          (<[id := (default [] (offerCandidates db !! id) ++ [candidate])%list]>
             (offerCandidates db)) db
    | AnswerCandidates =>
        set_answerCandidates
          (<[id := (default [] (answerCandidates db !! id) ++ [candidate])%list]>
             (answerCandidates db)) db
    end in
  set_writes (writes db ++ [WAddDoc id col candidate]) db1.

Definition onIceCandidate (candidate : option string) (c : Client)
    (db : Store) : Client * Store :=
  match pc c with
  | Some p =>
      match onicecandidate p, candidate with
      | Some (id, col), Some cand => (c, addDoc id col cand db)
      | _, _ => (c, db)
      end
  | None => (c, db)
  end.

(** The answer listener of the host, run with [snapshot.data()].  When
    [pc.current] is [null] the first property access throws and the
    callback ends there. *)
Definition onAnswerSnapshot (data : option ChannelDoc) (c : Client) : Client :=
  match pc c with
  | None => c
  | Some p =>
      match currentRemoteDescription p, data ≫= answer with
      | None, Some a =>
          let answerDescription :=
            {| sd_type := answer_type a; sd_sdp := answer_sdp a |} in
          let p1 := set_operations (operations p ++ [answerDescription]) p in
          setStatus "CONNECTING..." (set_pc (Some p1) c)
      | _, _ => c
      end
  end.

(** The candidate listener of either role, run with the documents its
    snapshot reports as added.  When [pc.current] is [null] the first
    [addIceCandidate] throws. *)
Definition onCandidatesSnapshot (added : list string) (c : Client) : Client :=
  match pc c with
  | None => c
  | Some p => set_pc (Some (set_remoteCandidates (remoteCandidates p ++ added) p)) c
  end.

(** The connection settles the oldest pending [setRemoteDescription]: the
    description is applied when none is in place, and rejected otherwise
    (the connection is stable again once an answer is applied). *)
Definition settle (c : Client) : Client :=
  match pc c with
  | Some p =>
      match operations p with
      | d :: rest =>
          let p1 := set_operations rest p in
          match currentRemoteDescription p with
          | None => set_pc (Some (set_currentRemoteDescription (Some d) p1)) c
          | Some _ => set_pc (Some p1) c
          end
      | [] => c
      end
  | None => c
  end.

(** *** Executions *)

(** What can happen to a mounted component: the handlers bound in the
    JSX, and the callbacks the platform invokes. *)
Inductive Event :=
| AuthStateChanged (u : option string)          (* onAuthStateChanged(auth, setUser) *)
| TogglePower (env : JoinEnv)
| ResetChannel
| AdjustFrequency (delta : spec_float) (confirmed : bool)
| StartTalk
| StopTalk
| ConnectionStateChange (st : string)
| IceCandidate (candidate : option string)
| Settled
| DocSnapshot (h : nat)
| CandidatesSnapshot (h : nat) (added : list string).

(** A snapshot is delivered to listener [h] only while it is attached. *)
Definition attached (h : nat) (c : Client) : option Listener :=
  match listeners c !! h with
  | Some l => if l_active l then Some l else None
  | None => None
  end.

Definition step (w : Client * Store) (ev : Event) : Client * Store :=
  let '(c, db) := w in
  match ev with
  | AuthStateChanged u => (set_user u c, db)
  | TogglePower env => togglePower env c db
  | ResetChannel => resetChannel c db
  | AdjustFrequency delta confirmed => (adjustFrequency delta confirmed c, db)
  | StartTalk => (startTalk c, db)
  | StopTalk => (stopTalk c, db)
  | ConnectionStateChange st =>
      match pc c with
      | Some p => (onconnectionstatechange st
                     (set_pc (Some (set_connectionState st p)) c), db)
      | None => (c, db)
      end
  | IceCandidate candidate => onIceCandidate candidate c db
  | Settled => (settle c, db)
  | DocSnapshot h =>
      match attached h c with
      | Some {| l_callId := id; l_source := ChannelDocument |} =>
          (onAnswerSnapshot (docs db !! id) c, db)
      | _ => (c, db)
      end
  | CandidatesSnapshot h added =>
      match attached h c with
      | Some {| l_source := Candidates _ |} => (onCandidatesSnapshot added c, db)
      | _ => (c, db)
      end
  end.

Definition run (evs : list Event) (w : Client * Store) : Client * Store :=
  fold_left step evs w.



(** *** Observations *)

Inductive Role := Host | Guest | Unassigned.

(** The role of a session shows in the description it generated: the
    host's is an offer, the guest's an answer. *)
Definition role (c : Client) : Role :=
  match pc c with
  | Some p =>
      match localDescription p with
      | Some d => if String.eqb (sd_type d) "offer" then Host else Guest
      | None => Unassigned
      end
  | None => Unassigned
  end.

Definition remoteDescription (c : Client) : option SessionDescription :=
  match pc c with
  | Some p => currentRemoteDescription p
  | None => None
  end.

(** The listeners still attached. *)
Definition attached_listeners (c : Client) : list Listener :=
  List.filter l_active (listeners c).

(** *** Predicates used by the properties *)



(** A track as [setupAudio] leaves it: live and muted. *)
Definition muted_track : Track := {| enabled := false; readyState := Live |}.

(** The three states the comment on the declaration of [connectionStatus]
    names, and the five values the component gives it. *)
Definition named_states : list string :=
  ["DISCONNECTED"; "CONNECTING"; "CONNECTED"].

Definition status_values : list string :=
  ["DISCONNECTED"; "TUNING..."; "WAITING FOR PEER..."; "CONNECTING...";
   "CONNECTED"].

(** Every track of the local stream, if there is one, has ended. *)
Definition local_tracks_ended (c : Client) : Prop :=
  forall stream ts,
    localStream c = Some stream ->
    streams c !! stream = Some ts ->
    Forall (fun t => readyState t = Ended) ts.

(** The session is closed: no connection, no stored unsubscribe function,
    no live local track, and the status [DISCONNECTED]. *)
Definition closed (c : Client) : Prop :=
  pc c = None
  /\ unsubscribeRef c = None
  /\ connectionStatus c = "DISCONNECTED"
  /\ local_tracks_ended c.

(** The host's answer listener run on a series of snapshots of the
    channel document. *)
Definition deliver (datas : list (option ChannelDoc)) (c : Client) : Client :=
  fold_left (fun c data => onAnswerSnapshot data c) datas c.

(** Every event but the power button, which ends a session or starts the
    next one. *)
Definition within_session (ev : Event) : Prop :=
  match ev with
  | TogglePower _ => False
  | _ => True
  end.

(** The channel id of a frequency of [n] tenths. *)
Definition id_of_tenths (n : Z) : string :=
  "freq_" +:+ JsString.replace "." "_" (fixed1_digits n).

Definition tuner_tenths : list Z := map Z.of_nat (seq 875 206).

(** The offer a host writes and the answer a guest writes. *)
Definition offer_of (env : JoinEnv) (uid : string) : Offer :=
  {| offer_sdp := sdp env; offer_type := "offer";
     hostId := uid; timestamp := now env |}.

Definition answer_of (env : JoinEnv) (uid : string) : Answer :=
  {| answer_type := "answer"; answer_sdp := sdp env; guestId := uid |}.

(** A frequency of the tuner range: [87.5 <= f && f <= 108.0]. *)
Definition valid_frequency (f : spec_float) : bool :=
  Number.leb freq_min f && Number.leb f freq_max.

(** The numbers the literals [87.5], [87.6], ..., [108.0] denote. *)
Definition grid : list spec_float :=
  map (fun k => Number.of_decimal false (N.of_nat k) 1) (seq 875 206).

Definition in_grid (f : spec_float) : bool := existsb (Number.eqb f) grid.

(** [f] is written with one decimal: printing it with [toFixed(1)] and
    reading the digits back gives [f] again. *)
Definition one_decimal (f : spec_float) : bool :=
  Number.eqb (JsString.parseFloat (toFixed1 f)) f.

(** The events of an execution in which the tuner is only moved by its
    two buttons, [adjustFrequency(-0.1)] and [adjustFrequency(0.1)]. *)
Definition button_step (ev : Event) : Prop :=
  match ev with
  | AdjustFrequency delta _ => delta = step_up \/ delta = step_down
  | _ => True
  end.

End WalkieTalkieApp.

(** ** Further definitions of the full-duplex component *)

(** The stored unsubscribe function, when there is one, belongs to a
    listener of a channel document. *)
Definition handle_on_document (c : Client) : Prop :=
  forall h, unsubscribeRef c = Some h ->
            exists l, listeners c !! h = Some l
                      /\ l_source l = ChannelDocument.

(** A listener with its flag cleared. *)
Definition detached (l : Listener) : Listener :=
  {| l_callId := l_callId l; l_source := l_source l; l_active := false |}.


(** *** Operators and [Math] functions of the display and of the receiver *)

Definition Number_sub : spec_float -> spec_float -> spec_float :=
  SFsub Number.prec Number.emax.
Definition Number_mul : spec_float -> spec_float -> spec_float :=
  SFmul Number.prec Number.emax.

Module Math.

Definition abs : spec_float -> spec_float := SFabs.

(** [Math.floor]: the largest integer not above [x]; [x] itself when it
    is an integer, a zero, an infinity or [NaN]. *)
Definition floor (x : spec_float) : spec_float :=
  match x with
  | S754_finite s m (Zneg k) =>
      binary_normalize Number.prec Number.emax
        ((if s then Z.neg m else Z.pos m) / 2 ^ Z.pos k) 0 s
  | _ => x
  end.

End Math.

Section Display.

Local Open Scope string_scope.

Variable numberToString : spec_float -> string.

(** [getStatusDisplay]: the text next to the channel number. *)
Definition getStatusDisplay (c : Client) : string :=
  if negb (isOn c) then "OFFLINE"
  else if String.eqb (connectionStatus c) "CONNECTED" then "LIVE LINK"
  else connectionStatus c.

(** [CH: {Math.floor((frequency - 87.5) * 2)}]. *)
Definition channelNumber (frequency : spec_float) : spec_float :=
  Math.floor (Number_mul (Number_sub frequency freq_min)
                         (Number.of_scientific false 2 0)).

(** The [onChange] handler of the frequency slider:
    [if (isOn) adjustFrequency(parseFloat(e.target.value) - frequency)]. *)
Definition onTunerChange (value : string) (confirmed : bool) (c : Client)
  : Client :=
  if isOn c then
    adjustFrequency numberToString
      (Number_sub (JsString.parseFloat value) (frequency c)) confirmed c
  else c.

End Display.

(** ** Joins that other handlers interrupt

    [togglePower] calls [joinFrequency] without awaiting it, and
    [joinFrequency] awaits [getUserMedia] before it touches a ref, so
    other handlers and callbacks run while a join is pending.  Here the
    join is split at that await: what follows it runs when the platform
    settles the promise, with the [user] and the [frequency] the call
    closed over, and is taken to the end of the function in one step. *)

Section Interleaved.

Local Open Scope string_scope.

Variable numberToString : spec_float -> string.

(** [joinFrequency] up to [await setupAudio()]: the guard on [user] and
    the status; the result carries what the rest of the call closed
    over. *)
Definition joinFrequency_begin (c : Client)
  : Client * option (string * spec_float) :=
  match user c with
  | None => (c, None)
  | Some uid => (setStatus "TUNING..." c, Some (uid, frequency c))
  end.

(** The rest of [joinFrequency], from the point where [getUserMedia]
    settles. *)
Definition joinFrequency_resume (env : JoinEnv) (k : string * spec_float)
    (c : Client) (db : Store) : Client * Store :=
  let '(uid, frequency) := k in
  match setupAudio env c with
  | (c2, None) => (c2, db)
  | (c2, Some _) =>
      let p := createPeerConnection c2 in
      let c3 := set_pc (Some p) c2 in
      let id := callId numberToString frequency in
      match stored_offer db id with
      | None => joinAsHost env uid id p c3 db
      | Some o => joinAsGuest env uid id o p c3 db
      end
  end.

(** [togglePower], which returns while the join it started is pending. *)
Definition pressPower (c : Client) : Client * option (string * spec_float) :=
  if isOn c then (hangUp (set_isOn false c), None)
  else joinFrequency_begin (set_isOn true c).

(** What can happen to a mounted component when joins are split: a press
    of the power button, the settling of the oldest pending
    [getUserMedia], and the handlers and callbacks of [Event] (a
    [TogglePower] among them is a press whose join runs to its end at
    once). *)
Inductive Action :=
| PowerPressed
| MicrophoneSettled (env : JoinEnv)
| Handler (ev : Event).

(** The component, the store, and the joins that are pending. *)
Definition World : Type := Client * Store * list (string * spec_float).

Definition client (w : World) : Client := fst (fst w).
Definition store (w : World) : Store := snd (fst w).
Definition pending_joins (w : World) : list (string * spec_float) := snd w.

Definition act (w : World) (a : Action) : World :=
  let '(c, db, joins) := w in
  match a with
  | PowerPressed =>
      let '(c1, k) := pressPower c in
      (c1, db, (joins ++ match k with Some k => [k] | None => [] end)%list)
  | MicrophoneSettled env =>
      match joins with
      | k :: rest => (joinFrequency_resume env k c db, rest)
      | [] => w
      end
  | Handler ev => (step numberToString (c, db) ev, joins)
  end.

Definition perform (acts : list Action) (w : World) : World :=
  fold_left act acts w.


(** Stream [s] is captured and is not the local stream any more. *)
Definition replaced (s : nat) (c : Client) : Prop :=
  exists cur, localStream c = Some cur /\ cur <> s.

End Interleaved.

(** ** The broadcast component

    The second [WalkieTalkieApp] of the repository (the one that records a
    clip while the talk button is held, writes it to the message
    collection, and plays the clips other users wrote on its frequency).

    Every handler and callback runs against the last render: a render
    follows each state change before the next callback.  Inside one
    callback the state variables keep the values they had when it began,
    so the snapshot listener compares every message of a snapshot with the
    same [lastMessageId].  A function that awaits is split at the await:
    what follows runs when the platform settles the promise, with the
    values the function closed over.  [volume] only concerns the gain of
    the playback and is left out, and so is the content of the recording,
    which the platform supplies. *)

Module Broadcast.

Section Component.

Local Open Scope string_scope.

(** [Number::toString], which [parseFloat(frequency)] applies to its
    argument, and [toFixed] to a number of magnitude [10^21] or more. *)
Variable numberToString : spec_float -> string.

(** The values the field [id] of a message and the state variable
    [lastMessageId] take. *)
Inductive JsValue := Undefined | Null | Str (s : string).

(** [a === b]. *)
Definition strict_eq (a b : JsValue) : bool :=
  match a, b with
  | Undefined, Undefined => true
  | Null, Null => true
  | Str s, Str t => String.eqb s t
  | _, _ => false
  end.

(** What the listener reads of [change.doc.data()].  [m_createdAt] is
    [toMillis()] of the time stamp, or [None] while the server's time is
    pending; [m_id] is the field [id] of the data, [Undefined] when the
    document has none. *)
Record Message := {
  m_userId : string;
  m_frequency : spec_float;
  m_audioBase64 : string;
  m_createdAt : option Z;
  m_id : JsValue
}.

Inductive ChangeType := Added | Modified | Removed.

(** One element of [snapshot.docChanges()], with the reading of
    [Date.now()] while the listener handles it. *)
Record Change := {
  ch_type : ChangeType;
  ch_data : Message;
  ch_now : Z
}.

(** [MediaRecorder]: recording after [start()], stopping after [stop()]
    until [onstop] has run, which releases the microphone. *)
Inductive RecorderState := Recording | Stopping | Released.

(** A recorder, with the [user.uid] and the [frequency] that the call of
    [startTransmission] which created it closed over. *)
Record Recorder := {
  rec_uid : string;
  rec_frequency : spec_float;
  rec_state : RecorderState
}.

Inductive Phase := Decoding | Playing.

(** The clip [processQueue] took from the queue: handed to
    [decodeAudioData], then played by a buffer source, with the
    [frequency] that [processQueue] closed over. *)
Record Playback := {
  clip : string;
  phase : Phase;
  p_frequency : spec_float
}.

(** One mounted component: its React state, its refs, the platform
    objects it created, the promises not settled yet, and what it did. *)
Record Radio := {
  (* useState *)
  user : option string;
  isOn : bool;
  frequency : spec_float;
  isTransmitting : bool;
  isReceiving : bool;
  lastMessageId : JsValue;
  statusText : string;
  (* useRef *)
  audioContextRef : option nat;    (* a position in [contexts] *)
  mediaRecorderRef : option nat;   (* a position in [recorders] *)
  audioQueueRef : list string;
  isPlayingRef : bool;
  (* platform objects *)
  contexts : list bool;            (* every AudioContext created: is it open *)
  recorders : list Recorder;
  (* promises not settled *)
  powerRequests : nat;             (* getUserMedia of togglePower *)
  talkRequests : list (string * spec_float); (* getUserMedia of startTransmission *)
  current : option Playback;
  (* what the component did *)
  queued : list string;            (* every clip pushed on the queue *)
  outcomes : list (string * bool); (* every clip decoded: was it played *)
  beeps : nat;                     (* calls of playRogerBeep that reached a context *)
  sent : list Message              (* the documents added to the collection *)
}.

(** Field updates. *)
Definition set_user (v : option string) (r : Radio) : Radio :=
  {| user := v; isOn := isOn r; frequency := frequency r; isTransmitting :=
     isTransmitting r; isReceiving := isReceiving r; lastMessageId :=
     lastMessageId r; statusText := statusText r; audioContextRef :=
     audioContextRef r; mediaRecorderRef := mediaRecorderRef r;
     audioQueueRef := audioQueueRef r; isPlayingRef := isPlayingRef r;
     contexts := contexts r; recorders := recorders r; powerRequests :=
     powerRequests r; talkRequests := talkRequests r; current := current r;
     queued := queued r; outcomes := outcomes r; beeps := beeps r; sent :=
     sent r |}.
Definition set_isOn (v : bool) (r : Radio) : Radio :=
  {| user := user r; isOn := v; frequency := frequency r; isTransmitting :=
     isTransmitting r; isReceiving := isReceiving r; lastMessageId :=
     lastMessageId r; statusText := statusText r; audioContextRef :=
     audioContextRef r; mediaRecorderRef := mediaRecorderRef r;
     audioQueueRef := audioQueueRef r; isPlayingRef := isPlayingRef r;
     contexts := contexts r; recorders := recorders r; powerRequests :=
     powerRequests r; talkRequests := talkRequests r; current := current r;
     queued := queued r; outcomes := outcomes r; beeps := beeps r; sent :=
     sent r |}.
Definition set_frequency (v : spec_float) (r : Radio) : Radio :=
  {| user := user r; isOn := isOn r; frequency := v; isTransmitting :=
     isTransmitting r; isReceiving := isReceiving r; lastMessageId :=
     lastMessageId r; statusText := statusText r; audioContextRef :=
     audioContextRef r; mediaRecorderRef := mediaRecorderRef r;
     audioQueueRef := audioQueueRef r; isPlayingRef := isPlayingRef r;
     contexts := contexts r; recorders := recorders r; powerRequests :=
     powerRequests r; talkRequests := talkRequests r; current := current r;
     queued := queued r; outcomes := outcomes r; beeps := beeps r; sent :=
     sent r |}.
Definition set_isTransmitting (v : bool) (r : Radio) : Radio :=
  {| user := user r; isOn := isOn r; frequency := frequency r;
     isTransmitting := v; isReceiving := isReceiving r; lastMessageId :=
     lastMessageId r; statusText := statusText r; audioContextRef :=
     audioContextRef r; mediaRecorderRef := mediaRecorderRef r;
     audioQueueRef := audioQueueRef r; isPlayingRef := isPlayingRef r;
     contexts := contexts r; recorders := recorders r; powerRequests :=
     powerRequests r; talkRequests := talkRequests r; current := current r;
     queued := queued r; outcomes := outcomes r; beeps := beeps r; sent :=
     sent r |}.
Definition set_isReceiving (v : bool) (r : Radio) : Radio :=
  {| user := user r; isOn := isOn r; frequency := frequency r;
     isTransmitting := isTransmitting r; isReceiving := v; lastMessageId :=
     lastMessageId r; statusText := statusText r; audioContextRef :=
     audioContextRef r; mediaRecorderRef := mediaRecorderRef r;
     audioQueueRef := audioQueueRef r; isPlayingRef := isPlayingRef r;
     contexts := contexts r; recorders := recorders r; powerRequests :=
     powerRequests r; talkRequests := talkRequests r; current := current r;
     queued := queued r; outcomes := outcomes r; beeps := beeps r; sent :=
     sent r |}.
Definition set_lastMessageId (v : JsValue) (r : Radio) : Radio :=
  {| user := user r; isOn := isOn r; frequency := frequency r;
     isTransmitting := isTransmitting r; isReceiving := isReceiving r;
     lastMessageId := v; statusText := statusText r; audioContextRef :=
     audioContextRef r; mediaRecorderRef := mediaRecorderRef r;
     audioQueueRef := audioQueueRef r; isPlayingRef := isPlayingRef r;
     contexts := contexts r; recorders := recorders r; powerRequests :=
     powerRequests r; talkRequests := talkRequests r; current := current r;
     queued := queued r; outcomes := outcomes r; beeps := beeps r; sent :=
     sent r |}.
Definition set_statusText (v : string) (r : Radio) : Radio :=
  {| user := user r; isOn := isOn r; frequency := frequency r;
     isTransmitting := isTransmitting r; isReceiving := isReceiving r;
     lastMessageId := lastMessageId r; statusText := v; audioContextRef :=
     audioContextRef r; mediaRecorderRef := mediaRecorderRef r;
     audioQueueRef := audioQueueRef r; isPlayingRef := isPlayingRef r;
     contexts := contexts r; recorders := recorders r; powerRequests :=
     powerRequests r; talkRequests := talkRequests r; current := current r;
     queued := queued r; outcomes := outcomes r; beeps := beeps r; sent :=
     sent r |}.
Definition set_audioContextRef (v : option nat) (r : Radio) : Radio :=
  {| user := user r; isOn := isOn r; frequency := frequency r;
     isTransmitting := isTransmitting r; isReceiving := isReceiving r;
     lastMessageId := lastMessageId r; statusText := statusText r;
     audioContextRef := v; mediaRecorderRef := mediaRecorderRef r;
     audioQueueRef := audioQueueRef r; isPlayingRef := isPlayingRef r;
     contexts := contexts r; recorders := recorders r; powerRequests :=
     powerRequests r; talkRequests := talkRequests r; current := current r;
     queued := queued r; outcomes := outcomes r; beeps := beeps r; sent :=
     sent r |}.
Definition set_mediaRecorderRef (v : option nat) (r : Radio) : Radio :=
  {| user := user r; isOn := isOn r; frequency := frequency r;
     isTransmitting := isTransmitting r; isReceiving := isReceiving r;
     lastMessageId := lastMessageId r; statusText := statusText r;
     audioContextRef := audioContextRef r; mediaRecorderRef := v;
     audioQueueRef := audioQueueRef r; isPlayingRef := isPlayingRef r;
     contexts := contexts r; recorders := recorders r; powerRequests :=
     powerRequests r; talkRequests := talkRequests r; current := current r;
     queued := queued r; outcomes := outcomes r; beeps := beeps r; sent :=
     sent r |}.
Definition set_audioQueueRef (v : list string) (r : Radio) : Radio :=
  {| user := user r; isOn := isOn r; frequency := frequency r;
     isTransmitting := isTransmitting r; isReceiving := isReceiving r;
     lastMessageId := lastMessageId r; statusText := statusText r;
     audioContextRef := audioContextRef r; mediaRecorderRef :=
     mediaRecorderRef r; audioQueueRef := v; isPlayingRef := isPlayingRef r;
     contexts := contexts r; recorders := recorders r; powerRequests :=
     powerRequests r; talkRequests := talkRequests r; current := current r;
     queued := queued r; outcomes := outcomes r; beeps := beeps r; sent :=
     sent r |}.
Definition set_isPlayingRef (v : bool) (r : Radio) : Radio :=
  {| user := user r; isOn := isOn r; frequency := frequency r;
     isTransmitting := isTransmitting r; isReceiving := isReceiving r;
     lastMessageId := lastMessageId r; statusText := statusText r;
     audioContextRef := audioContextRef r; mediaRecorderRef :=
     mediaRecorderRef r; audioQueueRef := audioQueueRef r; isPlayingRef :=
     v; contexts := contexts r; recorders := recorders r; powerRequests :=
     powerRequests r; talkRequests := talkRequests r; current := current r;
     queued := queued r; outcomes := outcomes r; beeps := beeps r; sent :=
     sent r |}.
Definition set_contexts (v : list bool) (r : Radio) : Radio :=
  {| user := user r; isOn := isOn r; frequency := frequency r;
     isTransmitting := isTransmitting r; isReceiving := isReceiving r;
     lastMessageId := lastMessageId r; statusText := statusText r;
     audioContextRef := audioContextRef r; mediaRecorderRef :=
     mediaRecorderRef r; audioQueueRef := audioQueueRef r; isPlayingRef :=
     isPlayingRef r; contexts := v; recorders := recorders r; powerRequests
     := powerRequests r; talkRequests := talkRequests r; current := current
     r; queued := queued r; outcomes := outcomes r; beeps := beeps r; sent
     := sent r |}.
Definition set_recorders (v : list Recorder) (r : Radio) : Radio :=
  {| user := user r; isOn := isOn r; frequency := frequency r;
     isTransmitting := isTransmitting r; isReceiving := isReceiving r;
     lastMessageId := lastMessageId r; statusText := statusText r;
     audioContextRef := audioContextRef r; mediaRecorderRef :=
     mediaRecorderRef r; audioQueueRef := audioQueueRef r; isPlayingRef :=
     isPlayingRef r; contexts := contexts r; recorders := v; powerRequests
     := powerRequests r; talkRequests := talkRequests r; current := current
     r; queued := queued r; outcomes := outcomes r; beeps := beeps r; sent
     := sent r |}.
Definition set_powerRequests (v : nat) (r : Radio) : Radio :=
  {| user := user r; isOn := isOn r; frequency := frequency r;
     isTransmitting := isTransmitting r; isReceiving := isReceiving r;
     lastMessageId := lastMessageId r; statusText := statusText r;
     audioContextRef := audioContextRef r; mediaRecorderRef :=
     mediaRecorderRef r; audioQueueRef := audioQueueRef r; isPlayingRef :=
     isPlayingRef r; contexts := contexts r; recorders := recorders r;
     powerRequests := v; talkRequests := talkRequests r; current := current
     r; queued := queued r; outcomes := outcomes r; beeps := beeps r; sent
     := sent r |}.
Definition set_talkRequests (v : list (string * spec_float)) (r : Radio) : Radio :=
  {| user := user r; isOn := isOn r; frequency := frequency r;
     isTransmitting := isTransmitting r; isReceiving := isReceiving r;
     lastMessageId := lastMessageId r; statusText := statusText r;
     audioContextRef := audioContextRef r; mediaRecorderRef :=
     mediaRecorderRef r; audioQueueRef := audioQueueRef r; isPlayingRef :=
     isPlayingRef r; contexts := contexts r; recorders := recorders r;
     powerRequests := powerRequests r; talkRequests := v; current := current
     r; queued := queued r; outcomes := outcomes r; beeps := beeps r; sent
     := sent r |}.
Definition set_current (v : option Playback) (r : Radio) : Radio :=
  {| user := user r; isOn := isOn r; frequency := frequency r;
     isTransmitting := isTransmitting r; isReceiving := isReceiving r;
     lastMessageId := lastMessageId r; statusText := statusText r;
     audioContextRef := audioContextRef r; mediaRecorderRef :=
     mediaRecorderRef r; audioQueueRef := audioQueueRef r; isPlayingRef :=
     isPlayingRef r; contexts := contexts r; recorders := recorders r;
     powerRequests := powerRequests r; talkRequests := talkRequests r;
     current := v; queued := queued r; outcomes := outcomes r; beeps :=
     beeps r; sent := sent r |}.
Definition set_queued (v : list string) (r : Radio) : Radio :=
  {| user := user r; isOn := isOn r; frequency := frequency r;
     isTransmitting := isTransmitting r; isReceiving := isReceiving r;
     lastMessageId := lastMessageId r; statusText := statusText r;
     audioContextRef := audioContextRef r; mediaRecorderRef :=
     mediaRecorderRef r; audioQueueRef := audioQueueRef r; isPlayingRef :=
     isPlayingRef r; contexts := contexts r; recorders := recorders r;
     powerRequests := powerRequests r; talkRequests := talkRequests r;
     current := current r; queued := v; outcomes := outcomes r; beeps :=
     beeps r; sent := sent r |}.
Definition set_outcomes (v : list (string * bool)) (r : Radio) : Radio :=
  {| user := user r; isOn := isOn r; frequency := frequency r;
     isTransmitting := isTransmitting r; isReceiving := isReceiving r;
     lastMessageId := lastMessageId r; statusText := statusText r;
     audioContextRef := audioContextRef r; mediaRecorderRef :=
     mediaRecorderRef r; audioQueueRef := audioQueueRef r; isPlayingRef :=
     isPlayingRef r; contexts := contexts r; recorders := recorders r;
     powerRequests := powerRequests r; talkRequests := talkRequests r;
     current := current r; queued := queued r; outcomes := v; beeps := beeps
     r; sent := sent r |}.
Definition set_beeps (v : nat) (r : Radio) : Radio :=
  {| user := user r; isOn := isOn r; frequency := frequency r;
     isTransmitting := isTransmitting r; isReceiving := isReceiving r;
     lastMessageId := lastMessageId r; statusText := statusText r;
     audioContextRef := audioContextRef r; mediaRecorderRef :=
     mediaRecorderRef r; audioQueueRef := audioQueueRef r; isPlayingRef :=
     isPlayingRef r; contexts := contexts r; recorders := recorders r;
     powerRequests := powerRequests r; talkRequests := talkRequests r;
     current := current r; queued := queued r; outcomes := outcomes r; beeps
     := v; sent := sent r |}.
Definition set_sent (v : list Message) (r : Radio) : Radio :=
  {| user := user r; isOn := isOn r; frequency := frequency r;
     isTransmitting := isTransmitting r; isReceiving := isReceiving r;
     lastMessageId := lastMessageId r; statusText := statusText r;
     audioContextRef := audioContextRef r; mediaRecorderRef :=
     mediaRecorderRef r; audioQueueRef := audioQueueRef r; isPlayingRef :=
     isPlayingRef r; contexts := contexts r; recorders := recorders r;
     powerRequests := powerRequests r; talkRequests := talkRequests r;
     current := current r; queued := queued r; outcomes := outcomes r; beeps
     := beeps r; sent := v |}.

(** The component right after it is mounted. *)
Definition initial : Radio :=
  {| user := None; isOn := false; frequency := freq_init;
     isTransmitting := false; isReceiving := false; lastMessageId := Null;
     statusText := "OFFLINE"; audioContextRef := None;
     mediaRecorderRef := None; audioQueueRef := []; isPlayingRef := false;
     contexts := []; recorders := []; powerRequests := 0%nat;
     talkRequests := []; current := None; queued := []; outcomes := [];
     beeps := 0%nat; sent := [] |}.

(** *** [playRogerBeep(audioContextRef.current)] *)
Definition playRogerBeep (r : Radio) : Radio :=
  match audioContextRef r with
  | None => r
  | Some _ => set_beeps (S (beeps r)) r
  end.

(** *** [togglePower], up to [await getUserMedia] *)
Definition togglePower (r : Radio) : Radio :=
  if isOn r then
    let r1 := set_statusText "OFFLINE" (set_isOn false r) in
    match audioContextRef r1 with
    | Some k =>
        set_audioContextRef None
          (set_contexts (<[k := false]> (contexts r1)) r1)
    | None => r1
    end
  else
    let k := length (contexts r) in
    set_powerRequests (S (powerRequests r))
      (set_audioContextRef (Some k) (set_contexts (contexts r ++ [true]) r)).

(** The rest of [togglePower], once the oldest pending [getUserMedia]
    settles: granted, or rejected (the [catch] branch only alerts). *)
Definition onPowerMic (granted : bool) (r : Radio) : Radio :=
  match powerRequests r with
  | O => r
  | S n =>
      let r1 := set_powerRequests n r in
      if granted then
        playRogerBeep (set_statusText "STANDBY" (set_isOn true r1))
      else r1
  end.

(** *** The receiver *)

Definition hundredth : spec_float := Number.of_decimal false 1 2.  (* 0.01 *)

(** The frequency check passes:
    [!(Math.abs(data.frequency - frequency) > 0.01)]. *)
Definition tuned (data_frequency frequency : spec_float) : bool :=
  negb (Number.ltb hundredth
          (Math.abs (Number_sub data_frequency frequency))).

(** [data.createdAt?.toMillis() || Date.now()]. *)
Definition msgTime (now : Z) (data : Message) : Z :=
  match m_createdAt data with
  | Some t => if (t =? 0)%Z then now else t
  | None => now
  end.

(** The four checks of the listener, none of which returns. *)
Definition accepts (uid : string) (frequency : spec_float)
    (lastMessageId : JsValue) (now : Z) (data : Message) : bool :=
  tuned (m_frequency data) frequency
  && negb (String.eqb (m_userId data) uid)
  && negb (30000 <? now - msgTime now data)%Z
  && negb (strict_eq (m_id data) lastMessageId).

(** *** [processQueue], up to [await decodeAudioData]; [frequency] is the
    value the function closed over.  An exception of [atob] is taken as a
    rejection of the decoding. *)
Definition processQueue (frequency : spec_float) (r : Radio) : Radio :=
  if isPlayingRef r then r
  else
    match audioQueueRef r, audioContextRef r with
    | base64Audio :: rest, Some _ =>
        set_current
          (Some {| clip := base64Audio; phase := Decoding;
                   p_frequency := frequency |})
          (set_audioQueueRef rest
             (set_statusText ("RECEIVING " +:+ toFixed1 numberToString frequency)
                (set_isReceiving true (set_isPlayingRef true r))))
    | _, _ => r
    end.

(** *** [queueAudio] *)
Definition queueAudio (frequency : spec_float) (base64String : string)
    (r : Radio) : Radio :=
  processQueue frequency
    (set_queued (queued r ++ [base64String])
       (set_audioQueueRef (audioQueueRef r ++ [base64String]) r)).

(** The snapshot listener, for a component whose user is [uid]: the
    closure values [frequency] and [lastMessageId] are those of the render
    that attached it. *)
Definition onMessages (uid : string) (frequency : spec_float)
    (lastMessageId : JsValue) (changes : list Change) (r : Radio) : Radio :=
  fold_left
    (fun r change =>
       match ch_type change with
       | Added =>
           let data := ch_data change in
           if accepts uid frequency lastMessageId (ch_now change) data then
             queueAudio frequency (m_audioBase64 data)
               (set_lastMessageId (m_id data) r)
           else r
       | _ => r
       end)
    changes r.

(** The effect attaches the listener only when [user && isOn]. *)
Definition onSnapshot (changes : list Change) (r : Radio) : Radio :=
  match user r with
  | Some uid =>
      if isOn r then
        onMessages uid (frequency r) (lastMessageId r) changes r
      else r
  | None => r
  end.

(** The rest of [processQueue], once [decodeAudioData] settles: the
    source is started, or the [catch] branch runs (also when
    [audioContextRef.current] is [null] by then). *)
Definition onDecoded (ok : bool) (r : Radio) : Radio :=
  match current r with
  | Some {| clip := s; phase := Decoding; p_frequency := f |} =>
      if ok && bool_decide (is_Some (audioContextRef r)) then
        set_outcomes (outcomes r ++ [(s, true)])
          (set_current
             (Some {| clip := s; phase := Playing; p_frequency := f |}) r)
      else
        processQueue f
          (set_isReceiving false
             (set_isPlayingRef false
                (set_current None
                   (set_outcomes (outcomes r ++ [(s, false)]) r))))
  | _ => r
  end.

(** [source.onended], after its [setTimeout]. *)
Definition onEnded (r : Radio) : Radio :=
  match current r with
  | Some {| phase := Playing; p_frequency := f |} =>
      let r1 := set_current None r in
      let r2 :=
        match audioQueueRef r1 with
        | [] => set_statusText "STANDBY"
                  (set_isReceiving false (playRogerBeep r1))
        | _ :: _ => r1
        end in
      processQueue f (set_isPlayingRef false r2)
  | _ => r
  end.

(** *** [startTransmission], up to [await getUserMedia] *)
Definition startTransmission (r : Radio) : Radio :=
  match user r with
  | Some uid =>
      if isOn r && negb (isReceiving r) then
        set_talkRequests (talkRequests r ++ [(uid, frequency r)]) r
      else r
  | None => r
  end.

(** The rest of [startTransmission], once the oldest pending
    [getUserMedia] settles. *)
Definition onTalkMic (granted : bool) (r : Radio) : Radio :=
  match talkRequests r with
  | [] => r
  | (uid, f) :: rest =>
      let r1 := set_talkRequests rest r in
      if granted then
        let k := length (recorders r1) in
        set_statusText "TRANSMITTING..."
          (set_isTransmitting true
             (set_mediaRecorderRef (Some k)
                (set_recorders
                   (recorders r1 ++ [{| rec_uid := uid; rec_frequency := f;
                                        rec_state := Recording |}]) r1)))
      else set_statusText "MIC ERROR" r1
  end.

(** [MediaRecorder.stop()]; on a recorder that is not recording the call
    changes nothing. *)
Definition stopRecorder (k : nat) (r : Radio) : Radio :=
  match recorders r !! k with
  | Some rec =>
      match rec_state rec with
      | Recording =>
          set_recorders
            (<[k := {| rec_uid := rec_uid rec;
                       rec_frequency := rec_frequency rec;
                       rec_state := Stopping |}]> (recorders r)) r
      | _ => r
      end
  | None => r
  end.

(** *** [stopTransmission] *)
Definition stopTransmission (r : Radio) : Radio :=
  match mediaRecorderRef r with
  | Some k =>
      if isTransmitting r then
        set_statusText "STANDBY" (set_isTransmitting false (stopRecorder k r))
      else r
  | None => r
  end.

(** [onstop] of recorder [k], then [onloadend] with the recording in base
    64: the message is added, the beep is played, and the tracks of the
    stream are stopped. *)
Definition onRecorderStopped (k : nat) (base64String : string) (r : Radio)
  : Radio :=
  match recorders r !! k with
  | Some rec =>
      match rec_state rec with
      | Stopping =>
          let data :=
            {| m_userId := rec_uid rec;
               m_frequency :=
                 JsString.parseFloat (numberToString (rec_frequency rec));
               m_audioBase64 := base64String;
               m_createdAt := None;
               m_id := Undefined |} in
          playRogerBeep
            (set_sent (sent r ++ [data])
               (set_recorders
                  (<[k := {| rec_uid := rec_uid rec;
                             rec_frequency := rec_frequency rec;
                             rec_state := Released |}]> (recorders r)) r))
      | _ => r
      end
  | None => r
  end.

(** *** [adjustFrequency] *)
Definition adjustFrequency (delta : spec_float) (r : Radio) : Radio :=
  if negb (isOn r) then r
  else set_frequency (nextFrequency numberToString (frequency r) delta) r.

(** The [onChange] handler of the slider:
    [isOn && setFrequency(parseFloat(e.target.value))]. *)
Definition onTunerChange (value : string) (r : Radio) : Radio :=
  if isOn r then set_frequency (JsString.parseFloat value) r else r.

(** *** Executions *)

Inductive Event :=
| AuthStateChanged (u : option string)
| TogglePower
| PowerMic (granted : bool)
| Snapshot (changes : list Change)
| Decoded (ok : bool)
| Ended
| StartTransmission
| TalkMic (granted : bool)
| StopTransmission
| RecorderStopped (k : nat) (base64String : string)
| AdjustFrequency (delta : spec_float)
| TunerChange (value : string).

Definition step (r : Radio) (ev : Event) : Radio :=
  match ev with
  | AuthStateChanged u => set_user u r
  | TogglePower => togglePower r
  | PowerMic granted => onPowerMic granted r
  | Snapshot changes => onSnapshot changes r
  | Decoded ok => onDecoded ok r
  | Ended => onEnded r
  | StartTransmission => startTransmission r
  | TalkMic granted => onTalkMic granted r
  | StopTransmission => stopTransmission r
  | RecorderStopped k base64String => onRecorderStopped k base64String r
  | AdjustFrequency delta => adjustFrequency delta r
  | TunerChange value => onTunerChange value r
  end.

Definition run (evs : list Event) (r : Radio) : Radio := fold_left step evs r.

(** *** Predicates used by the properties *)

(** The clip handed to [decodeAudioData] and not settled yet. *)
Definition pending (r : Radio) : list string :=
  match current r with
  | Some {| clip := s; phase := Decoding |} => [s]
  | _ => []
  end.

(** Every clip pushed on the queue is accounted for once, in the order of
    arrival, and the flag [isPlayingRef] is set exactly while a clip is
    being decoded or played. *)
Definition queue_inv (r : Radio) : Prop :=
  queued r = (map fst (outcomes r) ++ pending r ++ audioQueueRef r)%list
  /\ (isPlayingRef r = true <-> current r <> None).

(** The clips played, in the order their sources were started. *)
Definition played (r : Radio) : list string :=
  map fst (List.filter snd (outcomes r)).

(** The messages of the event carry no field [id], as the documents the
    component adds. *)
Definition unidentified (ev : Event) : Prop :=
  match ev with
  | Snapshot changes =>
      Forall (fun change => m_id (ch_data change) = Undefined) changes
  | _ => True
  end.

(** Recorder [k] is recording. *)
Definition recording (k : nat) (r : Radio) : Prop :=
  exists rec, recorders r !! k = Some rec /\ rec_state rec = Recording.

(** Recorder [k] is recording and [mediaRecorderRef] holds another one. *)
Definition orphaned (k : nat) (r : Radio) : Prop :=
  recording k r /\ exists k', mediaRecorderRef r = Some k' /\ k' <> k.

(** The talk button released before the microphone is granted, and
    released after it. *)
Definition quick_tap : list Event :=
  [StartTransmission; StopTransmission; TalkMic true].

Definition press_release : list Event :=
  [StartTransmission; TalkMic true; StopTransmission].

(** The talk button pressed and released, and the recording of recorder
    [k] handed over. *)
Definition transmission (k : nat) (base64String : string) : list Event :=
  press_release ++ [RecorderStopped k base64String].

(** Every event but a release of the talk button. *)
Definition not_release (ev : Event) : Prop :=
  match ev with
  | StopTransmission => False
  | _ => True
  end.

(** The tuner is moved by its two buttons or by the slider, which reports
    a tenth of a megahertz of its range. *)
Definition tuner_step (ev : Event) : Prop :=
  match ev with
  | AdjustFrequency delta => delta = step_up \/ delta = step_down
  | TunerChange value => in_grid (JsString.parseFloat value) = true
  | _ => True
  end.

(** The document the server hands to the listeners for a message that was
    added at the server time [t]. *)
Definition stamped (t : Z) (data : Message) : Message :=
  {| m_userId := m_userId data; m_frequency := m_frequency data;
     m_audioBase64 := m_audioBase64 data; m_createdAt := Some t;
     m_id := m_id data |}.

End Component.

End Broadcast.
(** ** Sample inputs *)

(** A stand-in for [Number::toString] in the sample runs; the tuner range
    never reaches it. *)
Definition plainToString : spec_float -> string := fun _ => "1e+21"%string.

Definition hostEnv : JoinEnv :=
  {| mic := Some 1%nat; sdp := "v=0 host"; now := 7%nat |}.
Definition guestEnv : JoinEnv :=
  {| mic := Some 1%nat; sdp := "v=0 guest"; now := 9%nat |}.
Definition alice : Client := set_user (Some "alice"%string) initial.
Definition bob : Client := set_user (Some "bob"%string) initial.

Definition tuning : list Event :=
  [AuthStateChanged (Some "alice"%string);
   AdjustFrequency step_up true;
   AdjustFrequency step_up true;
   AdjustFrequency step_down false].

(** A host whose answer has been applied: alice hosts, bob answers, the
    document snapshot reaches alice and the connection settles. *)
Definition answered : Client * Store :=
  let w1 := togglePower plainToString hostEnv alice empty_store in
  let w2 := togglePower plainToString guestEnv bob (snd w1) in
  run plainToString [DocSnapshot 0%nat; Settled] (fst w1, snd w2).

Definition otherAnswer : Answer :=
  {| answer_type := "answer"; answer_sdp := "v=0 intruder";
     guestId := "carol" |}%string.

(** Alice joins the empty channel 105.5; bob joins the channel she left;
    alice joins a second time on top of her own session; and a client with
    no identity yet tries to join the empty channel. *)
Definition hosting : Client * Store :=
  joinFrequency plainToString hostEnv alice empty_store.

Definition guesting : Client * Store :=
  joinFrequency plainToString guestEnv bob (snd hosting).

Definition rejoining : Client * Store :=
  joinFrequency plainToString guestEnv (fst hosting) (snd hosting).

Definition anonymous : Client * Store :=
  joinFrequency plainToString hostEnv initial empty_store.

(** Bob is refused the microphone on the channel alice hosts. *)
Definition deniedEnv : JoinEnv :=
  {| mic := None; sdp := "v=0 guest"; now := 9%nat |}.

Definition refused : Client * Store :=
  joinFrequency plainToString deniedEnv bob (snd hosting).

(** The two sessions torn down, and the host's channel reset. *)
Definition hostClosed : Client := hangUp (fst hosting).
Definition guestClosed : Client := hangUp (fst guesting).

Definition resetting : Client * Store :=
  resetChannel plainToString (fst hosting) (snd hosting).




(** Snapshots of a channel document whose answer keeps changing. *)
Definition laterSnapshots : list (option ChannelDoc) :=
  [Some {| offer := None; answer := Some otherAnswer |};
   None;
   Some {| offer := None; answer := Some otherAnswer |}].

(** *** Further sample inputs of the full-duplex component *)

Definition carol : Client := set_user (Some "carol"%string) initial.

(** Carol joins the channel alice hosts and bob has answered. *)
Definition thirdJoin : Client * Store :=
  joinFrequency plainToString guestEnv carol (snd guesting).

(** Alice powers on and off again; bob joins the channel afterwards. *)
Definition poweredOn : Client * Store :=
  togglePower plainToString hostEnv alice empty_store.

Definition poweredOff : Client * Store :=
  togglePower plainToString hostEnv (fst poweredOn) (snd poweredOn).

Definition lateGuest : Client * Store :=
  joinFrequency plainToString guestEnv bob (snd poweredOff).

(** Bob joins the channel alice hosted and reset. *)
Definition afterReset : Client * Store :=
  joinFrequency plainToString guestEnv bob (snd resetting).

(** The connection of the hosting alice. *)
Definition hostConnection : PeerConnection :=
  {| senders := Some 0%nat;
     localDescription := Some {| sd_type := "offer"; sd_sdp := "v=0 host" |};
     currentRemoteDescription := None;
     operations := [];
     remoteCandidates := [];
     onicecandidate := Some ("freq_105_5", OfferCandidates);
     connectionState := "new" |}%string.

(** Alice hosts a session, then powers off and resets the channel. *)
Definition hostSession : list Event :=
  [AuthStateChanged (Some "alice"%string); TogglePower hostEnv].

Definition hostTeardown : list Event := [TogglePower hostEnv; ResetChannel].

Definition answerListener : Listener :=
  {| l_callId := "freq_105_5"; l_source := Candidates AnswerCandidates;
     l_active := true |}%string.

(** Alice presses the power button twice before the microphone is
    granted, and once more after: the second join is pending while the
    link of the first comes up and she holds the talk button. *)
Definition pendingTalk : list Action :=
  [Handler (AuthStateChanged (Some "alice"%string));
   PowerPressed; PowerPressed; MicrophoneSettled hostEnv;
   PowerPressed; Handler (ConnectionStateChange "connected"%string);
   Handler StartTalk].

Definition hotMicrophone : World :=
  perform plainToString pendingTalk (initial, empty_store, []).

(** The microphone is granted to the second join; then alice lets go of
    the talk button and powers off. *)
Definition secondGrant : World :=
  act plainToString
    (client hotMicrophone, store hotMicrophone, [("alice"%string, freq_init)])
    (MicrophoneSettled guestEnv).

Definition lettingGo : list Action := [Handler StopTalk; PowerPressed].

(** *** Sample inputs of the broadcast component *)

(** A stand-in for [Number::toString] in the sample runs of the broadcast
    component: a frequency of the tuner is printed with one decimal, and
    reads back as the same number. *)
Definition gridToString : spec_float -> string :=
  fun f => fixed1_digits (quantize f).

(** Alice and bob, signed in and switched on. *)
Definition poweringOn (uid : string) : list Broadcast.Event :=
  [Broadcast.AuthStateChanged (Some uid); Broadcast.TogglePower;
   Broadcast.PowerMic true].

Definition aliceOn : Broadcast.Radio :=
  Broadcast.run gridToString (poweringOn "alice") Broadcast.initial.

Definition bobOn : Broadcast.Radio :=
  Broadcast.run gridToString (poweringOn "bob") Broadcast.initial.

(** Two messages alice wrote on 105.5, as the server hands them over. *)
Definition firstMessage : Broadcast.Message :=
  {| Broadcast.m_userId := "alice"; Broadcast.m_frequency := freq_init;
     Broadcast.m_audioBase64 := "T2dnUw==";
     Broadcast.m_createdAt := Some 1000; Broadcast.m_id := Broadcast.Undefined |}.

Definition secondMessage : Broadcast.Message :=
  {| Broadcast.m_userId := "alice"; Broadcast.m_frequency := freq_init;
     Broadcast.m_audioBase64 := "T2dnUwAC";
     Broadcast.m_createdAt := Some 8000; Broadcast.m_id := Broadcast.Undefined |}.

Definition heard (now : Z) (data : Broadcast.Message) : Broadcast.Change :=
  {| Broadcast.ch_type := Broadcast.Added; Broadcast.ch_data := data;
     Broadcast.ch_now := now |}.

(** Bob receives the first message, plays it, and is handed the second. *)
Definition bobListening : list Broadcast.Event :=
  poweringOn "bob" ++ [Broadcast.Snapshot [heard 2000 firstMessage]].

Definition bobLater : list Broadcast.Event :=
  [Broadcast.Decoded true; Broadcast.Ended;
   Broadcast.Snapshot [heard 9000 secondMessage]].

(** Bob tunes up one step and moves the slider to 88. *)
Definition radioTuning : list Broadcast.Event :=
  poweringOn "bob"
  ++ [Broadcast.AdjustFrequency step_up; Broadcast.TunerChange "88"].

(** ** Properties *)

(** *** Numbers *)

Lemma Number_eqb_eq x y : Number.eqb x y = true <-> x = y.
Proof.
  destruct x as [s|s| |s m e], y as [s'|s'| |s' m' e']; simpl;
    try (split; [discriminate | congruence]);
    try (rewrite Bool.eqb_true_iff; split; congruence).
  - split; auto.
  - rewrite !andb_true_iff, Bool.eqb_true_iff, Pos.eqb_eq, Z.eqb_eq.
    split; [intros [[-> ->] ->]; reflexivity | intros [= -> -> ->]; auto].
Qed.

Lemma in_grid_In f : in_grid f = true <-> In f grid.
Proof.
  unfold in_grid. rewrite existsb_exists. split.
  - intros (x & Hx & Heq). apply Number_eqb_eq in Heq. now subst.
  - intros H. exists f. split; [assumption | now apply Number_eqb_eq].
Qed.

(** Comparison with a positive finite number, read on the
    representation. *)
Lemma leb_finite_l m1 e1 f :
  Number.leb (S754_finite false m1 e1) f = true ->
  f = S754_infinity false \/
  exists m e, f = S754_finite false m e
              /\ (e1 < e \/ (e1 = e /\ (m1 <= m)%positive)).
Proof.
  unfold Number.leb, SFleb.
  destruct f as [s|s| |s m e]; cbn [SFcompare]; try discriminate.
  - destruct s; [discriminate | auto].
  - destruct s; [discriminate|]. intros H. right. exists m, e.
    split; [reflexivity|].
    destruct (Z.compare_spec e1 e) as [Heq|Hlt|Hgt]; try discriminate.
    + right. split; [assumption|].
      rewrite Pos.compare_cont_spec in H. unfold Pos.switch_Eq in H.
      destruct (Pos.compare_spec m1 m); try discriminate; lia.
    + left. assumption.
Qed.

Lemma leb_finite_r m2 e2 f :
  Number.leb f (S754_finite false m2 e2) = true ->
  forall m e, f = S754_finite false m e ->
              e < e2 \/ (e = e2 /\ (m <= m2)%positive).
Proof.
  unfold Number.leb, SFleb. intros H m e ->. cbn [SFcompare] in H.
  destruct (Z.compare_spec e e2) as [Heq|Hlt|Hgt]; try discriminate.
  - right. split; [assumption|].
    rewrite Pos.compare_cont_spec in H. unfold Pos.switch_Eq in H.
    destruct (Pos.compare_spec m m2); try discriminate; lia.
  - left. assumption.
Qed.

Lemma freq_min_eq : freq_min = S754_finite false 6157265115545600 (-46).
Proof. vm_compute. reflexivity. Qed.

Lemma freq_max_eq : freq_max = S754_finite false 7599824371187712 (-46).
Proof. vm_compute. reflexivity. Qed.

(** A valid frequency has the exponent of [87.5] and [108.0] and a
    mantissa between theirs. *)
Lemma valid_frequency_inv f :
  valid_frequency f = true ->
  exists m, f = S754_finite false m (-46)
            /\ 6157265115545600 <= Z.pos m <= 7599824371187712.
Proof.
  unfold valid_frequency. rewrite andb_true_iff, freq_min_eq, freq_max_eq.
  intros [H1 H2].
  apply leb_finite_l in H1 as [-> | (m & e & -> & H1)].
  - vm_compute in H2. discriminate.
  - specialize (leb_finite_r _ _ _ H2 m e eq_refl) as H3.
    destruct H1 as [H1 | [H1 Hlo]], H3 as [H3 | [H3 Hhi]];
      try (exfalso; clear -H1 H3; lia).
    subst e. exists m. split; [reflexivity|].
    apply Pos2Z.pos_le_pos in Hlo, Hhi. split; assumption.
Qed.

(** *** The channel resolver *)

Section Resolver.

Variable numberToString : spec_float -> string.

Local Open Scope string_scope.

Lemma tuner_tenths_In n : 875 <= n <= 1080 -> In n tuner_tenths.
Proof.
  intros H. unfold tuner_tenths. apply in_map_iff.
  exists (Z.to_nat n). split; [lia|]. apply in_seq. lia.
Qed.

Lemma id_of_tenths_inj n1 n2 :
  875 <= n1 <= 1080 -> 875 <= n2 <= 1080 ->
  id_of_tenths n1 = id_of_tenths n2 -> n1 = n2.
Proof.
  intros H1 H2 Heq.
  assert (Hall : forallb (fun a => forallb (fun b =>
            implb (String.eqb (id_of_tenths a) (id_of_tenths b)) (Z.eqb a b))
            tuner_tenths) tuner_tenths = true) by (vm_compute; reflexivity).
  rewrite forallb_forall in Hall.
  specialize (Hall n1 (tuner_tenths_In n1 H1)).
  rewrite forallb_forall in Hall.
  specialize (Hall n2 (tuner_tenths_In n2 H2)).
  apply String.eqb_eq in Heq. rewrite Heq in Hall. simpl in Hall.
  now apply Z.eqb_eq.
Qed.

Lemma tenths_bounds m :
  6157265115545600 <= Z.pos m <= 7599824371187712 ->
  875 <= tenths m (-46) <= 1080.
Proof.
  intros [Hlo Hhi]. unfold tenths.
  change (2 ^ Z.pos 46) with 70368744177664.
  change (2 ^ (Z.pos 46 + 1)) with 140737488355328.
  split.
  - apply Z.div_le_lower_bound; lia.
  - apply Z.lt_succ_r. apply Z.div_lt_upper_bound; lia.
Qed.

Lemma callId_valid f :
  valid_frequency f = true ->
  875 <= quantize f <= 1080 /\
  toFixed1 numberToString f = fixed1_digits (quantize f) /\
  callId numberToString f = id_of_tenths (quantize f).
Proof.
  intros Hv. destruct (valid_frequency_inv f Hv) as (m & -> & Hm).
  pose proof (tenths_bounds m Hm) as Hb.
  assert (Hsmall : ge_1e21 m (-46) = false).
  { unfold ge_1e21. apply Z.leb_gt.
    change (10 ^ 21 * 2 ^ Z.pos 46) with 70368744177664000000000000000000000.
    lia. }
  unfold callId, id_of_tenths, toFixed1, quantize. rewrite Hsmall.
  repeat split; try apply Hb.
Qed.

(** C8.  The channel id is a function of the frequency alone, and on the
    tuner range it separates exactly the frequencies that differ once
    quantized to one decimal: two valid frequencies with different
    quantizations get different channel ids, and two with the same
    quantization get the same id. *)
Theorem callId_injective_on_quantized (f1 f2 : spec_float) :
  valid_frequency f1 = true ->
  valid_frequency f2 = true ->
  (quantize f1 <> quantize f2 ->
   callId numberToString f1 <> callId numberToString f2)
  /\ (quantize f1 = quantize f2 ->
      callId numberToString f1 = callId numberToString f2).
Proof.
  intros Hv1 Hv2.
  destruct (callId_valid f1 Hv1) as (Hb1 & _ & Hid1).
  destruct (callId_valid f2 Hv2) as (Hb2 & _ & Hid2).
  rewrite Hid1, Hid2. split.
  - intros Hne Heq. apply Hne. now apply id_of_tenths_inj.
  - intros ->. reflexivity.
Qed.

End Resolver.

Lemma callId_injective_on_quantized_witness :
  valid_frequency freq_init = true /\
  valid_frequency freq_max = true /\
  callId plainToString freq_init <> callId plainToString freq_max.
Proof.
  split; [vm_compute; reflexivity|]. split; [vm_compute; reflexivity|].
  apply (callId_injective_on_quantized plainToString freq_init freq_max);
    [vm_compute; reflexivity | vm_compute; reflexivity
    | vm_compute; discriminate].
Defined.

(** *** Frame lemmas: what each operation leaves alone *)

Ltac unfold_ops :=
  unfold togglePower, resetChannel, joinFrequency, joinAsHost, joinAsGuest,
    setupAudio, onSnapshot, startTalk, stopTalk, setTracksEnabled,
    adjustFrequency, onconnectionstatechange, onIceCandidate,
    onAnswerSnapshot, onCandidatesSnapshot, settle, hangUp, unsubscribe,
    attached, setStatus, setConnectionStatus in *.

Ltac frame :=
  intros; unfold_ops; repeat (case_match; simplify_eq/=);
  first [reflexivity | congruence].

Lemma hangUp_frequency c : frequency (hangUp c) = frequency c.
Proof. frame. Qed.

Lemma hangUp_user c : user (hangUp c) = user c.
Proof. frame. Qed.

Lemma hangUp_isOn c : isOn (hangUp c) = isOn c.
Proof. frame. Qed.

Lemma hangUp_isTalking c : isTalking (hangUp c) = isTalking c.
Proof. frame. Qed.

Lemma hangUp_localStream c : localStream (hangUp c) = localStream c.
Proof. frame. Qed.

Lemma hangUp_pc c : pc (hangUp c) = None.
Proof. frame. Qed.

Lemma hangUp_unsubscribeRef c : unsubscribeRef (hangUp c) = None.
Proof. frame. Qed.

Lemma hangUp_connectionStatus c :
  connectionStatus (hangUp c) = "DISCONNECTED"%string.
Proof. frame. Qed.

Section Tuner.

Variable numberToString : spec_float -> string.

Lemma joinFrequency_frequency env c db :
  frequency (fst (joinFrequency numberToString env c db)) = frequency c.
Proof. frame. Qed.

(** Only [adjustFrequency] writes the frequency. *)
Lemma step_frequency w ev :
  frequency (fst (step numberToString w ev)) =
  match ev with
  | AdjustFrequency delta confirmed =>
      frequency (adjustFrequency numberToString delta confirmed (fst w))
  | _ => frequency (fst w)
  end.
Proof.
  destruct w as [c db], ev; cbn [step fst]; try reflexivity;
    unfold togglePower, resetChannel, onconnectionstatechange, onIceCandidate,
      onAnswerSnapshot, onCandidatesSnapshot, settle, startTalk, stopTalk,
      setTracksEnabled, setStatus, setConnectionStatus;
    repeat case_match; cbn [fst];
    rewrite ?hangUp_frequency, ?joinFrequency_frequency; reflexivity.
Qed.

(** [adjustFrequency] either keeps the frequency (the prompt was
    declined) or moves it with [nextFrequency]. *)
Lemma adjustFrequency_frequency delta confirmed c :
  frequency (adjustFrequency numberToString delta confirmed c) = frequency c
  \/ frequency (adjustFrequency numberToString delta confirmed c)
     = nextFrequency numberToString (frequency c) delta.
Proof.
  unfold adjustFrequency.
  destruct (negb (String.eqb (connectionStatus c) "DISCONNECTED")),
    (negb confirmed); cbn [frequency set_isOn set_frequency]; auto.
  right. now rewrite hangUp_frequency.
Qed.

Lemma nextFrequency_grid f delta :
  in_grid f = true ->
  delta = step_up \/ delta = step_down ->
  in_grid (nextFrequency numberToString f delta) = true.
Proof.
  intros Hf Hd.
  assert (Hall : forallb (fun f =>
            in_grid (nextFrequency numberToString f step_up)
            && in_grid (nextFrequency numberToString f step_down)) grid = true)
    by (vm_compute; reflexivity).
  rewrite forallb_forall in Hall.
  apply in_grid_In in Hf. specialize (Hall f Hf).
  apply andb_true_iff in Hall as [Hup Hdown].
  destruct Hd as [-> | ->]; assumption.
Qed.

Lemma grid_valid f :
  in_grid f = true ->
  valid_frequency f = true /\ one_decimal numberToString f = true.
Proof.
  intros Hf.
  assert (Hall : forallb (fun f =>
            valid_frequency f && one_decimal numberToString f) grid = true)
    by (vm_compute; reflexivity).
  rewrite forallb_forall in Hall.
  apply in_grid_In in Hf. specialize (Hall f Hf).
  now apply andb_true_iff in Hall.
Qed.

Lemma run_in_grid evs w :
  Forall button_step evs ->
  in_grid (frequency (fst w)) = true ->
  in_grid (frequency (fst (run numberToString evs w))) = true.
Proof.
  intros Hevs. revert w. induction Hevs as [|ev evs Hev _ IH]; intros w Hw.
  - exact Hw.
  - simpl. apply IH. rewrite step_frequency.
    destruct ev; try exact Hw.
    destruct (adjustFrequency_frequency delta confirmed (fst w)) as [-> | ->].
    + exact Hw.
    + now apply nextFrequency_grid.
Qed.

(** C9.  In every execution that starts from the mounted component
    (frequency 105.5) and moves the tuner only with its two buttons
    ([adjustFrequency(0.1)] and [adjustFrequency(-0.1)]), the frequency is
    at all times within [87.5, 108.0] and written with exactly one
    decimal; a step that would leave the range yields the bound. *)
Theorem frequency_in_range_one_decimal (evs : list Event) (db : Store) :
  Forall button_step evs ->
  let f := frequency (fst (run numberToString evs (initial, db))) in
  valid_frequency f = true
  /\ one_decimal numberToString f = true
  /\ nextFrequency numberToString freq_min step_down = freq_min
  /\ nextFrequency numberToString freq_max step_up = freq_max.
Proof.
  intros Hevs f.
  assert (Hg : in_grid f = true).
  { subst f. apply run_in_grid; [assumption|]. vm_compute. reflexivity. }
  destruct (grid_valid f Hg) as [Hv H1].
  repeat split; try assumption; vm_compute; reflexivity.
Qed.

End Tuner.

Lemma tuning_button_steps : Forall button_step tuning.
Proof.
  unfold tuning.
  repeat (constructor; [simpl; auto|]). constructor.
Defined.

Lemma frequency_in_range_one_decimal_witness :
  Forall button_step tuning
  /\ valid_frequency
       (frequency (fst (run plainToString tuning (initial, empty_store))))
     = true.
Proof.
  split; [exact tuning_button_steps|].
  apply (frequency_in_range_one_decimal plainToString tuning empty_store
           tuning_button_steps).
Defined.

(** *** Role selection *)

Section Handshake.

Variable numberToString : spec_float -> string.

(** A join that has an identity and is granted the microphone reaches the
    read of the channel document and takes one of the two branches. *)
Lemma joinFrequency_reaches_channel env c db uid n :
  user c = Some uid ->
  mic env = Some n ->
  joinFrequency numberToString env c db =
  let c2 := fst (setupAudio env (setStatus "TUNING..."%string c)) in
  let p := createPeerConnection c2 in
  let id := callId numberToString (frequency c) in
  match stored_offer db id with
  | None => joinAsHost env uid id p (set_pc (Some p) c2) db
  | Some o => joinAsGuest env uid id o p (set_pc (Some p) c2) db
  end.
Proof.
  intros Hu Hm. unfold joinFrequency, setupAudio. rewrite Hu.
  cbn [mic setStatus setConnectionStatus set_connectionStatus].
  rewrite Hm. reflexivity.
Qed.

Lemma joinFrequency_host env c db uid n :
  user c = Some uid ->
  mic env = Some n ->
  stored_offer db (callId numberToString (frequency c)) = None ->
  let id := callId numberToString (frequency c) in
  let d := {| offer := Some (offer_of env uid); answer := None |} in
  let w := joinFrequency numberToString env c db in
  role (fst w) = Host
  /\ remoteDescription (fst w) = None
  /\ writes (snd w) = writes db ++ [WSetDoc id d]
  /\ docs (snd w) = <[id := d]> (docs db).
Proof.
  intros Hu Hm Hoffer id d w. subst w.
  rewrite (joinFrequency_reaches_channel env c db uid n Hu Hm).
  cbv zeta. rewrite Hoffer. repeat split.
Qed.

Lemma joinFrequency_guest env c db uid n o :
  user c = Some uid ->
  mic env = Some n ->
  stored_offer db (callId numberToString (frequency c)) = Some o ->
  let id := callId numberToString (frequency c) in
  let w := joinFrequency numberToString env c db in
  role (fst w) = Guest
  /\ remoteDescription (fst w)
     = Some {| sd_type := offer_type o; sd_sdp := offer_sdp o |}
  /\ writes (snd w) = writes db ++ [WUpdateAnswer id (answer_of env uid)]
  /\ docs (snd w)
     = alter (fun d => {| offer := offer d;
                          answer := Some (answer_of env uid) |}) id (docs db).
Proof.
  intros Hu Hm Hoffer id w. subst w.
  rewrite (joinFrequency_reaches_channel env c db uid n Hu Hm).
  cbv zeta. rewrite Hoffer. repeat split.
Qed.

(** A join that has no identity, or is refused the microphone, returns
    before it reads the channel: the store, the connection and the
    listeners are as they were. *)
Lemma joinFrequency_guarded env c db :
  user c = None \/ mic env = None ->
  let w := joinFrequency numberToString env c db in
  snd w = db /\ pc (fst w) = pc c /\ listeners (fst w) = listeners c.
Proof.
  intros Hg. cbv zeta. unfold joinFrequency, setupAudio.
  destruct (user c) as [uid|]; [|repeat split].
  destruct Hg as [Hu|Hm]; [discriminate|].
  cbn [mic setStatus setConnectionStatus set_connectionStatus].
  rewrite Hm. repeat split.
Qed.

(** C1, as amended.  A join that has an identity and is granted the
    microphone reads the channel document once.  If the document is absent
    or has no offer, the joiner is the Host and makes exactly one store
    write, the [offer] field with its session description, its identity
    and the creation timestamp.  If the document carries an offer, the
    joiner is the Guest, takes that offer as its remote description and
    makes exactly one store write, the [answer] field.  A join that has no
    identity, or is refused the microphone, takes no role and writes
    nothing: the store is left as it was, and so are the connection and
    the role of the client (none, for a client that holds no
    connection). *)
Theorem join_selects_role (env : JoinEnv) (c : Client) (db : Store) :
  let id := callId numberToString (frequency c) in
  let w := joinFrequency numberToString env c db in
  (forall uid n,
      user c = Some uid -> mic env = Some n ->
      match stored_offer db id with
      | None =>
          role (fst w) = Host
          /\ writes (snd w)
             = writes db
               ++ [WSetDoc id {| offer := Some (offer_of env uid);
                                 answer := None |}]
      | Some o =>
          role (fst w) = Guest
          /\ remoteDescription (fst w)
             = Some {| sd_type := offer_type o; sd_sdp := offer_sdp o |}
          /\ writes (snd w)
             = writes db ++ [WUpdateAnswer id (answer_of env uid)]
      end)
  /\ (user c = None \/ mic env = None ->
      snd w = db
      /\ writes (snd w) = writes db
      /\ pc (fst w) = pc c
      /\ role (fst w) = role c
      /\ (pc c = None -> role (fst w) = Unassigned)).
Proof.
  intros id w. split.
  - intros uid n Hu Hm.
    destruct (stored_offer db id) as [o|] eqn:Hoffer.
    + destruct (joinFrequency_guest env c db uid n o Hu Hm Hoffer)
        as (Hr & Hd & Hw & _). auto.
    + destruct (joinFrequency_host env c db uid n Hu Hm Hoffer)
        as (Hr & _ & Hw & _). auto.
  - intros Hg.
    destruct (joinFrequency_guarded env c db Hg) as (Hdb & Hpc & _).
    fold w in Hdb, Hpc.
    assert (Hrole : role (fst w) = role c) by (unfold role; now rewrite Hpc).
    split; [exact Hdb|]. split; [now rewrite Hdb|].
    split; [exact Hpc|]. split; [exact Hrole|].
    intros Hnone. rewrite Hrole. unfold role. now rewrite Hnone.
Qed.

End Handshake.

(** The first join on an empty channel, a second client on the channel
    the first one left, and a client that is refused the microphone. *)
Lemma join_selects_role_witness :
  (role (fst hosting) = Host /\ length (writes (snd hosting)) = 1%nat)
  /\ (role (fst guesting) = Guest
      /\ length (writes (snd guesting)) = 2%nat)
  /\ (role (fst refused) = Unassigned /\ snd refused = snd hosting).
Proof.
  split; [|split].
  - destruct (join_selects_role plainToString hostEnv alice empty_store)
      as [H _].
    specialize (H "alice"%string 1%nat eq_refl eq_refl).
    replace (stored_offer empty_store
               (callId plainToString (frequency alice))) with (@None Offer)
      in H by (vm_compute; reflexivity).
    destruct H as [Hr Hw]. split; [exact Hr|].
    unfold hosting. rewrite Hw. reflexivity.
  - destruct (join_selects_role plainToString guestEnv bob (snd hosting))
      as [H _].
    specialize (H "bob"%string 1%nat eq_refl eq_refl).
    replace (stored_offer (snd hosting)
               (callId plainToString (frequency bob)))
      with (Some (offer_of hostEnv "alice"%string))
      in H by (vm_compute; reflexivity).
    destruct H as (Hr & _ & Hw). split; [exact Hr|].
    unfold guesting. rewrite Hw. vm_compute. reflexivity.
  - destruct (join_selects_role plainToString deniedEnv bob (snd hosting))
      as [_ H].
    destruct (H (or_intror eq_refl)) as (Hdb & _ & _ & _ & Hr).
    split; [exact (Hr eq_refl) | exact Hdb].
Defined.

(** C1 as stated fails when no identity has been issued yet: the channel
    is empty, and the join returns at its first line, with no role and no
    store write. *)
Lemma join_without_identity_counterexample :
  stored_offer empty_store (callId plainToString (frequency initial)) = None
  /\ role (fst anonymous) = Unassigned
  /\ writes (snd anonymous) = []
  /\ ~ (role (fst anonymous) = Host
        /\ exists d, writes (snd anonymous) = writes empty_store ++ [d]).
Proof.
  split; [vm_compute; reflexivity|].
  split; [vm_compute; reflexivity|].
  split; [vm_compute; reflexivity|].
  intros [Hrole _]. vm_compute in Hrole. discriminate.
Qed.

(** *** The answer is applied once *)

Section Answer.

Variable numberToString : spec_float -> string.

Opaque hangUp.

Lemma onAnswerSnapshot_ignored data c p d :
  pc c = Some p ->
  currentRemoteDescription p = Some d ->
  onAnswerSnapshot data c = c.
Proof.
  intros Hpc Hd. unfold onAnswerSnapshot. now rewrite Hpc, Hd.
Qed.

(** Within a session no event replaces a remote description that is in
    place; the session can only end. *)
Lemma step_keeps_remoteDescription c db d ev :
  within_session ev ->
  remoteDescription c = Some d ->
  let c' := fst (step numberToString (c, db) ev) in
  remoteDescription c' = Some d \/ pc c' = None.
Proof.
  unfold remoteDescription. intros Hev Hd.
  destruct (pc c) as [p|] eqn:Hpc; [|discriminate].
  destruct ev; try contradiction; cbn [step fst];
    unfold resetChannel, adjustFrequency, startTalk, stopTalk,
      setTracksEnabled, onconnectionstatechange, onIceCandidate,
      onAnswerSnapshot, onCandidatesSnapshot, settle, setStatus,
      setConnectionStatus;
    repeat (case_match; simplify_eq/=);
    rewrite ?hangUp_pc in *; simplify_eq; auto.
Qed.

(** C2.  Once an answer has been applied as the remote description of
    the host's connection, every later notification of the channel
    document, whatever the document holds then and however many arrive, is
    ignored: the callback calls [setRemoteDescription] no more and leaves
    the whole client as it is.  And no other event of the session replaces
    the description: it stays in place until the session ends. *)
Theorem answer_applied_once (c : Client) (p : PeerConnection)
    (d : SessionDescription) :
  pc c = Some p ->
  currentRemoteDescription p = Some d ->
  (forall datas : list (option ChannelDoc), deliver datas c = c)
  /\ (forall db ev,
        within_session ev ->
        let c' := fst (step numberToString (c, db) ev) in
        remoteDescription c' = Some d \/ pc c' = None).
Proof.
  intros Hpc Hd. split.
  - intros datas. unfold deliver.
    induction datas as [|data datas IH]; [reflexivity|].
    cbn [fold_left]. now rewrite (onAnswerSnapshot_ignored data c p d).
  - intros db ev Hev. apply step_keeps_remoteDescription; [assumption|].
    unfold remoteDescription. now rewrite Hpc.
Qed.

Transparent hangUp.

End Answer.

Lemma answer_applied_once_witness :
  remoteDescription (fst answered)
  = Some {| sd_type := "answer"; sd_sdp := "v=0 guest" |}%string
  /\ deliver laterSnapshots (fst answered) = fst answered.
Proof.
  split; [vm_compute; reflexivity|].
  destruct (pc (fst answered)) as [p|] eqn:Hpc;
    [|vm_compute in Hpc; discriminate].
  destruct (currentRemoteDescription p) as [d|] eqn:Hd.
  - apply (answer_applied_once plainToString (fst answered) p d Hpc Hd).
  - exfalso. vm_compute in Hpc. injection Hpc as <-.
    vm_compute in Hd. discriminate.
Defined.

(** *** Teardown *)

Lemma stopTracks_map stream i ts :
  fst (stopTracks stream i ts) = map stopTrack ts.
Proof.
  revert i. induction ts as [|t ts IH]; intros i; [reflexivity|].
  cbn [stopTracks]. specialize (IH (S i)).
  destruct (stopTracks stream (S i) ts) as [ts' r]. simpl in *. now rewrite IH.
Qed.

(** On tracks that have all ended, the loop of [hangUp] changes nothing
    and releases nothing. *)
Lemma stopTracks_ended stream i ts :
  Forall (fun t => readyState t = Ended) ts ->
  stopTracks stream i ts = (ts, []).
Proof.
  intros H. revert i. induction H as [|t ts Ht _ IH]; intros i; [reflexivity|].
  cbn [stopTracks]. rewrite IH, Ht. destruct t as [en rs]. simpl in *.
  now subst rs.
Qed.

Lemma hangUp_local_tracks_ended c : local_tracks_ended (hangUp c).
Proof.
  intros stream ts Hs Hts. rewrite hangUp_localStream in Hs.
  assert (Hstreams : streams (hangUp c) =
            match streams c !! stream with
            | Some ts0 => <[stream := map stopTrack ts0]> (streams c)
            | None => streams c
            end).
  { unfold hangUp. rewrite Hs.
    destruct (streams c !! stream) as [ts0|] eqn:Hl.
    - rewrite <- (stopTracks_map stream 0 ts0).
      destruct (stopTracks stream 0 ts0) as [ts' r]. frame.
    - frame. }
  rewrite Hstreams in Hts.
  destruct (streams c !! stream) as [ts0|] eqn:Hl; [|congruence].
  rewrite list_lookup_insert_eq in Hts by (eapply lookup_lt_Some; eauto).
  injection Hts as <-. apply List.Forall_forall. intros t Ht.
  apply in_map_iff in Ht as (t0 & <- & _). reflexivity.
Qed.

Lemma hangUp_closed c : closed (hangUp c).
Proof.
  unfold closed.
  split; [apply hangUp_pc|].
  split; [apply hangUp_unsubscribeRef|].
  split; [apply hangUp_connectionStatus | apply hangUp_local_tracks_ended].
Qed.

(** Teardown of a closed session is a no-op. *)
Lemma hangUp_when_closed c : closed c -> hangUp c = c.
Proof.
  intros (Hpc & Hu & Hst & Hts). unfold hangUp.
  assert (H1 : match localStream c with
               | Some stream =>
                   match streams c !! stream with
                   | Some ts =>
                       let '(ts', r) := stopTracks stream 0 ts in
                       set_released (released c ++ r)
                         (set_streams (<[stream := ts']> (streams c)) c)
                   | None => c
                   end
               | None => c
               end = c).
  { destruct (localStream c) as [stream|] eqn:Hs; [|reflexivity].
    destruct (streams c !! stream) as [ts|] eqn:Hl; [|reflexivity].
    rewrite (stopTracks_ended stream 0 ts (Hts stream ts Hs Hl)).
    rewrite app_nil_r, list_insert_id by assumption.
    destruct c; reflexivity. }
  rewrite H1, Hpc, Hu. unfold setConnectionStatus.
  destruct c; simpl in *. now subst.
Qed.

(** C7.  Teardown is idempotent.  Whatever the state, a second [hangUp]
    right after a first leaves the client exactly as the first left it,
    the log of released resources included: the connection is closed and
    cleared once, the stored listener detached once, every live track
    ended once (the second call runs [stop] again on tracks that have
    ended, where it does nothing), and the status stays [DISCONNECTED]. *)
Theorem hangUp_idempotent (c : Client) :
  hangUp (hangUp c) = hangUp c
  /\ closed (hangUp c)
  /\ released (hangUp (hangUp c)) = released (hangUp c).
Proof.
  assert (H : hangUp (hangUp c) = hangUp c)
    by (apply hangUp_when_closed, hangUp_closed).
  split; [exact H|]. split; [apply hangUp_closed|]. now rewrite H.
Qed.

(** C3.  Teardown of a hosting session detaches the listener of the
    channel document but not the listener of the answer candidates, whose
    unsubscribe function [joinFrequency] never kept; teardown of a guest
    session detaches nothing.  The candidate listener outlives [hangUp],
    and a snapshot delivered to it afterwards still finds it attached and
    runs its callback on the closed session ([pc.current] is [null]). *)
Theorem hangUp_leaves_candidate_listener :
  closed hostClosed /\ closed guestClosed
  /\ attached_listeners hostClosed
     = [{| l_callId := "freq_105_5"; l_source := Candidates AnswerCandidates;
           l_active := true |}]%string
  /\ attached_listeners guestClosed
     = [{| l_callId := "freq_105_5"; l_source := Candidates OfferCandidates;
           l_active := true |}]%string
  /\ attached 1 hostClosed <> None
  /\ attached 0 guestClosed <> None
  /\ released hostClosed = [RTrack 0 0; RPeerConnection; RListener 0]
  /\ released guestClosed = [RTrack 0 0; RPeerConnection].
Proof.
  split; [apply hangUp_closed|]. split; [apply hangUp_closed|].
  vm_compute. repeat split; try reflexivity; discriminate.
Qed.

(** *** [resetChannel] *)

Section Reset.

Variable numberToString : spec_float -> string.

(** C5, as amended.  [resetChannel] deletes the channel document of the
    current frequency and no other document, and it also tears the local
    session down: its client part is exactly [hangUp], so afterwards the
    connection is cleared, the stored listener detached, the local tracks
    ended and the status [DISCONNECTED].  The power switch, the frequency
    and the identity are left as they were. *)
Theorem resetChannel_deletes_and_hangs_up (c : Client) (db : Store) :
  let id := callId numberToString (frequency c) in
  let w := resetChannel numberToString c db in
  docs (snd w) !! id = None
  /\ (forall id', id' <> id -> docs (snd w) !! id' = docs db !! id')
  /\ writes (snd w) = writes db ++ [WDeleteDoc id]
  /\ fst w = hangUp c
  /\ closed (fst w)
  /\ isOn (fst w) = isOn c
  /\ frequency (fst w) = frequency c
  /\ user (fst w) = user c.
Proof.
  intros id w. subst w. unfold resetChannel. cbn [fst snd docs writes set_writes set_docs].
  split; [apply lookup_delete_eq|].
  split; [intros id' Hne; now apply lookup_delete_ne|].
  split; [reflexivity|]. split; [reflexivity|].
  split; [apply hangUp_closed|].
  split; [apply hangUp_isOn|].
  split; [apply hangUp_frequency | apply hangUp_user].
Qed.

End Reset.

(** C5 as stated fails on a hosting session: [resetChannel] closes it. *)
Lemma resetChannel_closes_session_counterexample :
  (pc (fst hosting) <> None
   /\ connectionStatus (fst hosting) = "WAITING FOR PEER..."%string
   /\ unsubscribeRef (fst hosting) = Some 0%nat
   /\ streams (fst hosting) = [[{| enabled := false; readyState := Live |}]])
  /\ (pc (fst resetting) = None
      /\ connectionStatus (fst resetting) = "DISCONNECTED"%string
      /\ unsubscribeRef (fst resetting) = None
      /\ streams (fst resetting)
         = [[{| enabled := false; readyState := Ended |}]])
  /\ fst resetting <> fst hosting.
Proof.
  vm_compute. repeat split; try reflexivity; discriminate.
Qed.

(** *** Joining twice *)

Section Rejoin.

Variable numberToString : spec_float -> string.

Lemma joinFrequency_user env c db :
  user (fst (joinFrequency numberToString env c db)) = user c.
Proof. frame. Qed.

(** After a join that reached the channel, the document carries an
    offer: the one the host just wrote, or the one the guest found. *)
Lemma joinFrequency_leaves_offer env c db uid n :
  user c = Some uid ->
  mic env = Some n ->
  exists o,
    stored_offer (snd (joinFrequency numberToString env c db))
      (callId numberToString (frequency c)) = Some o.
Proof.
  intros Hu Hm.
  destruct (stored_offer db (callId numberToString (frequency c)))
    as [o|] eqn:Hoffer.
  - destruct (joinFrequency_guest numberToString env c db uid n o Hu Hm Hoffer)
      as (_ & _ & _ & Hd).
    exists o. unfold stored_offer in *. rewrite Hd, lookup_alter_eq.
    destruct (docs db !! callId numberToString (frequency c)) as [d|];
      [exact Hoffer | discriminate].
  - destruct (joinFrequency_host numberToString env c db uid n Hu Hm Hoffer)
      as (_ & _ & _ & Hd).
    exists (offer_of env uid). unfold stored_offer. rewrite Hd.
    now rewrite lookup_insert_eq.
Qed.

(** C6, as amended.  [joinFrequency] has no guard against a session that
    is already joined; the guard is the power button.  With the power on,
    [togglePower] does not join: it tears the session down and leaves the
    store alone; it joins only with the power off.  A second
    [joinFrequency] right after a first is not a no-op: it finds the offer
    the first join wrote or answered, takes the Guest role and makes one
    more store write, the [answer] field. *)
Theorem join_guarded_by_power_button (env1 env2 : JoinEnv) (c : Client)
    (db : Store) :
  (isOn c = true ->
   togglePower numberToString env1 c db = (hangUp (set_isOn false c), db))
  /\ (isOn c = false ->
      togglePower numberToString env1 c db
      = joinFrequency numberToString env1 (set_isOn true c) db)
  /\ (forall uid n1 n2,
        user c = Some uid ->
        mic env1 = Some n1 ->
        mic env2 = Some n2 ->
        let id := callId numberToString (frequency c) in
        let w1 := joinFrequency numberToString env1 c db in
        let w2 := joinFrequency numberToString env2 (fst w1) (snd w1) in
        role (fst w2) = Guest
        /\ writes (snd w2)
           = writes (snd w1) ++ [WUpdateAnswer id (answer_of env2 uid)]
        /\ length (listeners (fst w2)) = S (length (listeners (fst w1)))).
Proof.
  split; [intros H; unfold togglePower; now rewrite H|].
  split; [intros H; unfold togglePower; now rewrite H|].
  intros uid n1 n2 Hu Hm1 Hm2 id w1 w2.
  destruct (joinFrequency_leaves_offer env1 c db uid n1 Hu Hm1) as [o Hoffer].
  fold id in Hoffer. fold w1 in Hoffer.
  assert (Hu1 : user (fst w1) = Some uid).
  { subst w1. now rewrite joinFrequency_user. }
  assert (Hf1 : frequency (fst w1) = frequency c).
  { subst w1. apply joinFrequency_frequency. }
  assert (Hoffer1 : stored_offer (snd w1)
                      (callId numberToString (frequency (fst w1))) = Some o).
  { rewrite Hf1. exact Hoffer. }
  destruct (joinFrequency_guest numberToString env2 (fst w1) (snd w1) uid n2
              o Hu1 Hm2 Hoffer1) as (Hr2 & _ & Hw2 & _).
  fold w2 in Hr2, Hw2. rewrite Hf1 in Hw2. fold id in Hw2.
  split; [exact Hr2|]. split; [exact Hw2|].
  subst w2.
  rewrite (joinFrequency_reaches_channel numberToString env2 (fst w1) (snd w1)
             uid n2 Hu1 Hm2).
  cbv zeta. rewrite Hoffer1.
  unfold joinAsGuest, onSnapshot, setupAudio. rewrite Hm2. cbn.
  rewrite length_app. cbn. lia.
Qed.

End Rejoin.

Lemma join_guarded_by_power_button_witness :
  role (fst rejoining) = Guest
  /\ length (writes (snd rejoining)) = 2%nat
  /\ length (listeners (fst rejoining)) = 3%nat.
Proof.
  destruct (join_guarded_by_power_button plainToString hostEnv guestEnv alice
              empty_store) as (_ & _ & H).
  specialize (H "alice"%string 1%nat 1%nat eq_refl eq_refl eq_refl).
  cbv zeta in H. destruct H as (Hr & Hw & Hl).
  split; [exact Hr|]. split.
  - unfold rejoining, hosting. rewrite Hw. vm_compute. reflexivity.
  - unfold rejoining, hosting. rewrite Hl. vm_compute. reflexivity.
Defined.

(** C6 as stated fails: a second join on the frequency of a hosting
    session changes the role, the descriptions, the listeners and the
    channel document, and writes to the store once more. *)
Lemma second_join_counterexample :
  fst rejoining <> fst hosting
  /\ role (fst hosting) = Host /\ role (fst rejoining) = Guest
  /\ remoteDescription (fst hosting) = None
  /\ remoteDescription (fst rejoining)
     = Some {| sd_type := "offer"; sd_sdp := "v=0 host" |}%string
  /\ length (listeners (fst hosting)) = 2%nat
  /\ length (listeners (fst rejoining)) = 3%nat
  /\ length (writes (snd hosting)) = 1%nat
  /\ length (writes (snd rejoining)) = 2%nat
  /\ docs (snd rejoining) !! "freq_105_5"%string
     <> docs (snd hosting) !! "freq_105_5"%string.
Proof.
  vm_compute. repeat split; try reflexivity; discriminate.
Qed.

(** *** The connection status *)

Section Status.

Variable numberToString : spec_float -> string.

Opaque hangUp.

Lemma joinFrequency_status env c db :
  let s := connectionStatus (fst (joinFrequency numberToString env c db)) in
  s = connectionStatus c \/ s = "TUNING..."%string
  \/ s = "WAITING FOR PEER..."%string \/ s = "CONNECTING..."%string.
Proof.
  unfold joinFrequency, joinAsHost, joinAsGuest, setupAudio, onSnapshot,
    setStatus, setConnectionStatus.
  repeat (case_match; simplify_eq/=); auto.
Qed.

Lemma step_status w ev :
  In (connectionStatus (fst w)) status_values ->
  In (connectionStatus (fst (step numberToString w ev))) status_values.
Proof.
  destruct w as [c db]. cbn [fst]. intros Hc.
  destruct ev; cbn [step fst]; try exact Hc.
  - unfold togglePower. case_match; cbn [fst].
    + rewrite hangUp_connectionStatus. simpl. auto.
    + pose proof (joinFrequency_status env (set_isOn true c) db) as Hj.
      cbv zeta in Hj. cbn [connectionStatus set_isOn] in Hj.
      destruct Hj as [-> | [-> | [-> | ->]]]; simpl; auto 6.
  - unfold resetChannel. cbn [fst].
    rewrite hangUp_connectionStatus. simpl. auto.
  - unfold adjustFrequency.
    repeat (case_match; simplify_eq/=); auto;
      rewrite hangUp_connectionStatus; auto.
  - unfold startTalk, setTracksEnabled.
    repeat (case_match; simplify_eq/=); auto.
  - unfold stopTalk, setTracksEnabled.
    repeat (case_match; simplify_eq/=); auto.
  - unfold onconnectionstatechange, setConnectionStatus.
    repeat (case_match; simplify_eq/=); auto 6;
      rewrite hangUp_connectionStatus; auto.
  - unfold onIceCandidate. repeat (case_match; simplify_eq/=); auto.
  - unfold settle. repeat (case_match; simplify_eq/=); auto.
  - unfold attached, onAnswerSnapshot, setStatus, setConnectionStatus.
    repeat (case_match; simplify_eq/=); auto 6.
  - unfold attached, onCandidatesSnapshot.
    repeat (case_match; simplify_eq/=); auto.
Qed.

Transparent hangUp.

(** What the code does: at every point of every execution the status is
    one of five values, [DISCONNECTED], [TUNING...], [WAITING FOR PEER...],
    [CONNECTING...] and [CONNECTED]. *)
Lemma connectionStatus_values (evs : list Event) (db : Store) :
  In (connectionStatus (fst (run numberToString evs (initial, db))))
     status_values.
Proof.
  assert (H : forall w, In (connectionStatus (fst w)) status_values ->
                        In (connectionStatus (fst (run numberToString evs w)))
                           status_values).
  { induction evs as [|ev evs IH]; intros w Hw; [exact Hw|].
    cbn [run fold_left]. apply IH, step_status, Hw. }
  apply H. simpl. auto.
Qed.

End Status.

(** C4.  The state is declared with the comment
    [// DISCONNECTED, CONNECTING, CONNECTED], but a join leaves it outside
    these three values: the host waits with the status
    [WAITING FOR PEER...], the guest with [CONNECTING...] (the text with
    its dots, not the state [CONNECTING]). *)
Theorem connectionStatus_leaves_named_states :
  connectionStatus (fst hosting) = "WAITING FOR PEER..."%string
  /\ ~ In (connectionStatus (fst hosting)) named_states
  /\ connectionStatus (fst guesting) = "CONNECTING..."%string
  /\ ~ In (connectionStatus (fst guesting)) named_states.
Proof.
  assert (H1 : connectionStatus (fst hosting) = "WAITING FOR PEER..."%string)
    by (vm_compute; reflexivity).
  assert (H2 : connectionStatus (fst guesting) = "CONNECTING..."%string)
    by (vm_compute; reflexivity).
  rewrite H1, H2. unfold named_states. simpl.
  repeat split; try reflexivity; intros [E|[E|[E|[]]]]; discriminate.
Qed.

(** *** Push to talk *)





Lemma hangUp_streams c :
  streams (hangUp c) =
  match localStream c with
  | Some stream =>
      match streams c !! stream with
      | Some ts => <[stream := map stopTrack ts]> (streams c)
      | None => streams c
      end
  | None => streams c
  end.
Proof.
  unfold hangUp. destruct (localStream c) as [stream|]; [|frame].
  destruct (streams c !! stream) as [ts|] eqn:Hl; [|frame].
  rewrite <- (stopTracks_map stream 0 ts).
  destruct (stopTracks stream 0 ts) as [ts' r]. frame.
Qed.



Lemma alter_snoc {A} (f : A -> A) (l : list A) (x : A) :
  alter f (length l) (l ++ [x]) = l ++ [f x].
Proof.
  pose proof (alter_app_r f l [x] 0) as H. now rewrite Nat.add_0_r in H.
Qed.

Lemma map_replicate {A B} (f : A -> B) n (x : A) :
  map f (replicate n x) = replicate n (f x).
Proof. induction n as [|n IH]; simpl; [reflexivity | now rewrite IH]. Qed.




Section PushToTalk.

Variable numberToString : spec_float -> string.

(** A join that is granted the microphone appends one stream of muted
    tracks and makes it the local stream. *)
Lemma joinFrequency_stream env c db uid n :
  user c = Some uid ->
  mic env = Some n ->
  let c' := fst (joinFrequency numberToString env c db) in
  streams c' = streams c ++ [replicate n muted_track]
  /\ localStream c' = Some (length (streams c))
  /\ isOn c' = isOn c
  /\ connectionStatus c' <> "DISCONNECTED"%string.
Proof.
  intros Hu Hm c'. subst c'.
  rewrite (joinFrequency_reaches_channel numberToString env c db uid n Hu Hm).
  cbv zeta. unfold setupAudio. rewrite Hm.
  assert (Hs : alter (map (set_enabled false)) (length (streams c))
                 (streams c ++ [replicate n fresh_track])
               = streams c ++ [replicate n muted_track]).
  { rewrite alter_snoc, map_replicate. reflexivity. }
  destruct (stored_offer db (callId numberToString (frequency c)));
    unfold joinAsHost, joinAsGuest, onSnapshot, setStatus, setConnectionStatus;
    cbn; rewrite Hs; repeat split; discriminate.
Qed.


Opaque hangUp.


Transparent hangUp.


(** A join is its two halves, one after the other. *)
Lemma joinFrequency_split env c db uid :
  user c = Some uid ->
  joinFrequency numberToString env c db
  = joinFrequency_resume numberToString env (uid, frequency c)
      (fst (joinFrequency_begin c)) db.
Proof.
  intros Hu. unfold joinFrequency, joinFrequency_begin, joinFrequency_resume.
  rewrite Hu. cbn [fst]. unfold setupAudio.
  destruct (mic env); reflexivity.
Qed.



End PushToTalk.



(** ** Further properties of the full-duplex component *)

(** *** The state a join leaves *)

Section JoinState.

Variable numberToString : spec_float -> string.

(** The connection, the listeners and the stored unsubscribe function
    after a join that hosts. *)
Lemma joinFrequency_host_state env c db uid n :
  user c = Some uid ->
  mic env = Some n ->
  stored_offer db (callId numberToString (frequency c)) = None ->
  let id := callId numberToString (frequency c) in
  let c' := fst (joinFrequency numberToString env c db) in
  pc c' = Some {| senders := Some (length (streams c));
                  localDescription :=
                    Some {| sd_type := "offer"; sd_sdp := sdp env |};
                  currentRemoteDescription := None;
                  operations := [];
                  remoteCandidates := [];
                  onicecandidate := Some (id, OfferCandidates);
                  connectionState := "new" |}%string
  /\ listeners c'
     = listeners c
       ++ [{| l_callId := id; l_source := ChannelDocument; l_active := true |};
           {| l_callId := id; l_source := Candidates AnswerCandidates;
              l_active := true |}]
  /\ unsubscribeRef c' = Some (length (listeners c))
  /\ connectionStatus c' = "WAITING FOR PEER..."%string.
Proof.
  intros Hu Hm Hoffer id c'. subst c'.
  rewrite (joinFrequency_reaches_channel numberToString env c db uid n Hu Hm).
  cbv zeta. rewrite Hoffer. unfold setupAudio. rewrite Hm.
  unfold joinAsHost, onSnapshot. cbn.
  rewrite <- app_assoc. repeat split.
Qed.

(** The same after a join that answers. *)
Lemma joinFrequency_guest_state env c db uid n o :
  user c = Some uid ->
  mic env = Some n ->
  stored_offer db (callId numberToString (frequency c)) = Some o ->
  let id := callId numberToString (frequency c) in
  let c' := fst (joinFrequency numberToString env c db) in
  pc c' = Some {| senders := Some (length (streams c));
                  localDescription :=
                    Some {| sd_type := "answer"; sd_sdp := sdp env |};
                  currentRemoteDescription :=
                    Some {| sd_type := offer_type o; sd_sdp := offer_sdp o |};
                  operations := [];
                  remoteCandidates := [];
                  onicecandidate := Some (id, AnswerCandidates);
                  connectionState := "new" |}%string
  /\ listeners c'
     = listeners c
       ++ [{| l_callId := id; l_source := Candidates OfferCandidates;
              l_active := true |}]
  /\ unsubscribeRef c' = unsubscribeRef c
  /\ connectionStatus c' = "CONNECTING..."%string.
Proof.
  intros Hu Hm Hoffer id c'. subst c'.
  rewrite (joinFrequency_reaches_channel numberToString env c db uid n Hu Hm).
  cbv zeta. rewrite Hoffer. unfold setupAudio. rewrite Hm.
  unfold joinAsGuest, onSnapshot. cbn. repeat split.
Qed.

End JoinState.

(** *** The handshake end to end *)

Section EndToEnd.

Variable numberToString : spec_float -> string.

(** X1.  A host and a guest tuned to the same channel complete the
    handshake.  The host joins the empty channel, the guest joins next, the
    host's document listener sees the answer, its connection settles, and
    the transport reports [connected] on both sides: both end with the
    status [CONNECTED], each holding the other's description as its
    remote description, and the channel document holding the host's offer
    and the guest's answer. *)
Theorem handshake_completes (envH envG : JoinEnv) (host guest : Client)
    (db : Store) (uidH uidG : string) (nH nG : nat) :
  user host = Some uidH -> mic envH = Some nH ->
  user guest = Some uidG -> mic envG = Some nG ->
  callId numberToString (frequency guest)
  = callId numberToString (frequency host) ->
  stored_offer db (callId numberToString (frequency host)) = None ->
  let id := callId numberToString (frequency host) in
  let w1 := joinFrequency numberToString envH host db in
  let w2 := joinFrequency numberToString envG guest (snd w1) in
  let wh := run numberToString
              [DocSnapshot (length (listeners host)); Settled;
               ConnectionStateChange "connected"%string] (fst w1, snd w2) in
  let wg := run numberToString
              [ConnectionStateChange "connected"%string] (fst w2, snd w2) in
  (role (fst w1) = Host /\ role (fst w2) = Guest)
  /\ connectionStatus (fst wh) = "CONNECTED"%string
  /\ connectionStatus (fst wg) = "CONNECTED"%string
  /\ remoteDescription (fst wh)
     = Some {| sd_type := "answer"; sd_sdp := sdp envG |}%string
  /\ remoteDescription (fst wg)
     = Some {| sd_type := "offer"; sd_sdp := sdp envH |}%string
  /\ docs (snd w2) !! id
     = Some {| offer := Some (offer_of envH uidH);
               answer := Some (answer_of envG uidG) |}.
Proof.
  intros HuH HmH HuG HmG Hid Hoffer id w1 w2 wh wg.
  destruct (joinFrequency_host numberToString envH host db uidH nH
              HuH HmH Hoffer) as (Hr1 & _ & _ & Hd1).
  fold id in Hd1. fold w1 in Hr1, Hd1.
  destruct (joinFrequency_host_state numberToString envH host db uidH nH
              HuH HmH Hoffer) as (Hpc1 & Hl1 & _ & _).
  fold id in Hpc1, Hl1. fold w1 in Hpc1, Hl1.
  assert (Hoffer2 : stored_offer (snd w1)
                      (callId numberToString (frequency guest))
                    = Some (offer_of envH uidH)).
  { rewrite Hid. fold id. unfold stored_offer.
    rewrite Hd1, lookup_insert_eq. reflexivity. }
  destruct (joinFrequency_guest numberToString envG guest (snd w1) uidG nG
              (offer_of envH uidH) HuG HmG Hoffer2) as (Hr2 & Hrd2 & _ & Hd2).
  rewrite Hid in Hd2. fold id in Hd2. fold w2 in Hr2, Hrd2, Hd2.
  destruct (joinFrequency_guest_state numberToString envG guest (snd w1)
              uidG nG (offer_of envH uidH) HuG HmG Hoffer2)
    as (Hpc2 & _ & _ & _).
  rewrite Hid in Hpc2. fold id in Hpc2. fold w2 in Hpc2.
  assert (Hdoc : docs (snd w2) !! id
                 = Some {| offer := Some (offer_of envH uidH);
                           answer := Some (answer_of envG uidG) |}).
  { rewrite Hd2, lookup_alter_eq, Hd1, lookup_insert_eq. reflexivity. }
  split; [split; assumption|].
  assert (Hatt : attached (length (listeners host)) (fst w1)
                 = Some {| l_callId := id; l_source := ChannelDocument;
                           l_active := true |}).
  { unfold attached. rewrite Hl1.
    rewrite (list_lookup_middle (listeners host) _ _ (length (listeners host)))
      by reflexivity.
    reflexivity. }
  subst wh wg. cbn [run fold_left step fst snd].
  rewrite Hatt, Hdoc, Hpc2.
  unfold onAnswerSnapshot. rewrite Hpc1.
  cbn. repeat split; reflexivity.
Qed.

End EndToEnd.

(** *** What a join does to the store *)

Section JoinStore.

Variable numberToString : spec_float -> string.

(** X2.  A join touches one channel only: the document of every other
    channel, and both candidate sub-collections of every channel, are as
    they were.  A join that has no identity or is refused the microphone
    leaves the whole store as it was. *)
Theorem join_touches_only_its_channel (env : JoinEnv) (c : Client)
    (db : Store) (id' : string) :
  id' <> callId numberToString (frequency c) ->
  let w := joinFrequency numberToString env c db in
  docs (snd w) !! id' = docs db !! id'
  /\ offerCandidates (snd w) = offerCandidates db
  /\ answerCandidates (snd w) = answerCandidates db
  /\ (user c = None \/ mic env = None -> snd w = db).
Proof.
  intros Hne w. subst w.
  destruct (user c) as [uid|] eqn:Hu.
  - destruct (mic env) as [n|] eqn:Hm.
    + rewrite (joinFrequency_reaches_channel numberToString env c db uid n
                 Hu Hm).
      cbv zeta.
      destruct (stored_offer db (callId numberToString (frequency c)));
        unfold joinAsHost, joinAsGuest, onSnapshot; cbn;
        (split; [|split; [reflexivity|split; [reflexivity|]]]).
      * now apply lookup_alter_ne.
      * intros [H|H]; discriminate.
      * now apply lookup_insert_ne.
      * intros [H|H]; discriminate.
    + unfold joinFrequency, setupAudio. rewrite Hu, Hm. cbn. auto.
  - unfold joinFrequency. rewrite Hu. cbn. auto.
Qed.

(** X3.  A join on a channel that carries an offer always answers it,
    whether or not the channel was answered before: the offer is kept and
    the [answer] field is replaced by the newcomer's. *)
Theorem join_overwrites_answer (env : JoinEnv) (c : Client) (db : Store)
    (uid : string) (n : nat) (d : ChannelDoc) (o : Offer) :
  user c = Some uid -> mic env = Some n ->
  docs db !! callId numberToString (frequency c) = Some d ->
  offer d = Some o ->
  let w := joinFrequency numberToString env c db in
  role (fst w) = Guest
  /\ docs (snd w) !! callId numberToString (frequency c)
     = Some {| offer := Some o; answer := Some (answer_of env uid) |}.
Proof.
  intros Hu Hm Hd Ho w.
  assert (Hoffer : stored_offer db (callId numberToString (frequency c))
                   = Some o).
  { unfold stored_offer. now rewrite Hd. }
  destruct (joinFrequency_guest numberToString env c db uid n o Hu Hm Hoffer)
    as (Hr & _ & _ & Hdocs).
  fold w in Hr, Hdocs. split; [exact Hr|].
  rewrite Hdocs, lookup_alter_eq, Hd. cbn. now rewrite Ho.
Qed.

(** X4.  Teardown leaves the channel occupied.  After a host has joined
    and powered off, its offer is still in the channel document, so the
    next client to join that channel becomes the Guest of a host that is
    gone, with the dead offer as its remote description. *)
Theorem stale_offer_survives_power_off (envH envG : JoinEnv)
    (host next : Client) (db : Store) (uidH uidG : string) (nH nG : nat) :
  isOn host = false ->
  user host = Some uidH -> mic envH = Some nH ->
  stored_offer db (callId numberToString (frequency host)) = None ->
  user next = Some uidG -> mic envG = Some nG ->
  callId numberToString (frequency next)
  = callId numberToString (frequency host) ->
  let w1 := togglePower numberToString envH host db in
  let w2 := togglePower numberToString envH (fst w1) (snd w1) in
  let w3 := joinFrequency numberToString envG next (snd w2) in
  closed (fst w2)
  /\ snd w2 = snd w1
  /\ role (fst w3) = Guest
  /\ remoteDescription (fst w3)
     = Some {| sd_type := "offer"; sd_sdp := sdp envH |}%string.
Proof.
  intros Hoff HuH HmH Hoffer HuG HmG Hid w1 w2 w3.
  assert (Hw1 : w1 = joinFrequency numberToString envH (set_isOn true host) db).
  { subst w1. unfold togglePower. now rewrite Hoff. }
  assert (Hon1 : isOn (fst w1) = true).
  { rewrite Hw1.
    destruct (joinFrequency_stream numberToString envH (set_isOn true host) db
                uidH nH HuH HmH) as (_ & _ & Hon & _).
    exact Hon. }
  assert (Hw2 : w2 = (hangUp (set_isOn false (fst w1)), snd w1)).
  { subst w2. unfold togglePower. now rewrite Hon1. }
  assert (Hstored : stored_offer (snd w2)
                      (callId numberToString (frequency next))
                    = Some (offer_of envH uidH)).
  { rewrite Hw2, Hw1, Hid. cbn [snd].
    destruct (joinFrequency_host numberToString envH (set_isOn true host) db
                uidH nH HuH HmH Hoffer) as (_ & _ & _ & Hd).
    unfold stored_offer. cbn [frequency set_isOn] in Hd.
    rewrite Hd, lookup_insert_eq. reflexivity. }
  destruct (joinFrequency_guest numberToString envG next (snd w2) uidG nG
              (offer_of envH uidH) HuG HmG Hstored) as (Hr & Hrd & _ & _).
  fold w3 in Hr, Hrd.
  split; [rewrite Hw2; apply hangUp_closed|].
  split; [now rewrite Hw2|]. split; assumption.
Qed.

(** X5.  [resetChannel] frees the channel: whatever the document held, the
    next join on that frequency finds no offer and hosts. *)
Theorem reset_then_join_hosts (env : JoinEnv) (c next : Client) (db : Store)
    (uid : string) (n : nat) :
  user next = Some uid -> mic env = Some n ->
  callId numberToString (frequency next)
  = callId numberToString (frequency c) ->
  let w1 := resetChannel numberToString c db in
  let w2 := joinFrequency numberToString env next (snd w1) in
  role (fst w2) = Host
  /\ docs (snd w2) !! callId numberToString (frequency c)
     = Some {| offer := Some (offer_of env uid); answer := None |}.
Proof.
  intros Hu Hm Hid w1 w2.
  assert (Hoffer : stored_offer (snd w1)
                     (callId numberToString (frequency next)) = None).
  { rewrite Hid. subst w1. unfold resetChannel, stored_offer.
    cbn [snd docs set_writes set_docs]. now rewrite lookup_delete_eq. }
  destruct (joinFrequency_host numberToString env next (snd w1) uid n
              Hu Hm Hoffer) as (Hr & _ & _ & Hd).
  fold w2 in Hr, Hd. split; [exact Hr|].
  rewrite Hd, Hid. apply lookup_insert_eq.
Qed.

End JoinStore.

(** *** Candidates *)

Section CandidateRelay.

Variable numberToString : spec_float -> string.

(** X6.  Each role publishes its own candidates and listens to the other
    role's.  After a join, a candidate the connection gathers is appended
    to the joiner's own sub-collection of its channel (the host's to
    [offerCandidates], the guest's to [answerCandidates]) with exactly one
    store write, and the closing event without a candidate writes nothing;
    the listener the join registered last is on the opposite
    sub-collection. *)
Theorem candidates_cross_over (env : JoinEnv) (c : Client) (db : Store)
    (uid : string) (n : nat) (cand : string) :
  user c = Some uid -> mic env = Some n ->
  let id := callId numberToString (frequency c) in
  let w := joinFrequency numberToString env c db in
  let own := match stored_offer db id with
             | None => OfferCandidates
             | Some _ => AnswerCandidates
             end in
  let other := match stored_offer db id with
               | None => AnswerCandidates
               | Some _ => OfferCandidates
               end in
  onIceCandidate (Some cand) (fst w) (snd w)
  = (fst w, addDoc id own cand (snd w))
  /\ writes (addDoc id own cand (snd w))
     = writes (snd w) ++ [WAddDoc id own cand]
  /\ onIceCandidate None (fst w) (snd w) = w
  /\ last (listeners (fst w))
     = Some {| l_callId := id; l_source := Candidates other;
               l_active := true |}.
Proof.
  intros Hu Hm id w own other.
  destruct (stored_offer db id) as [o|] eqn:Hoffer.
  - destruct (joinFrequency_guest_state numberToString env c db uid n o
                Hu Hm Hoffer) as (Hpc & Hl & _).
    fold id in Hpc, Hl. fold w in Hpc, Hl.
    unfold onIceCandidate. rewrite Hpc, Hl. cbn.
    rewrite last_app. cbn. destruct w. repeat split.
  - destruct (joinFrequency_host_state numberToString env c db uid n
                Hu Hm Hoffer) as (Hpc & Hl & _).
    fold id in Hpc, Hl. fold w in Hpc, Hl.
    unfold onIceCandidate. rewrite Hpc, Hl. cbn.
    rewrite last_app. cbn. destruct w. repeat split.
Qed.

End CandidateRelay.

(** *** Transport events *)

Section Transport.

Variable numberToString : spec_float -> string.

(** X7.  A transport report of [disconnected] or [failed] closes the
    session but leaves the power switch and the store alone, so the next
    press of the power button, the switch still being on, only powers off:
    it joins nothing and writes nothing.  A report of any state other than
    [connected], [disconnected] and [failed] leaves the status, and the
    whole client but the connection's recorded state, as it was. *)
Theorem transport_failure_closes_session (c : Client) (db : Store)
    (p : PeerConnection) (st : string) (env : JoinEnv) :
  pc c = Some p ->
  let w := step numberToString (c, db) (ConnectionStateChange st) in
  (st = "disconnected"%string \/ st = "failed"%string ->
   closed (fst w) /\ isOn (fst w) = isOn c /\ snd w = db
   /\ (isOn c = true ->
       let w' := step numberToString w (TogglePower env) in
       isOn (fst w') = false /\ closed (fst w') /\ snd w' = db))
  /\ (st <> "connected"%string -> st <> "disconnected"%string ->
      st <> "failed"%string ->
      fst w = set_pc (Some (set_connectionState st p)) c /\ snd w = db).
Proof.
  intros Hpc w. subst w. cbn [step]. rewrite Hpc.
  unfold onconnectionstatechange. split.
  - intros Hst.
    assert (Hc : String.eqb st "connected" = false)
      by (destruct Hst as [-> | ->]; reflexivity).
    assert (Hd : (String.eqb st "disconnected" || String.eqb st "failed")
                 = true)
      by (destruct Hst as [-> | ->]; reflexivity).
    rewrite Hc, Hd. cbn [fst snd].
    split; [apply hangUp_closed|].
    split; [now rewrite hangUp_isOn|]. split; [reflexivity|].
    intros Hon. cbv zeta. cbn [step]. unfold togglePower.
    rewrite hangUp_isOn. cbn [isOn setConnectionStatus set_connectionStatus
                               set_pc].
    rewrite Hon. cbn [fst snd].
    split; [now rewrite hangUp_isOn|]. split; [apply hangUp_closed|reflexivity].
  - intros H1 H2 H3.
    apply String.eqb_neq in H1, H2, H3. rewrite H1, H2, H3. cbn. auto.
Qed.

End Transport.

(** *** What becomes of the listeners *)

Lemma hangUp_listeners c :
  listeners (hangUp c) =
  match unsubscribeRef c with
  | Some h =>
      match listeners c !! h with
      | Some l => <[h := detached l]> (listeners c)
      | None => listeners c
      end
  | None => listeners c
  end.
Proof. unfold detached. frame. Qed.

Section SessionInvariants.

Variable numberToString : spec_float -> string.

Lemma joinFrequency_listeners env c db :
  exists new,
    listeners (fst (joinFrequency numberToString env c db))
    = listeners c ++ new.
Proof.
  unfold joinFrequency, joinAsHost, joinAsGuest, setupAudio, onSnapshot.
  repeat (case_match; simplify_eq/=);
    try (rewrite <- app_assoc); eauto.
  all: exists []; now rewrite app_nil_r.
Qed.

Lemma joinFrequency_handle env c db :
  handle_on_document c ->
  handle_on_document (fst (joinFrequency numberToString env c db)).
Proof.
  intros Hc.
  destruct (user c) as [uid|] eqn:Hu;
    [|unfold joinFrequency; rewrite Hu; exact Hc].
  destruct (mic env) as [n|] eqn:Hm;
    [|unfold joinFrequency, setupAudio; rewrite Hu, Hm; exact Hc].
  destruct (stored_offer db (callId numberToString (frequency c)))
    as [o|] eqn:Ho.
  - destruct (joinFrequency_guest_state numberToString env c db uid n o
                Hu Hm Ho) as (_ & Hl & Hh & _).
    intros h Hsome. rewrite Hh in Hsome.
    destruct (Hc h Hsome) as (l & Hlk & Hsrc).
    exists l. split; [|exact Hsrc].
    rewrite Hl. now apply lookup_app_l_Some.
  - destruct (joinFrequency_host_state numberToString env c db uid n
                Hu Hm Ho) as (_ & Hl & Hh & _).
    intros h Hsome. rewrite Hh in Hsome. injection Hsome as <-.
    rewrite Hl. eexists. split.
    + apply list_lookup_middle. reflexivity.
    + reflexivity.
Qed.

End SessionInvariants.

Section ListenerLeak.

Variable numberToString : spec_float -> string.

Lemma hangUp_handle c : handle_on_document (hangUp c).
Proof. intros h Hh. rewrite hangUp_unsubscribeRef in Hh. discriminate. Qed.

Lemma hangUp_keeps_candidates c h l col :
  handle_on_document c ->
  attached h c = Some l -> l_source l = Candidates col ->
  attached h (hangUp c) = Some l.
Proof.
  intros Hc Hatt Hsrc. unfold attached in *. rewrite hangUp_listeners.
  destruct (unsubscribeRef c) as [h0|] eqn:Hu; [|exact Hatt].
  destruct (Hc h0 Hu) as (l0 & Hl0 & Hsrc0). rewrite Hl0.
  destruct (decide (h0 = h)) as [->|Hne].
  - rewrite Hl0 in Hatt. destruct (l_active l0); [|discriminate].
    injection Hatt as <-. congruence.
  - now rewrite list_lookup_insert_ne.
Qed.

Lemma joinFrequency_keeps_listeners env c db h l :
  attached h c = Some l ->
  attached h (fst (joinFrequency numberToString env c db)) = Some l.
Proof.
  unfold attached. intros Hatt.
  destruct (joinFrequency_listeners numberToString env c db) as [new ->].
  destruct (listeners c !! h) as [l0|] eqn:Hl; [|discriminate].
  now rewrite (lookup_app_l_Some _ _ _ _ Hl).
Qed.

Opaque hangUp.

Lemma step_handle w ev :
  handle_on_document (fst w) ->
  handle_on_document (fst (step numberToString w ev)).
Proof.
  destruct w as [c db]. cbn [fst]. intros Hc.
  destruct ev; cbn [step fst]; try exact Hc.
  - unfold togglePower. case_match; cbn [fst]; [apply hangUp_handle|].
    apply joinFrequency_handle. exact Hc.
  - apply hangUp_handle.
  - unfold adjustFrequency. repeat case_match; simplify_eq; try exact Hc.
    intros h Hh. cbn in Hh. rewrite hangUp_unsubscribeRef in Hh.
    discriminate.
  - unfold startTalk, setTracksEnabled. repeat case_match; exact Hc.
  - unfold stopTalk, setTracksEnabled. repeat case_match; exact Hc.
  - destruct (pc c) as [p|]; cbn [fst]; [|exact Hc].
    unfold onconnectionstatechange, setConnectionStatus.
    repeat case_match; try apply hangUp_handle; exact Hc.
  - unfold onIceCandidate. repeat case_match; exact Hc.
  - unfold settle. repeat case_match; exact Hc.
  - unfold attached, onAnswerSnapshot, setStatus, setConnectionStatus.
    repeat case_match; cbn [fst]; exact Hc.
  - unfold attached, onCandidatesSnapshot.
    repeat case_match; cbn [fst]; exact Hc.
Qed.

Lemma step_keeps_candidates w ev h l col :
  handle_on_document (fst w) ->
  attached h (fst w) = Some l -> l_source l = Candidates col ->
  attached h (fst (step numberToString w ev)) = Some l.
Proof.
  destruct w as [c db]. cbn [fst]. intros Hc Hatt Hsrc.
  destruct ev; cbn [step fst]; try exact Hatt.
  - unfold togglePower. case_match; cbn [fst].
    + now apply (hangUp_keeps_candidates (set_isOn false c) h l col).
    + now apply joinFrequency_keeps_listeners.
  - now apply (hangUp_keeps_candidates c h l col).
  - unfold adjustFrequency. repeat case_match; simplify_eq; try exact Hatt.
    now apply (hangUp_keeps_candidates c h l col).
  - unfold startTalk, setTracksEnabled. repeat case_match; exact Hatt.
  - unfold stopTalk, setTracksEnabled. repeat case_match; exact Hatt.
  - destruct (pc c) as [p|]; cbn [fst]; [|exact Hatt].
    unfold onconnectionstatechange, setConnectionStatus.
    repeat case_match; try exact Hatt.
    now apply (hangUp_keeps_candidates
                 (set_connectionStatus "DISCONNECTED"
                    (set_pc (Some (set_connectionState st p)) c)) h l col).
  - unfold onIceCandidate. repeat case_match; exact Hatt.
  - unfold settle. repeat case_match; exact Hatt.
  - unfold onAnswerSnapshot, setStatus, setConnectionStatus.
    repeat case_match; cbn [fst]; exact Hatt.
  - unfold onCandidatesSnapshot.
    repeat case_match; cbn [fst]; exact Hatt.
Qed.

Transparent hangUp.

Lemma run_keeps_candidates evs w h l col :
  handle_on_document (fst w) ->
  attached h (fst w) = Some l -> l_source l = Candidates col ->
  handle_on_document (fst (run numberToString evs w))
  /\ attached h (fst (run numberToString evs w)) = Some l.
Proof.
  revert w. induction evs as [|ev evs IH]; intros w Hw Hatt Hsrc;
    [split; assumption|].
  cbn [run fold_left]. apply IH; [apply step_handle, Hw| |exact Hsrc].
  eapply step_keeps_candidates; eauto.
Qed.

(** X9.  No event ever detaches a candidate listener.  In every execution,
    a listener on a candidate sub-collection that is attached at some
    point is still attached after any further events: power off, frequency
    change, channel reset and transport failure included. *)
Theorem candidate_listener_never_detached (evs1 evs2 : list Event)
    (db : Store) (h : nat) (l : Listener) (col : Collection) :
  attached h (fst (run numberToString evs1 (initial, db))) = Some l ->
  l_source l = Candidates col ->
  attached h (fst (run numberToString (evs1 ++ evs2) (initial, db))) = Some l.
Proof.
  intros Hatt Hsrc. unfold run in *. rewrite fold_left_app.
  assert (H1 : handle_on_document
                 (fst (fold_left (step numberToString) evs1 (initial, db)))).
  { assert (H0 : forall evs w, handle_on_document (fst w) ->
               handle_on_document (fst (fold_left (step numberToString) evs w))).
    { induction evs as [|ev evs IH]; intros w Hw; [exact Hw|].
      cbn [fold_left]. apply IH, step_handle, Hw. }
    apply H0. intros h0 Hh0. discriminate. }
  now apply (run_keeps_candidates evs2 _ h l col).
Qed.

End ListenerLeak.

(** *** The tuner: the slider and the clamp *)

Section Slider.

Variable numberToString : spec_float -> string.

Lemma slider_grid f g :
  in_grid f = true -> in_grid g = true ->
  nextFrequency numberToString f (Number_sub g f) = g.
Proof.
  intros Hf Hg.
  assert (Hall : forallb (fun f => forallb (fun g =>
            Number.eqb (nextFrequency numberToString f (Number_sub g f)) g)
            grid) grid = true) by (vm_compute; reflexivity).
  rewrite forallb_forall in Hall.
  apply in_grid_In in Hf, Hg. specialize (Hall f Hf).
  rewrite forallb_forall in Hall. specialize (Hall g Hg).
  now apply Number_eqb_eq.
Qed.

(** X10.  The slider reaches the frequency it is moved to.  On a
    component that is switched on and tuned to a tenth of a megahertz,
    moving the slider to another tenth sets the frequency to exactly the
    number the slider reports (the difference the handler computes and the
    sum the tuner computes cancel once rounded), and leaves the component
    switched off and disconnected.  When a session is open and the
    question is declined, nothing changes. *)
Theorem slider_reaches_target (value : string) (confirmed : bool)
    (c : Client) :
  isOn c = true ->
  in_grid (frequency c) = true ->
  in_grid (JsString.parseFloat value) = true ->
  let c' := onTunerChange numberToString value confirmed c in
  (connectionStatus c = "DISCONNECTED"%string \/ confirmed = true ->
   frequency c' = JsString.parseFloat value
   /\ isOn c' = false
   /\ connectionStatus c' = "DISCONNECTED"%string)
  /\ (connectionStatus c <> "DISCONNECTED"%string -> confirmed = false ->
      c' = c).
Proof.
  intros Hon Hf Hg. cbv zeta. unfold onTunerChange, adjustFrequency.
  rewrite Hon.
  destruct (String.eqb_spec (connectionStatus c) "DISCONNECTED") as [Hd|Hd];
    cbn [negb].
  - split; [|congruence]. intros _.
    cbn [frequency isOn connectionStatus set_isOn set_frequency].
    rewrite slider_grid by assumption. auto.
  - split.
    + intros [Hc| ->]; [congruence|]. cbn [negb].
      cbn [frequency isOn connectionStatus set_isOn set_frequency].
      rewrite hangUp_frequency, hangUp_connectionStatus.
      rewrite slider_grid by assumption. auto.
    + intros _ ->. reflexivity.
Qed.

Lemma SFcompare_antisym x y :
  SFcompare y x = option_map CompOpp (SFcompare x y).
Proof.
  destruct x as [s|s| |s m e], y as [s'|s'| |s' m' e']; cbn [SFcompare option_map];
    try reflexivity;
    try (destruct s; reflexivity); try (destruct s'; reflexivity);
    try (destruct s, s'; reflexivity).
  destruct s, s'; cbn [CompOpp]; try reflexivity.
  - rewrite (Z.compare_antisym e e').
    destruct (e ?= e') eqn:E; cbn [CompOpp]; try reflexivity.
    pose proof (Pos.compare_cont_antisym m m' Eq) as Ha.
    cbn [CompOpp] in Ha. rewrite <- Ha. reflexivity.
  - rewrite (Z.compare_antisym e e').
    destruct (e ?= e') eqn:E; cbn [CompOpp]; try reflexivity.
    pose proof (Pos.compare_cont_antisym m m' Eq) as Ha.
    cbn [CompOpp] in Ha. rewrite <- Ha. reflexivity.
Qed.

Lemma not_ltb_leb x y :
  x <> S754_nan -> y <> S754_nan ->
  Number.ltb x y = false -> Number.leb y x = true.
Proof.
  unfold Number.ltb, Number.leb, SFltb, SFleb. intros Hx Hy.
  rewrite (SFcompare_antisym x y).
  destruct (SFcompare x y) as [[]|] eqn:E; cbn; try reflexivity;
    try discriminate.
  destruct x, y; cbn in E; congruence.
Qed.

(** X11.  The clamp of the tuner, for any step.  Whatever the frequency
    and the step, the frequency the tuner computes is within
    [87.5, 108.0], or it is [NaN]; and the clamp does not catch [NaN]:
    with a step that is not a number the frequency becomes [NaN]. *)
Theorem nextFrequency_clamped (prev delta : spec_float) :
  (nextFrequency numberToString prev delta = S754_nan
   \/ valid_frequency (nextFrequency numberToString prev delta) = true)
  /\ nextFrequency numberToString prev S754_nan = S754_nan.
Proof.
  split.
  - unfold nextFrequency.
    set (newFreq := JsString.parseFloat _).
    destruct (Number.ltb newFreq freq_min) eqn:Hlo;
      [right; vm_compute; reflexivity|].
    destruct (Number.ltb freq_max newFreq) eqn:Hhi;
      [right; vm_compute; reflexivity|].
    clearbody newFreq.
    assert (Hdec : newFreq = S754_nan \/ newFreq <> S754_nan)
      by (destruct newFreq; (left; reflexivity) || (right; discriminate)).
    destruct Hdec as [Hn|Hn]; [left; exact Hn|].
    right. unfold valid_frequency. apply andb_true_iff. split.
    + apply not_ltb_leb; [exact Hn| |exact Hlo]. rewrite freq_min_eq. discriminate.
    + apply not_ltb_leb; [|exact Hn|exact Hhi]. rewrite freq_max_eq. discriminate.
  - unfold nextFrequency.
    replace (Number.add prev S754_nan) with S754_nan
      by (destruct prev as [| | |[] ? ?]; reflexivity).
    vm_compute. reflexivity.
Qed.

End Slider.

(** *** The channel number *)

Section DisplayProperties.

Variable numberToString : spec_float -> string.

(** X13.  The channel number.  For every frequency of the tuner, the
    number shown after [CH:] is the integer part of the distance to 87.5
    in half megahertz, between 0 and 41: the five frequencies of a half
    megahertz share a number, although each is a channel of its own. *)
Theorem channelNumber_half_megahertz (f : spec_float) :
  in_grid f = true ->
  let n := (quantize f - 875) / 5 in
  0 <= n <= 41
  /\ channelNumber f = Number.of_scientific false (Z.to_N n) 0.
Proof.
  intros Hf.
  assert (Hall : forallb (fun f =>
            let n := (quantize f - 875) / 5 in
            (0 <=? n) && (n <=? 41)
            && Number.eqb (channelNumber f)
                 (Number.of_scientific false (Z.to_N n) 0)) grid = true)
    by (vm_compute; reflexivity).
  rewrite forallb_forall in Hall.
  apply in_grid_In in Hf. specialize (Hall f Hf). cbv zeta in Hall |- *.
  apply andb_true_iff in Hall as [Hb He].
  apply andb_true_iff in Hb as [H0 H1].
  apply Number_eqb_eq in He. split; [lia | exact He].
Qed.

End DisplayProperties.

(** *** Joins that other handlers interrupt *)

Lemma hangUp_released_stream c s ts :
  replaced s c -> streams c !! s = Some ts ->
  replaced s (hangUp c) /\ streams (hangUp c) !! s = Some ts.
Proof.
  intros (cur & Hcur & Hne) Hs. split.
  - exists cur. now rewrite hangUp_localStream.
  - rewrite hangUp_streams, Hcur.
    destruct (streams c !! cur); [|exact Hs].
    now rewrite list_lookup_insert_ne.
Qed.

Lemma setTracksEnabled_replaced v c s ts :
  replaced s c -> streams c !! s = Some ts ->
  replaced s (setTracksEnabled v c)
  /\ streams (setTracksEnabled v c) !! s = Some ts.
Proof.
  intros (cur & Hcur & Hne) Hs. unfold setTracksEnabled. rewrite Hcur.
  split; [exists cur; auto|]. cbn. now rewrite list_lookup_alter_ne.
Qed.

(** [setupAudio] makes a new stream the local stream and leaves every
    stream captured before as it is. *)
Lemma setupAudio_earlier_stream env c s ts :
  streams c !! s = Some ts ->
  let c' := fst (setupAudio env c) in
  streams c' !! s = Some ts
  /\ (mic env = None -> localStream c' = localStream c)
  /\ (mic env <> None -> localStream c' = Some (length (streams c))).
Proof.
  intros Hs. cbv zeta. unfold setupAudio.
  destruct (mic env) as [n|]; cbn.
  - split; [|split; [discriminate|reflexivity]].
    assert (Hlt : (s < length (streams c))%nat)
      by (eapply lookup_lt_Some; eauto).
    rewrite list_lookup_alter_ne by lia.
    now apply lookup_app_l_Some.
  - split; [exact Hs|]. split; [reflexivity|]. intros H. now destruct H.
Qed.

Section InterruptedJoins.

Variable numberToString : spec_float -> string.

(** What follows the await is the whole join, when the client has not
    changed its user or its frequency since the call. *)
Lemma joinFrequency_resume_join env c db uid n :
  user c = Some uid ->
  mic env = Some n ->
  joinFrequency_resume numberToString env (uid, frequency c) c db
  = joinFrequency numberToString env c db.
Proof.
  intros Hu Hm.
  rewrite (joinFrequency_reaches_channel numberToString env c db uid n Hu Hm).
  cbv zeta. unfold joinFrequency_resume, setupAudio.
  cbn [mic setStatus setConnectionStatus set_connectionStatus].
  rewrite Hm. cbn [fst].
  destruct (stored_offer db (callId numberToString (frequency c)));
    destruct c; reflexivity.
Qed.

Lemma joinFrequency_resume_replaced env k c db s ts :
  replaced s c -> streams c !! s = Some ts ->
  let c' := fst (joinFrequency_resume numberToString env k c db) in
  replaced s c' /\ streams c' !! s = Some ts.
Proof.
  intros (cur & Hcur & Hne) Hs. cbv zeta.
  destruct (setupAudio_earlier_stream env c s ts Hs) as (Hs' & Hnone & Hsome).
  assert (Hlt : (s < length (streams c))%nat)
    by (eapply lookup_lt_Some; eauto).
  assert (Hrep : replaced s (fst (setupAudio env c))).
  { destruct (mic env) as [n|] eqn:Hm.
    - exists (length (streams c)). split; [apply Hsome; discriminate | lia].
    - exists cur. split; [now rewrite Hnone | exact Hne]. }
  unfold joinFrequency_resume. destruct k as [uid f].
  destruct (setupAudio env c) as [c2 [st|]]; cbn [fst] in *;
    [|split; assumption].
  destruct (stored_offer db (callId numberToString f));
    unfold joinAsHost, joinAsGuest, onSnapshot; cbn; split; assumption.
Qed.

Lemma joinFrequency_replaced env c db s ts :
  replaced s c -> streams c !! s = Some ts ->
  let c' := fst (joinFrequency numberToString env c db) in
  replaced s c' /\ streams c' !! s = Some ts.
Proof.
  intros Hr Hs. cbv zeta.
  destruct (user c) as [uid|] eqn:Hu;
    [|unfold joinFrequency; rewrite Hu; split; assumption].
  rewrite (joinFrequency_split numberToString env c db uid Hu).
  unfold joinFrequency_begin. rewrite Hu. cbn [fst].
  now apply joinFrequency_resume_replaced.
Qed.

Opaque hangUp.

Lemma step_replaced w ev s ts :
  replaced s (fst w) -> streams (fst w) !! s = Some ts ->
  replaced s (fst (step numberToString w ev))
  /\ streams (fst (step numberToString w ev)) !! s = Some ts.
Proof.
  destruct w as [c db]. cbn [fst]. intros Hr Hs.
  destruct ev; cbn [step fst]; try (split; assumption).
  - unfold togglePower. destruct (isOn c); cbn [fst].
    + now apply (hangUp_released_stream (set_isOn false c)).
    + now apply (joinFrequency_replaced env (set_isOn true c)).
  - now apply hangUp_released_stream.
  - unfold adjustFrequency.
    destruct (hangUp_released_stream c s ts Hr Hs) as [Hr' Hs'].
    repeat case_match; simplify_eq; split; assumption.
  - unfold startTalk. case_match; [split; assumption|].
    now apply (setTracksEnabled_replaced true (set_isTalking true c)).
  - unfold stopTalk. case_match; [split; assumption|].
    now apply (setTracksEnabled_replaced false (set_isTalking false c)).
  - destruct (pc c) as [p|]; cbn [fst]; [|split; assumption].
    unfold onconnectionstatechange, setConnectionStatus.
    repeat case_match; try (split; assumption).
    now apply (hangUp_released_stream
                 (set_connectionStatus "DISCONNECTED"
                    (set_pc (Some (set_connectionState st p)) c))).
  - unfold onIceCandidate. repeat case_match; split; assumption.
  - unfold settle. repeat case_match; split; assumption.
  - unfold attached, onAnswerSnapshot, setStatus, setConnectionStatus.
    repeat case_match; cbn [fst]; split; assumption.
  - unfold attached, onCandidatesSnapshot.
    repeat case_match; cbn [fst]; split; assumption.
Qed.

Lemma act_replaced w a s ts :
  replaced s (client w) -> streams (client w) !! s = Some ts ->
  replaced s (client (act numberToString w a))
  /\ streams (client (act numberToString w a)) !! s = Some ts.
Proof.
  destruct w as [[c db] joins]. unfold client. cbn [fst]. intros Hr Hs.
  destruct a; cbn [act].
  - unfold pressPower, joinFrequency_begin.
    destruct (isOn c); cbn [fst].
    + now apply (hangUp_released_stream (set_isOn false c)).
    + cbn [user set_isOn]. destruct (user c); cbn [fst]; split; assumption.
  - destruct joins as [|k rest]; cbn [fst]; [split; assumption|].
    now apply joinFrequency_resume_replaced.
  - cbn [fst]. now apply (step_replaced (c, db)).
Qed.

Lemma perform_replaced acts w s ts :
  replaced s (client w) -> streams (client w) !! s = Some ts ->
  streams (client (perform numberToString acts w)) !! s = Some ts.
Proof.
  revert w. induction acts as [|a acts IH]; intros w Hr Hs; [exact Hs|].
  cbn [perform fold_left].
  destruct (act_replaced w a s ts Hr Hs) as [Hr' Hs'].
  now apply IH.
Qed.

(** X8.  A stream that is replaced as the local stream is out of reach.
    When [getUserMedia] settles for a pending join while the component
    holds a local stream, [setupAudio] stores the new stream over it
    without stopping it; from then on no handler and no callback changes
    a track of the old stream.  A track that was live then stays live,
    through [hangUp] and power-off; one that was enabled then (the talk
    button was held) stays enabled after [stopTalk]. *)
Theorem replaced_stream_is_never_stopped (c : Client) (db : Store)
    (k : string * spec_float) (rest : list (string * spec_float))
    (env : JoinEnv) (n s : nat) (ts : list Track) :
  localStream c = Some s ->
  streams c !! s = Some ts ->
  mic env = Some n ->
  let w := act numberToString (c, db, k :: rest) (MicrophoneSettled env) in
  localStream (client w) = Some (length (streams c))
  /\ length (streams c) <> s
  /\ (forall acts,
        streams (client (perform numberToString acts w)) !! s = Some ts).
Proof.
  intros Hl Hs Hm w.
  assert (Hlt : (s < length (streams c))%nat)
    by (eapply lookup_lt_Some; eauto).
  assert (Hloc : localStream (client w) = Some (length (streams c))).
  { subst w. unfold client. cbn [act fst].
    unfold joinFrequency_resume, setupAudio. destruct k as [uid f].
    rewrite Hm.
    destruct (stored_offer db (callId numberToString f));
      unfold joinAsHost, joinAsGuest, onSnapshot; reflexivity. }
  split; [exact Hloc|]. split; [lia|].
  intros acts. apply perform_replaced.
  - exists (length (streams c)). split; [exact Hloc | lia].
  - subst w. unfold client. cbn [act fst].
    destruct (setupAudio_earlier_stream env c s ts Hs) as (Hs' & _).
    unfold joinFrequency_resume. destruct k as [uid f].
    destruct (setupAudio env c) as [c2 [st|]] eqn:Hsetup; cbn [fst] in *.
    + destruct (stored_offer db (callId numberToString f));
        unfold joinAsHost, joinAsGuest, onSnapshot; cbn; exact Hs'.
    + exact Hs'.
Qed.

(** X12.  Power-off does not stop a join that is pending.  On a component
    that is signed in and switched off, the power button is pressed twice
    before [getUserMedia] settles: the second press runs [hangUp], which
    finds nothing to close.  When the microphone is then granted the join
    runs to its end: the component is switched off and shows [OFFLINE],
    yet it holds a connection and a role, its new local stream is live,
    it has made one store write, and its status is not [DISCONNECTED]. *)
Theorem power_off_leaves_pending_join (c : Client) (db : Store)
    (uid : string) (env : JoinEnv) (n : nat) :
  user c = Some uid ->
  isOn c = false ->
  mic env = Some n ->
  let w := perform numberToString
             [PowerPressed; PowerPressed; MicrophoneSettled env]
             (c, db, []) in
  isOn (client w) = false
  /\ getStatusDisplay (client w) = "OFFLINE"%string
  /\ connectionStatus (client w) <> "DISCONNECTED"%string
  /\ role (client w) <> Unassigned
  /\ (exists stream,
        localStream (client w) = Some stream
        /\ streams (client w) !! stream = Some (replicate n muted_track))
  /\ (exists wr, writes (store w) = (writes db ++ [wr])%list)
  /\ pending_joins w = [].
Proof.
  intros Hu Hoff Hm w.
  set (c2 := hangUp (set_isOn false
                       (setStatus "TUNING..."%string (set_isOn true c)))).
  assert (Hw : w = (joinFrequency numberToString env c2 db, [])).
  { subst w. cbn [perform fold_left act].
    unfold pressPower at 1. rewrite Hoff.
    unfold joinFrequency_begin. cbn [user set_isOn]. rewrite Hu.
    cbn [app]. unfold pressPower.
    cbn [isOn setStatus setConnectionStatus set_connectionStatus set_isOn].
    cbn [app].
    rewrite <- (joinFrequency_resume_join env c2 db uid n);
      [|subst c2; now rewrite hangUp_user|exact Hm].
    subst c2. rewrite hangUp_frequency. reflexivity. }
  assert (Hu2 : user c2 = Some uid) by (subst c2; now rewrite hangUp_user).
  assert (Hon2 : isOn c2 = false) by (subst c2; now rewrite hangUp_isOn).
  destruct (joinFrequency_stream numberToString env c2 db uid n Hu2 Hm)
    as (Hs & Hl & Hon & Hst).
  rewrite Hw. unfold client, store, pending_joins. cbn [fst snd].
  split; [now rewrite Hon|].
  split; [unfold getStatusDisplay; now rewrite Hon, Hon2|].
  split; [exact Hst|].
  split; [|split; [|split; [|reflexivity]]].
  - destruct (stored_offer db (callId numberToString (frequency c2)))
      as [o|] eqn:Ho.
    + destruct (joinFrequency_guest numberToString env c2 db uid n o
                  Hu2 Hm Ho) as (Hr & _). rewrite Hr. discriminate.
    + destruct (joinFrequency_host numberToString env c2 db uid n
                  Hu2 Hm Ho) as (Hr & _). rewrite Hr. discriminate.
  - exists (length (streams c2)). split; [exact Hl|].
    rewrite Hs. apply list_lookup_middle. reflexivity.
  - destruct (stored_offer db (callId numberToString (frequency c2)))
      as [o|] eqn:Ho.
    + destruct (joinFrequency_guest numberToString env c2 db uid n o
                  Hu2 Hm Ho) as (_ & _ & Hwr & _). eauto.
    + destruct (joinFrequency_host numberToString env c2 db uid n
                  Hu2 Hm Ho) as (_ & _ & Hwr & _). eauto.
Qed.

Transparent hangUp.

End InterruptedJoins.

(** ** Properties of the broadcast component *)

(** *** Frame lemmas *)

Ltac unfold_radio :=
  unfold Broadcast.togglePower, Broadcast.onPowerMic, Broadcast.onSnapshot,
    Broadcast.onDecoded, Broadcast.onEnded, Broadcast.startTransmission,
    Broadcast.onTalkMic, Broadcast.stopTransmission, Broadcast.stopRecorder,
    Broadcast.onRecorderStopped, Broadcast.adjustFrequency,
    Broadcast.onTunerChange, Broadcast.queueAudio, Broadcast.processQueue,
    Broadcast.playRogerBeep in *.

Section RadioFrame.

Variable numberToString : spec_float -> string.

(** What the snapshot listener leaves alone, whatever it is given. *)
Lemma onMessages_frame uid f last changes r :
  let r' := Broadcast.onMessages numberToString uid f last changes r in
  Broadcast.user r' = Broadcast.user r
  /\ Broadcast.isOn r' = Broadcast.isOn r
  /\ Broadcast.frequency r' = Broadcast.frequency r
  /\ Broadcast.isTransmitting r' = Broadcast.isTransmitting r
  /\ Broadcast.audioContextRef r' = Broadcast.audioContextRef r
  /\ Broadcast.mediaRecorderRef r' = Broadcast.mediaRecorderRef r
  /\ Broadcast.recorders r' = Broadcast.recorders r
  /\ Broadcast.talkRequests r' = Broadcast.talkRequests r
  /\ Broadcast.powerRequests r' = Broadcast.powerRequests r
  /\ Broadcast.sent r' = Broadcast.sent r.
Proof.
  cbv zeta. revert r. unfold Broadcast.onMessages.
  induction changes as [|ch changes IH]; intros r; [repeat split|].
  cbn [fold_left]. 
  destruct (IH (match Broadcast.ch_type ch with
       | Broadcast.Added =>
           if Broadcast.accepts uid f last (Broadcast.ch_now ch) (Broadcast.ch_data ch)
           then
            Broadcast.queueAudio numberToString f (Broadcast.m_audioBase64 (Broadcast.ch_data ch))
              (Broadcast.set_lastMessageId (Broadcast.m_id (Broadcast.ch_data ch)) r)
           else r
       | _ => r
       end)) as (H1 & H2 & H3 & H4 & H5 & H6 & H7 & H8 & H9 & H10).
  rewrite H1, H2, H3, H4, H5, H6, H7, H8, H9, H10.
  unfold_radio. repeat case_match; repeat split.
Qed.

Lemma radio_step_frequency r ev :
  Broadcast.frequency (Broadcast.step numberToString r ev) =
  match ev with
  | Broadcast.AdjustFrequency delta =>
      Broadcast.frequency (Broadcast.adjustFrequency numberToString delta r)
  | Broadcast.TunerChange value =>
      Broadcast.frequency (Broadcast.onTunerChange value r)
  | _ => Broadcast.frequency r
  end.
Proof.
  destruct ev; cbn [Broadcast.step]; try reflexivity.
  - unfold_radio. repeat case_match; reflexivity.
  - unfold_radio. repeat case_match; reflexivity.
  - unfold Broadcast.onSnapshot. repeat case_match; try reflexivity.
    apply onMessages_frame.
  - unfold_radio. repeat case_match; reflexivity.
  - unfold_radio. repeat case_match; reflexivity.
  - unfold_radio. repeat case_match; reflexivity.
  - unfold_radio. repeat case_match; reflexivity.
  - unfold_radio. repeat case_match; reflexivity.
  - unfold_radio. repeat case_match; reflexivity.
Qed.

End RadioFrame.

(** *** The tuner of the broadcast component *)

Section RadioTuner.

Variable numberToString : spec_float -> string.

Lemma radio_step_in_grid r ev :
  Broadcast.tuner_step ev ->
  in_grid (Broadcast.frequency r) = true ->
  in_grid (Broadcast.frequency (Broadcast.step numberToString r ev)) = true.
Proof.
  intros Hev Hr. rewrite radio_step_frequency.
  destruct ev; try exact Hr.
  - unfold Broadcast.adjustFrequency.
    destruct (Broadcast.isOn r); cbn; [|exact Hr].
    now apply nextFrequency_grid.
  - unfold Broadcast.onTunerChange.
    destruct (Broadcast.isOn r); cbn; [exact Hev | exact Hr].
Qed.

Lemma radio_run_in_grid evs r :
  Forall Broadcast.tuner_step evs ->
  in_grid (Broadcast.frequency r) = true ->
  in_grid (Broadcast.frequency (Broadcast.run numberToString evs r)) = true.
Proof.
  intros Hevs. revert r. induction Hevs as [|ev evs Hev _ IH]; intros r Hr;
    [exact Hr|].
  cbn [Broadcast.run fold_left]. apply IH. now apply radio_step_in_grid.
Qed.

(** X18.  The tuner of the broadcast component.  In every execution that
    moves the tuner with its two buttons or with the slider, the frequency
    is at all times within [87.5, 108.0] and written with one decimal;
    and while the component is switched off no event changes it. *)
Theorem radio_frequency_in_range (evs : list Broadcast.Event) :
  Forall Broadcast.tuner_step evs ->
  let r := Broadcast.run numberToString evs Broadcast.initial in
  valid_frequency (Broadcast.frequency r) = true
  /\ one_decimal numberToString (Broadcast.frequency r) = true
  /\ (forall ev, Broadcast.isOn r = false ->
        Broadcast.frequency (Broadcast.step numberToString r ev)
        = Broadcast.frequency r).
Proof.
  intros Hevs r.
  assert (Hg : in_grid (Broadcast.frequency r) = true).
  { apply radio_run_in_grid; [assumption|]. vm_compute. reflexivity. }
  destruct (grid_valid numberToString _ Hg) as [Hv H1].
  split; [exact Hv|]. split; [exact H1|].
  intros ev Hoff. rewrite radio_step_frequency.
  destruct ev; try reflexivity.
  - unfold Broadcast.adjustFrequency. now rewrite Hoff.
  - unfold Broadcast.onTunerChange. now rewrite Hoff.
Qed.

End RadioTuner.

(** *** The frequency check of the receiver *)

Lemma tuned_grid f g :
  in_grid f = true -> in_grid g = true ->
  Broadcast.tuned g f = Number.eqb g f.
Proof.
  intros Hf Hg.
  assert (Hall : forallb (fun f => forallb (fun g =>
            Bool.eqb (Broadcast.tuned g f) (Number.eqb g f)) grid) grid = true)
    by (vm_compute; reflexivity).
  rewrite forallb_forall in Hall.
  apply in_grid_In in Hf, Hg. specialize (Hall f Hf).
  rewrite forallb_forall in Hall. specialize (Hall g Hg).
  now apply Bool.eqb_prop.
Qed.

(** X14.  The frequency check is exact on the tuner.  The receiver keeps
    a message when its frequency is within 0.01 of the tuned one; between
    two frequencies of the tuner that is the case only when they are the
    same number.  A message whose frequency is not a number passes the
    check on every frequency. *)
Theorem tuner_check_exact_on_grid (f g : spec_float) :
  in_grid f = true -> in_grid g = true ->
  (Broadcast.tuned g f = true <-> g = f)
  /\ Broadcast.tuned S754_nan f = true.
Proof.
  intros Hf Hg. split.
  - rewrite (tuned_grid f g Hf Hg). apply Number_eqb_eq.
  - reflexivity.
Qed.

(** *** The playback queue *)

Section RadioQueue.

Variable numberToString : spec_float -> string.

Lemma processQueue_inv f r :
  Broadcast.queue_inv r -> Broadcast.queue_inv (Broadcast.processQueue numberToString f r).
Proof.
  intros [Hq Hp]. unfold Broadcast.processQueue.
  destruct (Broadcast.isPlayingRef r) eqn:Hplay; [split; [exact Hq|now rewrite Hplay]|].
  destruct (Broadcast.audioQueueRef r) as [|s rest] eqn:Hqueue;
    [split; [now rewrite Hqueue | now rewrite Hplay]|].
  destruct (Broadcast.audioContextRef r) as [k|] eqn:Hctx;
    [|split; [now rewrite Hqueue | now rewrite Hplay]].
  assert (Hcur : Broadcast.current r = None).
  { destruct (Broadcast.current r) eqn:E; [|reflexivity].
    assert (false = true) by (apply Hp; discriminate). discriminate. }
  split.
  - unfold Broadcast.pending in *. rewrite Hcur in Hq. cbn in Hq |- *.
    exact Hq.
  - cbn. split; [discriminate | reflexivity].
Qed.

Lemma queueAudio_inv f s r :
  Broadcast.queue_inv r -> Broadcast.queue_inv (Broadcast.queueAudio numberToString f s r).
Proof.
  intros [Hq Hp]. unfold Broadcast.queueAudio. apply processQueue_inv.
  split; [|exact Hp].
  unfold Broadcast.pending in *. cbn. rewrite Hq.
  now rewrite <- !app_assoc.
Qed.

Lemma onMessages_inv uid f last changes r :
  Broadcast.queue_inv r ->
  Broadcast.queue_inv (Broadcast.onMessages numberToString uid f last changes r).
Proof.
  revert r. unfold Broadcast.onMessages.
  induction changes as [|ch changes IH]; intros r Hr; [exact Hr|].
  cbn [fold_left]. apply IH.
  destruct (Broadcast.ch_type ch); try exact Hr.
  destruct (Broadcast.accepts _ _ _ _ _); [|exact Hr].
  apply queueAudio_inv. exact Hr.
Qed.

Lemma radio_step_queue_inv r ev :
  Broadcast.queue_inv r -> Broadcast.queue_inv (Broadcast.step numberToString r ev).
Proof.
  intros Hr. destruct ev; cbn [Broadcast.step]; try exact Hr.
  - unfold Broadcast.togglePower. repeat case_match; exact Hr.
  - unfold Broadcast.onPowerMic, Broadcast.playRogerBeep.
    repeat case_match; exact Hr.
  - unfold Broadcast.onSnapshot. repeat case_match; try exact Hr.
    now apply onMessages_inv.
  - unfold Broadcast.onDecoded.
    destruct (Broadcast.current r) as [[s [] f]|] eqn:Hcur; try exact Hr.
    destruct Hr as [Hq Hp]. unfold Broadcast.pending in Hq.
    rewrite Hcur in Hq.
    destruct (ok && bool_decide (is_Some (Broadcast.audioContextRef r))).
    + split.
      * unfold Broadcast.pending. cbn. rewrite map_app, Hq. cbn.
        now rewrite <- !app_assoc.
      * cbn. rewrite Hcur in Hp. split; [discriminate|]. intros _.
        apply Hp. discriminate.
    + apply processQueue_inv. split.
      * unfold Broadcast.pending. cbn. rewrite map_app, Hq. cbn.
        now rewrite <- !app_assoc.
      * cbn. split; [discriminate | congruence].
  - unfold Broadcast.onEnded.
    destruct (Broadcast.current r) as [[s [] f]|] eqn:Hcur; try exact Hr.
    destruct Hr as [Hq Hp]. unfold Broadcast.pending in Hq.
    rewrite Hcur in Hq.
    apply processQueue_inv. split.
    + unfold Broadcast.pending, Broadcast.playRogerBeep.
      repeat case_match; cbn in *; simplify_eq; assumption.
    + unfold Broadcast.playRogerBeep.
      repeat case_match; cbn; (split; [discriminate | congruence]).
  - unfold Broadcast.startTransmission. repeat case_match; exact Hr.
  - unfold Broadcast.onTalkMic. repeat case_match; exact Hr.
  - unfold Broadcast.stopTransmission, Broadcast.stopRecorder.
    repeat case_match; exact Hr.
  - unfold Broadcast.onRecorderStopped, Broadcast.playRogerBeep.
    repeat case_match; exact Hr.
  - unfold Broadcast.adjustFrequency. repeat case_match; exact Hr.
  - unfold Broadcast.onTunerChange. repeat case_match; exact Hr.
Qed.

Lemma radio_run_queue_inv evs r :
  Broadcast.queue_inv r -> Broadcast.queue_inv (Broadcast.run numberToString evs r).
Proof.
  revert r. induction evs as [|ev evs IH]; intros r Hr; [exact Hr|].
  cbn [Broadcast.run fold_left]. apply IH, radio_step_queue_inv, Hr.
Qed.

Lemma played_sublist (l : list (string * bool)) :
  sublist (map fst (List.filter snd l)) (map fst l).
Proof.
  induction l as [|[s b] l IH]; [constructor|].
  cbn. destruct b; cbn; [now apply sublist_skip | now apply sublist_cons].
Qed.

(** X16.  Clips are played one at a time, in the order received, and none
    is lost.  At every point of every execution, the clips the receiver
    ever queued are, in this order: those whose decoding settled (played
    or rejected), the one being decoded, and those still waiting; so the
    clips played are a subsequence of the clips received.  The flag
    [isPlayingRef] is set exactly while a clip is being decoded or
    played. *)
Theorem clips_played_in_order (evs : list Broadcast.Event) :
  let r := Broadcast.run numberToString evs Broadcast.initial in
  Broadcast.queued r
  = (map fst (Broadcast.outcomes r) ++ Broadcast.pending r
       ++ Broadcast.audioQueueRef r)%list
  /\ sublist (Broadcast.played r) (Broadcast.queued r)
  /\ (Broadcast.isPlayingRef r = true <-> Broadcast.current r <> None).
Proof.
  intros r.
  assert (Hinv : Broadcast.queue_inv r).
  { apply radio_run_queue_inv. split; [reflexivity|].
    cbn. split; [discriminate | congruence]. }
  destruct Hinv as [Hq Hp].
  split; [exact Hq|]. split; [|exact Hp].
  rewrite Hq. apply sublist_inserts_r. apply played_sublist.
Qed.

End RadioQueue.

(** *** The duplicate check *)

Section RadioDuplicates.

Variable numberToString : spec_float -> string.

Lemma queueAudio_lastMessageId f s r :
  Broadcast.lastMessageId (Broadcast.queueAudio numberToString f s r)
  = Broadcast.lastMessageId r.
Proof. unfold_radio. repeat case_match; reflexivity. Qed.

Lemma accepts_duplicate uid f now data :
  Broadcast.m_id data = Broadcast.Undefined ->
  Broadcast.accepts uid f Broadcast.Undefined now data = false.
Proof.
  intros Hid. unfold Broadcast.accepts. rewrite Hid.
  cbn [Broadcast.strict_eq negb]. apply andb_false_r.
Qed.

(** With [lastMessageId] undefined, a snapshot of messages that carry no
    [id] changes nothing. *)
Lemma onMessages_deaf uid f changes r :
  Forall (fun change =>
            Broadcast.m_id (Broadcast.ch_data change) = Broadcast.Undefined)
         changes ->
  Broadcast.onMessages numberToString uid f Broadcast.Undefined changes r = r.
Proof.
  intros Hall. revert r. unfold Broadcast.onMessages.
  induction Hall as [|ch changes Hid _ IH]; intros r; [reflexivity|].
  cbn [fold_left].
  destruct (Broadcast.ch_type ch); try apply IH.
  rewrite (accepts_duplicate uid f (Broadcast.ch_now ch) _ Hid). apply IH.
Qed.

Lemma onMessages_lastMessageId uid f last changes r :
  Forall (fun change =>
            Broadcast.m_id (Broadcast.ch_data change) = Broadcast.Undefined)
         changes ->
  let r' := Broadcast.onMessages numberToString uid f last changes r in
  (Broadcast.queued r' = Broadcast.queued r
   /\ Broadcast.lastMessageId r' = Broadcast.lastMessageId r)
  \/ Broadcast.lastMessageId r' = Broadcast.Undefined.
Proof.
  intros Hall. cbv zeta. revert r. unfold Broadcast.onMessages.
  induction Hall as [|ch changes Hid _ IH]; intros r; [left; split; reflexivity|].
  cbn [fold_left].
  destruct (Broadcast.ch_type ch); try apply IH.
  destruct (Broadcast.accepts _ _ _ _ _); [|apply IH].
  right. rewrite Hid.
  destruct (IH (Broadcast.queueAudio numberToString f
                  (Broadcast.m_audioBase64 (Broadcast.ch_data ch))
                  (Broadcast.set_lastMessageId Broadcast.Undefined r)))
    as [[_ Hl] | Hl]; rewrite Hl; [|reflexivity].
  now rewrite queueAudio_lastMessageId.
Qed.

(** Only the snapshot listener writes [queued] and [lastMessageId]. *)
Lemma radio_step_queued r ev :
  (forall changes, ev <> Broadcast.Snapshot changes) ->
  Broadcast.queued (Broadcast.step numberToString r ev) = Broadcast.queued r
  /\ Broadcast.lastMessageId (Broadcast.step numberToString r ev)
     = Broadcast.lastMessageId r.
Proof.
  intros Hne.
  destruct ev; cbn [Broadcast.step];
    try (exfalso; eapply Hne; reflexivity);
    unfold_radio; repeat case_match; split; reflexivity.
Qed.

Lemma radio_step_deaf r ev :
  Broadcast.unidentified ev ->
  Broadcast.lastMessageId r = Broadcast.Undefined ->
  Broadcast.queued (Broadcast.step numberToString r ev) = Broadcast.queued r
  /\ Broadcast.lastMessageId (Broadcast.step numberToString r ev)
     = Broadcast.Undefined.
Proof.
  intros Hev Hr.
  destruct ev;
    try (match goal with
         | |- context [Broadcast.step _ _ ?e] =>
             destruct (radio_step_queued r e ltac:(intros ?; discriminate))
               as [Hq' Hl']
         end;
         rewrite Hq', Hl'; split; [reflexivity | exact Hr]).
  cbn [Broadcast.step]. unfold Broadcast.onSnapshot.
  destruct (Broadcast.user r) as [uid|]; [|split; [reflexivity | exact Hr]].
  destruct (Broadcast.isOn r); [|split; [reflexivity | exact Hr]].
  rewrite Hr. cbn in Hev. rewrite (onMessages_deaf uid _ changes r Hev).
  split; [reflexivity | exact Hr].
Qed.

Lemma radio_run_deaf evs r :
  Forall Broadcast.unidentified evs ->
  Broadcast.lastMessageId r = Broadcast.Undefined ->
  Broadcast.queued (Broadcast.run numberToString evs r) = Broadcast.queued r.
Proof.
  intros Hevs. revert r. induction Hevs as [|ev evs Hev _ IH]; intros r Hr;
    [reflexivity|].
  cbn [Broadcast.run fold_left].
  destruct (radio_step_deaf r ev Hev Hr) as [Hq Hl].
  rewrite <- Hq. apply IH. exact Hl.
Qed.

Lemma radio_step_heard r ev :
  Broadcast.unidentified ev ->
  (Broadcast.queued r <> [] ->
   Broadcast.lastMessageId r = Broadcast.Undefined) ->
  Broadcast.queued (Broadcast.step numberToString r ev) <> [] ->
  Broadcast.lastMessageId (Broadcast.step numberToString r ev)
  = Broadcast.Undefined.
Proof.
  intros Hev Hr.
  destruct ev;
    try (match goal with
         | |- context [Broadcast.step _ _ ?e] =>
             destruct (radio_step_queued r e ltac:(intros ?; discriminate))
               as [Hq' Hl']
         end;
         rewrite Hq', Hl'; exact Hr).
  cbn [Broadcast.step]. unfold Broadcast.onSnapshot.
  destruct (Broadcast.user r) as [uid|]; [|exact Hr].
  destruct (Broadcast.isOn r); [|exact Hr].
  cbn in Hev.
  destruct (onMessages_lastMessageId uid (Broadcast.frequency r)
              (Broadcast.lastMessageId r) changes r Hev) as [[Hq Hl] | Hl].
  - rewrite Hq, Hl. exact Hr.
  - intros _. exact Hl.
Qed.

Lemma radio_run_heard evs r :
  Forall Broadcast.unidentified evs ->
  (Broadcast.queued r <> [] ->
   Broadcast.lastMessageId r = Broadcast.Undefined) ->
  Broadcast.queued (Broadcast.run numberToString evs r) <> [] ->
  Broadcast.lastMessageId (Broadcast.run numberToString evs r)
  = Broadcast.Undefined.
Proof.
  intros Hevs. revert r. induction Hevs as [|ev evs Hev _ IH]; intros r Hr;
    [exact Hr|].
  cbn [Broadcast.run fold_left]. apply IH. now apply radio_step_heard.
Qed.

(** X15.  The duplicate check silences the receiver.  The listener
    compares the field [id] of the data of a message with [lastMessageId],
    and the documents the component adds have no such field.  So in every
    execution in which the messages carry no [id], once a snapshot has
    queued a clip no later snapshot queues another: whatever happens
    next, the clips ever queued stay what they are. *)
Theorem receiver_hears_one_snapshot (evs more : list Broadcast.Event) :
  Forall Broadcast.unidentified evs ->
  Forall Broadcast.unidentified more ->
  Broadcast.queued (Broadcast.run numberToString evs Broadcast.initial) <> [] ->
  Broadcast.queued
    (Broadcast.run numberToString (evs ++ more) Broadcast.initial)
  = Broadcast.queued (Broadcast.run numberToString evs Broadcast.initial).
Proof.
  intros Hevs Hmore Hq.
  unfold Broadcast.run at 1. rewrite fold_left_app.
  apply (radio_run_deaf more _ Hmore).
  apply (radio_run_heard evs Broadcast.initial Hevs); [|exact Hq].
  intros H. exfalso. apply H. reflexivity.
Qed.

End RadioDuplicates.

(** *** The recorder *)

Section RadioRecorder.

Variable numberToString : spec_float -> string.

Lemma stopRecorder_other k k' r :
  k' <> k ->
  Broadcast.recorders (Broadcast.stopRecorder k' r) !! k
  = Broadcast.recorders r !! k.
Proof.
  intros Hne. unfold Broadcast.stopRecorder.
  repeat case_match; try reflexivity.
  cbn. now apply list_lookup_insert_ne.
Qed.

Lemma onRecorderStopped_recording k j s r :
  Broadcast.recording k r ->
  Broadcast.recording k (Broadcast.onRecorderStopped numberToString j s r).
Proof.
  intros (rec & Hl & Hs). unfold Broadcast.onRecorderStopped.
  destruct (Broadcast.recorders r !! j) as [rec'|] eqn:Hj;
    [|exists rec; auto].
  destruct (Broadcast.rec_state rec') eqn:Hs';
    [exists rec; auto | | exists rec; auto].
  assert (Hne : j <> k) by (intros ->; congruence).
  exists rec. split; [|exact Hs].
  unfold Broadcast.playRogerBeep. repeat case_match; cbn;
    now rewrite list_lookup_insert_ne.
Qed.

Lemma onTalkMic_recording k granted r :
  Broadcast.recording k r ->
  Broadcast.recording k (Broadcast.onTalkMic granted r).
Proof.
  intros (rec & Hl & Hs). exists rec. split; [|exact Hs].
  unfold Broadcast.onTalkMic. repeat case_match; cbn; try exact Hl.
  now apply lookup_app_l_Some.
Qed.

(** The recorders and the reference to the last one are written by the
    talk button and the recorder's callbacks only. *)
Lemma radio_step_recorders r ev :
  match ev with
  | Broadcast.TalkMic _ | Broadcast.StopTransmission
  | Broadcast.RecorderStopped _ _ => True
  | _ => Broadcast.recorders (Broadcast.step numberToString r ev)
         = Broadcast.recorders r
         /\ Broadcast.mediaRecorderRef (Broadcast.step numberToString r ev)
            = Broadcast.mediaRecorderRef r
  end.
Proof.
  destruct ev; cbn [Broadcast.step]; try exact I;
    try (unfold_radio; repeat case_match; split; reflexivity).
  unfold Broadcast.onSnapshot. repeat case_match; try (split; reflexivity).
  match goal with
  | |- context [Broadcast.onMessages _ ?u ?f ?l ?cs ?r0] =>
      pose proof (onMessages_frame numberToString u f l cs r0) as Hfr
  end.
  cbv zeta in Hfr. destruct Hfr as (_ & _ & _ & _ & _ & H6 & H7 & _).
  split; assumption.
Qed.

Lemma radio_step_recording k r ev :
  Broadcast.not_release ev ->
  Broadcast.recording k r ->
  Broadcast.recording k (Broadcast.step numberToString r ev).
Proof.
  intros Hev Hr. pose proof (radio_step_recorders r ev) as Hf.
  destruct ev; cbn in Hev; try contradiction;
    try (destruct Hr as (rec & Hl & Hs); exists rec;
         rewrite (proj1 Hf); auto; fail).
  - now apply onTalkMic_recording.
  - now apply onRecorderStopped_recording.
Qed.

Lemma radio_run_recording k evs r :
  Forall Broadcast.not_release evs ->
  Broadcast.recording k r ->
  Broadcast.recording k (Broadcast.run numberToString evs r).
Proof.
  intros Hevs. revert r. induction Hevs as [|ev evs Hev _ IH]; intros r Hr;
    [exact Hr|].
  cbn [Broadcast.run fold_left]. apply IH. now apply radio_step_recording.
Qed.

Lemma radio_step_orphaned k r ev :
  Broadcast.orphaned k r ->
  Broadcast.orphaned k (Broadcast.step numberToString r ev).
Proof.
  intros [Hrec (k' & Href & Hne)].
  pose proof (radio_step_recorders r ev) as Hf.
  destruct ev;
    try (split;
         [destruct Hrec as (rec & Hl & Hs); exists rec;
          rewrite (proj1 Hf); auto
         |exists k'; rewrite (proj2 Hf); auto]; fail).
  - cbn [Broadcast.step]. split; [now apply onTalkMic_recording|].
    destruct Hrec as (rec & Hl & Hs).
    unfold Broadcast.onTalkMic. repeat case_match; cbn;
      try (exists k'; auto; fail).
    exists (length (Broadcast.recorders r)). split; [reflexivity|].
    apply lookup_lt_Some in Hl. lia.
  - cbn [Broadcast.step]. unfold Broadcast.stopTransmission.
    rewrite Href. destruct (Broadcast.isTransmitting r);
      [|split; [exact Hrec | exists k'; auto]].
    split.
    + destruct Hrec as (rec & Hl & Hs). exists rec. split; [|exact Hs].
      cbn. now rewrite stopRecorder_other.
    + exists k'. split; [|exact Hne]. cbn.
      unfold Broadcast.stopRecorder. repeat case_match; exact Href.
  - cbn [Broadcast.step]. split; [now apply onRecorderStopped_recording|].
    exists k'. split; [|exact Hne].
    unfold Broadcast.onRecorderStopped, Broadcast.playRogerBeep.
    repeat case_match; exact Href.
Qed.

Lemma radio_run_orphaned k evs r :
  Broadcast.orphaned k r ->
  Broadcast.orphaned k (Broadcast.run numberToString evs r).
Proof.
  revert r. induction evs as [|ev evs IH]; intros r Hr; [exact Hr|].
  cbn [Broadcast.run fold_left]. apply IH, radio_step_orphaned, Hr.
Qed.

(** X17.  A quick tap leaves the microphone recording.  When the talk
    button is released before the microphone is granted, the release
    finds nothing to stop and the recorder then starts: the component
    shows that it transmits, and the recorder keeps recording through
    every event but a later release, a power-off included.  If the button
    is then pressed and released once more, the new recorder takes the
    place of the first in [mediaRecorderRef] and is the one that is
    stopped: no event stops the first recorder any more. *)
Theorem quick_tap_leaves_microphone_recording (r : Broadcast.Radio)
    (uid : string) :
  Broadcast.user r = Some uid ->
  Broadcast.isOn r = true ->
  Broadcast.isReceiving r = false ->
  Broadcast.isTransmitting r = false ->
  Broadcast.talkRequests r = [] ->
  let k := length (Broadcast.recorders r) in
  let r1 := Broadcast.run numberToString Broadcast.quick_tap r in
  Broadcast.isTransmitting r1 = true
  /\ Broadcast.mediaRecorderRef r1 = Some k
  /\ (forall evs, Forall Broadcast.not_release evs ->
        Broadcast.recording k (Broadcast.run numberToString evs r1))
  /\ (forall evs,
        Broadcast.recording k
          (Broadcast.run numberToString (Broadcast.press_release ++ evs) r1)).
Proof.
  intros Hu Hon Hrcv Htx Hreq k r1.
  assert (E1 : r1 =
    Broadcast.set_statusText "TRANSMITTING..."
      (Broadcast.set_isTransmitting true
         (Broadcast.set_mediaRecorderRef (Some k)
            (Broadcast.set_recorders
               (Broadcast.recorders r
                  ++ [{| Broadcast.rec_uid := uid;
                         Broadcast.rec_frequency := Broadcast.frequency r;
                         Broadcast.rec_state := Broadcast.Recording |}])
               (Broadcast.set_talkRequests []
                  (Broadcast.set_talkRequests [(uid, Broadcast.frequency r)]
                     r)))))).
  { subst r1 k. unfold Broadcast.quick_tap.
    cbn [Broadcast.run fold_left Broadcast.step].
    unfold Broadcast.startTransmission. rewrite Hu, Hon, Hrcv, Hreq.
    cbn [andb negb app].
    unfold Broadcast.stopTransmission.
    cbn [Broadcast.mediaRecorderRef Broadcast.isTransmitting
         Broadcast.set_talkRequests].
    rewrite Htx.
    replace (match Broadcast.mediaRecorderRef r with
             | Some _ | _ =>
                 Broadcast.set_talkRequests [(uid, Broadcast.frequency r)] r
             end)
      with (Broadcast.set_talkRequests [(uid, Broadcast.frequency r)] r)
      by (destruct (Broadcast.mediaRecorderRef r); reflexivity).
    reflexivity. }
  assert (Hrec : Broadcast.recording k r1).
  { rewrite E1. eexists. split.
    - cbn. apply list_lookup_middle. reflexivity.
    - reflexivity. }
  split; [rewrite E1; reflexivity|].
  split; [rewrite E1; reflexivity|].
  split; [intros evs Hevs; now apply radio_run_recording|].
  intros evs.
  change (Broadcast.run numberToString (Broadcast.press_release ++ evs) r1)
    with (Broadcast.run numberToString (Broadcast.StopTransmission :: evs)
            (Broadcast.onTalkMic true (Broadcast.startTransmission r1))).
  apply radio_run_orphaned. split.
  - apply onTalkMic_recording.
    exact (radio_step_recording k r1 Broadcast.StartTransmission I Hrec).
  - rewrite E1. unfold Broadcast.startTransmission.
    cbn [Broadcast.user Broadcast.isOn Broadcast.isReceiving
         Broadcast.set_statusText Broadcast.set_isTransmitting
         Broadcast.set_mediaRecorderRef Broadcast.set_recorders
         Broadcast.set_talkRequests].
    rewrite Hu, Hon, Hrcv. cbn.
    eexists. split; [reflexivity|]. rewrite length_app. cbn. lia.
Qed.

End RadioRecorder.

(** *** From the talk button of one component to the queue of another *)

Section RadioEndToEnd.

Variable numberToString : spec_float -> string.

Lemma queueAudio_queued f s r :
  Broadcast.queued (Broadcast.queueAudio numberToString f s r)
  = (Broadcast.queued r ++ [s])%list.
Proof. unfold_radio. repeat case_match; reflexivity. Qed.

(** What a transmission leaves: one more message, written with the
    identity and the frequency of the moment the button was pressed. *)
Lemma transmission_sent a ua audio :
  Broadcast.user a = Some ua ->
  Broadcast.isOn a = true ->
  Broadcast.isReceiving a = false ->
  Broadcast.talkRequests a = [] ->
  let a' := Broadcast.run numberToString
              (Broadcast.transmission (length (Broadcast.recorders a)) audio)
              a in
  Broadcast.sent a'
  = (Broadcast.sent a
       ++ [{| Broadcast.m_userId := ua;
              Broadcast.m_frequency :=
                JsString.parseFloat (numberToString (Broadcast.frequency a));
              Broadcast.m_audioBase64 := audio;
              Broadcast.m_createdAt := None;
              Broadcast.m_id := Broadcast.Undefined |}])%list
  /\ Broadcast.user a' = Some ua
  /\ Broadcast.isOn a' = true.
Proof.
  intros Hu Hon Hrcv Hreq. cbv zeta.
  unfold Broadcast.transmission, Broadcast.press_release.
  cbn [app Broadcast.run fold_left Broadcast.step].
  unfold Broadcast.startTransmission. rewrite Hu, Hon, Hrcv, Hreq.
  cbn [andb negb app].
  unfold Broadcast.onTalkMic.
  cbn [Broadcast.talkRequests Broadcast.set_talkRequests
       Broadcast.recorders].
  unfold Broadcast.stopTransmission.
  cbn [Broadcast.mediaRecorderRef Broadcast.isTransmitting
       Broadcast.set_statusText Broadcast.set_isTransmitting
       Broadcast.set_mediaRecorderRef Broadcast.set_recorders].
  unfold Broadcast.stopRecorder.
  cbn [Broadcast.recorders Broadcast.set_statusText
       Broadcast.set_isTransmitting Broadcast.set_mediaRecorderRef
       Broadcast.set_recorders Broadcast.set_talkRequests].
  rewrite list_lookup_middle by reflexivity.
  cbn [Broadcast.rec_state Broadcast.rec_uid Broadcast.rec_frequency].
  unfold Broadcast.onRecorderStopped.
  cbn [Broadcast.recorders Broadcast.set_statusText
       Broadcast.set_isTransmitting Broadcast.set_mediaRecorderRef
       Broadcast.set_recorders Broadcast.set_talkRequests].
  rewrite list_lookup_insert_eq by (rewrite length_app; cbn; lia).
  cbn [Broadcast.rec_state Broadcast.rec_uid Broadcast.rec_frequency].
  unfold Broadcast.playRogerBeep.
  repeat case_match; cbn; rewrite ?Hu, ?Hon; repeat split.
Qed.

(** X19.  A transmission is heard on its frequency, and only there.  One
    component, switched on and idle, has its talk button pressed and
    released; the message it adds carries its user and the frequency it
    is tuned to (the number survives [parseFloat(frequency)]).  When the
    server hands that message to a second component within thirty
    seconds, which is switched on, belongs to another user and has
    received nothing yet, the clip is queued if the two are tuned to the
    same frequency and dropped otherwise; handed back to the sender, it
    changes nothing. *)
Theorem transmission_heard_on_its_frequency (a b : Broadcast.Radio)
    (ua ub audio : string) (t now : Z) :
  Broadcast.user a = Some ua ->
  Broadcast.isOn a = true ->
  Broadcast.isReceiving a = false ->
  Broadcast.talkRequests a = [] ->
  in_grid (Broadcast.frequency a) = true ->
  JsString.parseFloat (numberToString (Broadcast.frequency a))
  = Broadcast.frequency a ->
  Broadcast.user b = Some ub ->
  Broadcast.isOn b = true ->
  in_grid (Broadcast.frequency b) = true ->
  Broadcast.lastMessageId b = Broadcast.Null ->
  ua <> ub ->
  now - t <= 30000 ->
  let a' := Broadcast.run numberToString
              (Broadcast.transmission (length (Broadcast.recorders a)) audio)
              a in
  exists data,
    Broadcast.sent a' = (Broadcast.sent a ++ [data])%list
    /\ Broadcast.m_userId data = ua
    /\ Broadcast.m_frequency data = Broadcast.frequency a
    /\ Broadcast.m_audioBase64 data = audio
    /\ (let heard := {| Broadcast.ch_type := Broadcast.Added;
                        Broadcast.ch_data := Broadcast.stamped t data;
                        Broadcast.ch_now := now |} in
        Broadcast.queued
          (Broadcast.step numberToString b (Broadcast.Snapshot [heard]))
        = (Broadcast.queued b
             ++ (if Number.eqb (Broadcast.frequency a) (Broadcast.frequency b)
                 then [audio] else []))%list
        /\ Broadcast.step numberToString a' (Broadcast.Snapshot [heard]) = a').
Proof.
  intros Hua Hon Hrcv Hreq Hfa Hrt Hub Honb Hfb Hlast Hne Hfresh a'.
  destruct (transmission_sent a ua audio Hua Hon Hrcv Hreq)
    as (Hsent & Hua' & Hon').
  fold a' in Hsent, Hua', Hon'. rewrite Hrt in Hsent.
  eexists. split; [exact Hsent|].
  split; [reflexivity|]. split; [reflexivity|]. split; [reflexivity|].
  cbv zeta. cbn [Broadcast.step]. unfold Broadcast.onSnapshot.
  rewrite Hub, Honb, Hua', Hon'. unfold Broadcast.onMessages.
  cbn [fold_left Broadcast.ch_type Broadcast.ch_data Broadcast.ch_now].
  unfold Broadcast.accepts, Broadcast.stamped, Broadcast.msgTime.
  cbn [Broadcast.m_userId Broadcast.m_frequency Broadcast.m_audioBase64
       Broadcast.m_createdAt Broadcast.m_id].
  rewrite String.eqb_refl. cbn [negb]. rewrite andb_false_r.
  cbn [andb]. split; [|reflexivity].
  rewrite Hlast. cbn [Broadcast.strict_eq negb]. rewrite andb_true_r.
  rewrite (tuned_grid _ _ Hfb Hfa).
  assert (Hne' : (ua =? ub)%string = false) by now apply String.eqb_neq.
  rewrite Hne'. cbn [negb]. rewrite andb_true_r.
  assert (Hold : (30000 <? now - (if t =? 0 then now else t)) = false).
  { apply Z.ltb_ge. destruct (Z.eqb_spec t 0); lia. }
  rewrite Hold. cbn [negb]. rewrite andb_true_r.
  destruct (Number.eqb (Broadcast.frequency a) (Broadcast.frequency b)).
  - now rewrite queueAudio_queued.
  - now rewrite app_nil_r.
Qed.

End RadioEndToEnd.

(** *** The status text of the receiver *)

Section RadioStatus.

Variable numberToString : spec_float -> string.

(** X20.  A clip that cannot be decoded leaves the display on
    [RECEIVING].  An idle component that is handed a message it accepts
    starts decoding the clip and shows [RECEIVING] with its frequency.
    When the decoding is rejected, the [catch] branch clears
    [isReceiving] and the playing flag but not the status text, which
    keeps saying [RECEIVING] although nothing is received; when the clip
    is decoded and played to its end, the status returns to [STANDBY]. *)
Theorem undecodable_clip_leaves_receiving_status (r : Broadcast.Radio)
    (uid : string) (k : nat) (data : Broadcast.Message) (now : Z) :
  Broadcast.user r = Some uid ->
  Broadcast.isOn r = true ->
  Broadcast.audioContextRef r = Some k ->
  Broadcast.isPlayingRef r = false ->
  Broadcast.audioQueueRef r = [] ->
  Broadcast.accepts uid (Broadcast.frequency r) (Broadcast.lastMessageId r)
    now data = true ->
  let heard := {| Broadcast.ch_type := Broadcast.Added;
                  Broadcast.ch_data := data; Broadcast.ch_now := now |} in
  let rejected := Broadcast.run numberToString
                    [Broadcast.Snapshot [heard]; Broadcast.Decoded false] r in
  let finished := Broadcast.run numberToString
                    [Broadcast.Snapshot [heard]; Broadcast.Decoded true;
                     Broadcast.Ended] r in
  (Broadcast.isReceiving rejected = false
   /\ Broadcast.isPlayingRef rejected = false
   /\ Broadcast.current rejected = None
   /\ Broadcast.statusText rejected
      = ("RECEIVING " +:+ toFixed1 numberToString (Broadcast.frequency r))%string)
  /\ (Broadcast.isReceiving finished = false
      /\ Broadcast.statusText finished = "STANDBY"%string
      /\ Broadcast.played finished
         = (Broadcast.played r ++ [Broadcast.m_audioBase64 data])%list).
Proof.
  intros Hu Hon Hctx Hplay Hqueue Hacc.
  destruct r; cbn in Hu, Hon, Hctx, Hplay, Hqueue, Hacc; subst.
  cbn -[Broadcast.accepts toFixed1]. rewrite Hacc.
  cbn -[toFixed1]. unfold Broadcast.played. cbn -[toFixed1].
  rewrite List.filter_app, map_app. cbn -[toFixed1]. repeat split.
Qed.

End RadioStatus.

(** *** The further properties on sample runs *)

(** Alice hosts 105.5, bob answers, and both sides come up. *)
Lemma handshake_completes_witness :
  connectionStatus
    (fst (run plainToString
            [DocSnapshot (length (listeners alice)); Settled;
             ConnectionStateChange "connected"%string]
            (fst hosting, snd guesting))) = "CONNECTED"%string
  /\ connectionStatus
       (fst (run plainToString [ConnectionStateChange "connected"%string]
               (fst guesting, snd guesting))) = "CONNECTED"%string.
Proof.
  pose proof (handshake_completes plainToString hostEnv guestEnv alice bob
                empty_store "alice"%string "bob"%string 1%nat 1%nat
                eq_refl eq_refl eq_refl eq_refl eq_refl
                ltac:(vm_compute; reflexivity)) as H.
  cbv zeta in H. destruct H as (_ & Hh & Hg & _).
  split; [exact Hh | exact Hg].
Defined.

(** Alice's join on 105.5 leaves the channel 88.0 alone. *)
Lemma join_touches_only_its_channel_witness :
  docs (snd hosting) !! "freq_88_0"%string
  = docs empty_store !! "freq_88_0"%string
  /\ offerCandidates (snd hosting) = offerCandidates empty_store.
Proof.
  pose proof (join_touches_only_its_channel plainToString hostEnv alice
                empty_store "freq_88_0"%string
                ltac:(vm_compute; discriminate)) as H.
  cbv zeta in H. destruct H as (Hd & Ho & _).
  split; [exact Hd | exact Ho].
Defined.

(** Carol joins the channel bob has answered: bob's answer is replaced. *)
Lemma join_overwrites_answer_witness :
  role (fst thirdJoin) = Guest
  /\ docs (snd thirdJoin) !! callId plainToString (frequency carol)
     = Some {| offer := Some (offer_of hostEnv "alice"%string);
               answer := Some (answer_of guestEnv "carol"%string) |}.
Proof.
  exact (join_overwrites_answer plainToString guestEnv carol (snd guesting)
           "carol"%string 1%nat
           {| offer := Some (offer_of hostEnv "alice"%string);
              answer := Some (answer_of guestEnv "bob"%string) |}
           (offer_of hostEnv "alice"%string)
           eq_refl eq_refl ltac:(vm_compute; reflexivity) eq_refl).
Defined.

(** Bob joins the channel alice left by powering off. *)
Lemma stale_offer_survives_power_off_witness :
  snd poweredOff = snd poweredOn
  /\ role (fst lateGuest) = Guest
  /\ remoteDescription (fst lateGuest)
     = Some {| sd_type := "offer"; sd_sdp := sdp hostEnv |}%string.
Proof.
  pose proof (stale_offer_survives_power_off plainToString hostEnv guestEnv
                alice bob empty_store "alice"%string "bob"%string 1%nat 1%nat
                eq_refl eq_refl eq_refl ltac:(vm_compute; reflexivity)
                eq_refl eq_refl eq_refl) as H.
  cbv zeta in H. destruct H as (_ & Hs & Hr & Hd).
  split; [exact Hs|]. split; [exact Hr | exact Hd].
Defined.

(** Bob joins the channel alice reset. *)
Lemma reset_then_join_hosts_witness :
  role (fst afterReset) = Host
  /\ docs (snd afterReset) !! callId plainToString (frequency (fst hosting))
     = Some {| offer := Some (offer_of guestEnv "bob"%string);
               answer := None |}.
Proof.
  exact (reset_then_join_hosts plainToString guestEnv (fst hosting) bob
           (snd hosting) "bob"%string 1%nat eq_refl eq_refl
           ltac:(vm_compute; reflexivity)).
Defined.

(** The hosting alice publishes a candidate. *)
Lemma candidates_cross_over_witness :
  writes (addDoc "freq_105_5" OfferCandidates "candidate:1" (snd hosting))
  = (writes (snd hosting)
       ++ [WAddDoc "freq_105_5" OfferCandidates "candidate:1"])%list
  /\ onIceCandidate None (fst hosting) (snd hosting) = hosting.
Proof.
  pose proof (candidates_cross_over plainToString hostEnv alice empty_store
                "alice"%string 1%nat "candidate:1"%string eq_refl eq_refl)
    as H.
  cbv zeta in H.
  replace (stored_offer empty_store (callId plainToString (frequency alice)))
    with (@None Offer) in H by (vm_compute; reflexivity).
  replace (callId plainToString (frequency alice))
    with "freq_105_5"%string in H by (vm_compute; reflexivity).
  destruct H as (_ & Hw & Hn & _).
  split; [exact Hw | exact Hn].
Defined.

(** The transport of the hosting alice fails. *)
Lemma transport_failure_closes_session_witness :
  isOn (fst (step plainToString (fst poweredOn, snd poweredOn)
               (ConnectionStateChange "failed"%string))) = true
  /\ snd (step plainToString (fst poweredOn, snd poweredOn)
            (ConnectionStateChange "failed"%string)) = snd poweredOn.
Proof.
  pose proof (transport_failure_closes_session plainToString (fst poweredOn)
                (snd poweredOn) hostConnection "failed"%string hostEnv
                ltac:(vm_compute; reflexivity)) as H.
  cbv zeta in H. destruct H as [H _].
  destruct (H (or_intror eq_refl)) as (_ & Hon & Hdb & _).
  split; [|exact Hdb].
  rewrite Hon. vm_compute. reflexivity.
Defined.

(** The track alice was talking on when the second join was granted the
    microphone is live and enabled after she lets go and powers off. *)
Lemma replaced_stream_is_never_stopped_witness :
  pending_joins hotMicrophone = [("alice"%string, freq_init)]
  /\ streams (client (perform plainToString lettingGo secondGrant)) !! 0%nat
     = Some [{| enabled := true; readyState := Live |}]
  /\ isOn (client (perform plainToString lettingGo secondGrant)) = false
  /\ isTalking (client (perform plainToString lettingGo secondGrant))
     = false.
Proof.
  split; [vm_compute; reflexivity|].
  split; [|vm_compute; split; reflexivity].
  exact (proj2 (proj2 (replaced_stream_is_never_stopped plainToString
                (client hotMicrophone) (store hotMicrophone)
                ("alice"%string, freq_init) [] guestEnv 1%nat 0%nat
                [{| enabled := true; readyState := Live |}]
                ltac:(vm_compute; reflexivity)
                ltac:(vm_compute; reflexivity) eq_refl))
           lettingGo).
Defined.

(** Alice presses the power button twice before the microphone is
    granted. *)
Lemma power_off_leaves_pending_join_witness :
  getStatusDisplay
    (client (perform plainToString
               [PowerPressed; PowerPressed; MicrophoneSettled hostEnv]
               (alice, empty_store, []))) = "OFFLINE"%string
  /\ isOn (client (perform plainToString
                     [PowerPressed; PowerPressed; MicrophoneSettled hostEnv]
                     (alice, empty_store, []))) = false.
Proof.
  pose proof (power_off_leaves_pending_join plainToString alice empty_store
                "alice"%string hostEnv 1%nat eq_refl eq_refl eq_refl) as H.
  cbv zeta in H. destruct H as (Hon & Hd & _).
  split; [exact Hd | exact Hon].
Defined.

(** The answer-candidate listener of the hosting alice outlives the
    session. *)
Lemma candidate_listener_never_detached_witness :
  attached 1 (fst (run plainToString (hostSession ++ hostTeardown)
                     (initial, empty_store))) = Some answerListener.
Proof.
  exact (candidate_listener_never_detached plainToString hostSession
           hostTeardown empty_store 1%nat answerListener AnswerCandidates
           ltac:(vm_compute; reflexivity) eq_refl).
Defined.

(** The hosting alice moves the slider to 88. *)
Lemma slider_reaches_target_witness :
  frequency (onTunerChange plainToString "88" true (fst poweredOn))
  = JsString.parseFloat "88"
  /\ isOn (onTunerChange plainToString "88" true (fst poweredOn)) = false.
Proof.
  pose proof (slider_reaches_target plainToString "88" true (fst poweredOn)
                ltac:(vm_compute; reflexivity)
                ltac:(vm_compute; reflexivity)
                ltac:(vm_compute; reflexivity)) as H.
  cbv zeta in H. destruct H as [H _].
  destruct (H (or_intror eq_refl)) as (Hf & Hon & _).
  split; [exact Hf | exact Hon].
Defined.

(** 105.5 is on channel 36. *)
Lemma channelNumber_half_megahertz_witness :
  channelNumber freq_init = Number.of_scientific false 36 0.
Proof.
  pose proof (channelNumber_half_megahertz freq_init
                ltac:(vm_compute; reflexivity)) as H.
  cbv zeta in H. destruct H as [_ H].
  rewrite H. vm_compute. reflexivity.
Defined.

(** *** The properties of the broadcast component on sample runs *)

(** Bob moves the tuner up one step, then the slider to 88. *)
Lemma radio_frequency_in_range_witness :
  valid_frequency
    (Broadcast.frequency
       (Broadcast.run plainToString radioTuning Broadcast.initial)) = true
  /\ Broadcast.frequency
       (Broadcast.run plainToString radioTuning Broadcast.initial)
     = JsString.parseFloat "88".
Proof.
  assert (Hsteps : Forall Broadcast.tuner_step radioTuning).
  { repeat constructor. }
  pose proof (radio_frequency_in_range plainToString radioTuning Hsteps) as H.
  cbv zeta in H. destruct H as (Hv & _).
  split; [exact Hv | vm_compute; reflexivity].
Defined.

(** 105.5 passes the check against 105.5, and 87.5 does not. *)
Lemma tuner_check_exact_on_grid_witness :
  Broadcast.tuned freq_init freq_init = true
  /\ Broadcast.tuned freq_min freq_init = false.
Proof.
  pose proof (tuner_check_exact_on_grid freq_init freq_init
                ltac:(vm_compute; reflexivity)
                ltac:(vm_compute; reflexivity)) as [H _].
  split; [apply H; reflexivity | vm_compute; reflexivity].
Defined.

(** Bob hears alice's first message and is deaf to her second. *)
Lemma receiver_hears_one_snapshot_witness :
  Broadcast.queued
    (Broadcast.run plainToString (bobListening ++ bobLater) Broadcast.initial)
  = ["T2dnUw=="%string].
Proof.
  assert (H1 : Forall Broadcast.unidentified bobListening)
    by (repeat constructor).
  assert (H2 : Forall Broadcast.unidentified bobLater)
    by (repeat constructor).
  rewrite (receiver_hears_one_snapshot plainToString bobListening bobLater
             H1 H2 ltac:(vm_compute; discriminate)).
  vm_compute. reflexivity.
Defined.

(** Bob taps the talk button. *)
Lemma quick_tap_leaves_microphone_recording_witness :
  Broadcast.isTransmitting
    (Broadcast.run plainToString Broadcast.quick_tap bobOn) = true
  /\ Broadcast.mediaRecorderRef
       (Broadcast.run plainToString Broadcast.quick_tap bobOn) = Some 0%nat.
Proof.
  pose proof (quick_tap_leaves_microphone_recording plainToString bobOn
                "bob"%string eq_refl eq_refl eq_refl eq_refl eq_refl) as H.
  cbv zeta in H. destruct H as (Ht & Hr & _).
  split; [exact Ht | exact Hr].
Defined.

(** Alice transmits on 105.5 and bob, tuned to 105.5, queues the clip. *)
Lemma transmission_heard_on_its_frequency_witness :
  exists data,
    Broadcast.sent
      (Broadcast.run gridToString (Broadcast.transmission 0 "T2dnUw==")
         aliceOn) = [data]
    /\ Broadcast.m_userId data = "alice"%string
    /\ Broadcast.queued
         (Broadcast.step gridToString bobOn
            (Broadcast.Snapshot [heard 2000 (Broadcast.stamped 1000 data)]))
       = ["T2dnUw=="%string].
Proof.
  pose proof (transmission_heard_on_its_frequency gridToString aliceOn bobOn
                "alice"%string "bob"%string "T2dnUw=="%string 1000 2000
                eq_refl eq_refl eq_refl eq_refl
                ltac:(vm_compute; reflexivity)
                ltac:(vm_compute; reflexivity)
                eq_refl eq_refl
                ltac:(vm_compute; reflexivity)
                eq_refl
                ltac:(discriminate) ltac:(lia)) as H.
  cbv zeta in H. destruct H as (data & Hs & Hu & _ & _ & Hq & _).
  exists data. split; [exact Hs|]. split; [exact Hu|].
  unfold heard. rewrite Hq. vm_compute. reflexivity.
Defined.

(** Bob is handed a clip that cannot be decoded. *)
Lemma undecodable_clip_leaves_receiving_status_witness :
  Broadcast.statusText
    (Broadcast.run gridToString
       [Broadcast.Snapshot [heard 2000 firstMessage]; Broadcast.Decoded false]
       bobOn) = "RECEIVING 105.5"%string
  /\ Broadcast.isReceiving
       (Broadcast.run gridToString
          [Broadcast.Snapshot [heard 2000 firstMessage];
           Broadcast.Decoded false] bobOn) = false.
Proof.
  pose proof (undecodable_clip_leaves_receiving_status gridToString bobOn
                "bob"%string 0%nat firstMessage 2000
                eq_refl eq_refl eq_refl eq_refl eq_refl
                ltac:(vm_compute; reflexivity)) as H.
  cbv zeta in H. destruct H as [(Hr & _ & _ & Hs) _].
  split; [|exact Hr].
  unfold heard. rewrite Hs. vm_compute. reflexivity.
Defined.
